(** * IDETC_Hackathon: the JSON knowledge-base merge and reshaping pipeline

    A shallow embedding of the dictionary-reshaping functions of
    [kv_rule.py], [kv-rag/utils/kv_termArrange.py], [kv-rag/utils/kv_qa.py]
    and [kv_term.py], and the properties the specification states about
    them.

    Python values are embedded as the JSON values [json.load] produces.
    A [dict] is an association list in insertion order (Python dicts
    iterate in insertion order, and the properties of the traversal depend on
    it); exceptions are an explicit [result]; the files the functions read
    and write are a finite map from paths to contents. *)

From Stdlib Require Import ZArith Lia.
From Stdlib Require Ascii String.
From stdpp Require Import base option list sorting strings gmap.

(* ================================================================== *)
(** * Python values *)
(* ================================================================== *)

(** The values of [json.load]: [None], [bool], [int], [str], [list] and
    [dict] with [str] keys.  Floating-point numbers are left out. *)
Unset Elimination Schemes.
Inductive json : Type :=
  | JNull
  | JBool (b : bool)
  | JNum (n : Z)
  | JStr (s : string)
  | JArr (items : list json)
  | JObj (fields : list (string * json)).
Set Elimination Schemes.

(** A dict with [str] keys, in insertion order. *)
Abbreviation pydict := (list (string * json)).

(** Induction on a value gives the hypothesis for every element of a
    list and every value of a dict. *)
Definition json_ind (P : json -> Prop)
  (Hnull : P JNull)
  (Hbool : forall b, P (JBool b))
  (Hnum : forall n, P (JNum n))
  (Hstr : forall s, P (JStr s))
  (Harr : forall xs, Forall P xs -> P (JArr xs))
  (Hobj : forall d : pydict, Forall (fun kv => P (snd kv)) d -> P (JObj d))
  : forall x, P x :=
  fix go (x : json) : P x :=
    match x with
    | JNull => Hnull
    | JBool b => Hbool b
    | JNum n => Hnum n
    | JStr s => Hstr s
    | JArr xs =>
        Harr xs ((fix go_list (l : list json) : Forall P l :=
                    match l with
                    | [] => @List.Forall_nil _ P
                    | y :: l' => @List.Forall_cons _ P y l' (go y) (go_list l')
                    end) xs)
    | JObj d =>
        Hobj d ((fix go_dict (l : pydict) : Forall (fun kv => P (snd kv)) l :=
                   match l with
                   | [] => @List.Forall_nil _ _
                   | kv :: l' =>
                       @List.Forall_cons _ (fun kv => P (snd kv)) kv l'
                                         (go (snd kv)) (go_dict l')
                   end) d)
    end.

(** The exceptions the modelled code can raise. *)
Inductive pyerror : Type :=
  | TypeError
  | AttributeError
  | ValueError
  | KeyError
  | FileNotFoundError
  | JSONDecodeError.

Inductive result (A : Type) : Type :=
  | Ok (a : A)
  | Raise (e : pyerror).
Arguments Ok {A} a.
Arguments Raise {A} e.

#[global] Instance result_ret : MRet result := fun _ a => Ok a.
#[global] Instance result_bind : MBind result := fun _ _ f r =>
  match r with
  | Ok a => f a
  | Raise e => Raise e
  end.

(** The call returns a value, it does not raise. *)
Definition returns {A} (r : result A) : Prop := exists a, r = Ok a.

(** A [for] loop whose body may raise: the first exception ends it. *)
Fixpoint for_each {A B} (body : B -> A -> result B) (l : list A) (acc : B)
  : result B :=
  match l with
  | [] => Ok acc
  | x :: l' => acc' ← body acc x; for_each body l' acc'
  end.

(* ------------------------------------------------------------------ *)
(** ** Dictionaries *)

Section Dict.
Context {V : Type}.

(** [d.get(k)]: the value of the (only) entry with key [k]. *)
Fixpoint dict_get (k : string) (d : list (string * V)) : option V :=
  match d with
  | [] => None
  | (k', v) :: d' => if String.eqb k k' then Some v else dict_get k d'
  end.

(** [k in d]. *)
Definition dict_has (k : string) (d : list (string * V)) : bool :=
  match dict_get k d with Some _ => true | None => false end.

(** [d[k] = v]: an existing key keeps its position, a new key goes last. *)
Fixpoint dict_set (k : string) (v : V) (d : list (string * V))
  : list (string * V) :=
  match d with
  | [] => [(k, v)]
  | (k', v') :: d' =>
      if String.eqb k k' then (k', v) :: d' else (k', v') :: dict_set k v d'
  end.

(** [d.update(other)]. *)
Definition dict_update (d other : list (string * V)) : list (string * V) :=
  fold_left (fun acc kv => dict_set (fst kv) (snd kv) acc) other d.

(** The last entry with key [k] in a sequence of (key, value) pairs. *)
Definition last_entry (k : string) (l : list (string * V)) : option V :=
  dict_get k (rev l).
End Dict.

(* ------------------------------------------------------------------ *)
(** ** Equality, truth value, hashing *)

(** Python's [==] on JSON values: [bool] is a subtype of [int]
    ([True == 1]), lists compare element by element, dicts compare as
    mappings whatever their insertion order. *)
Fixpoint py_eq (a b : json) {struct a} : bool :=
  match a with
  | JNull => match b with JNull => true | _ => false end
  | JBool x =>
      match b with
      | JBool y => Bool.eqb x y
      | JNum n => Z.eqb (if x then 1 else 0)%Z n
      | _ => false
      end
  | JNum m =>
      match b with
      | JBool y => Z.eqb m (if y then 1 else 0)%Z
      | JNum n => Z.eqb m n
      | _ => false
      end
  | JStr s => match b with JStr t => String.eqb s t | _ => false end
  | JArr xs =>
      match b with
      | JArr ys =>
          (fix all2 (xs ys : list json) {struct xs} : bool :=
             match xs, ys with
             | [], [] => true
             | x :: xs', y :: ys' => py_eq x y && all2 xs' ys'
             | _, _ => false
             end) xs ys
      | _ => false
      end
  | JObj xs =>
      match b with
      | JObj ys =>
          Nat.eqb (length xs) (length ys) &&
          forallb (fun kv => match dict_get (fst kv) ys with
                             | Some w => py_eq (snd kv) w
                             | None => false
                             end) xs
      | _ => false
      end
  end.

(** [bool(x)], the test of [if x:] and [if not x:]. *)
Definition truthy (x : json) : bool :=
  match x with
  | JNull => false
  | JBool b => b
  | JNum n => negb (Z.eqb n 0%Z)
  | JStr s => negb (String.eqb s "")
  | JArr l => match l with [] => false | _ => true end
  | JObj d => match d with [] => false | _ => true end
  end.

(** Lists and dicts cannot be members of a [set]. *)
Definition hashable (x : json) : bool :=
  match x with
  | JArr _ | JObj _ => false
  | _ => true
  end.

(** A [set] of hashable values, kept as the list of its members in the
    order they were first added (Python leaves the order unspecified). *)
Abbreviation pyset := (list json).

Definition set_mem (x : json) (s : pyset) : bool := existsb (py_eq x) s.

(** [s.add(x)]. *)
Definition set_add (x : json) (s : pyset) : result pyset :=
  if hashable x then Ok (if set_mem x s then s else s ++ [x])
  else Raise TypeError.

(* ------------------------------------------------------------------ *)
(** ** Methods on values of unknown type *)

(** [x.items()]: only a dict has the method. *)
Definition py_items (x : json) : result pydict :=
  match x with
  | JObj d => Ok d
  | _ => Raise AttributeError
  end.

(** [x.get(k, dflt)]: only a dict has the method. *)
Definition py_get (x : json) (k : string) (dflt : json) : result json :=
  match x with
  | JObj d => Ok (default dflt (dict_get k d))
  | _ => Raise AttributeError
  end.

(** [sub in s] on strings. *)
Fixpoint str_contains (sub s : string) : bool :=
  String.prefix sub s ||
  match s with
  | EmptyString => false
  | String _ s' => str_contains sub s'
  end.

(** [key in x] for a [str] key: dict membership, list membership by [==],
    substring test; anything else is not iterable. *)
Definition py_contains (x : json) (key : string) : result bool :=
  match x with
  | JObj d => Ok (dict_has key d)
  | JArr l => Ok (existsb (py_eq (JStr key)) l)
  | JStr s => Ok (str_contains key s)
  | _ => Raise TypeError
  end.

(** [x[key]] for a [str] key: lists and strings want integer indices. *)
Definition py_getitem (x : json) (key : string) : result json :=
  match x with
  | JObj d =>
      match dict_get key d with
      | Some v => Ok v
      | None => Raise KeyError
      end
  | _ => Raise TypeError
  end.

(** [x[key] = value] for a [str] key. *)
Definition py_setitem (x : json) (key : string) (value : json) : result json :=
  match x with
  | JObj d => Ok (JObj (dict_set key value d))
  | _ => Raise TypeError
  end.

(** Every dict inside the value has pairwise distinct keys, as every
    Python dict has. *)
Fixpoint wf_json (x : json) : bool :=
  match x with
  | JArr xs => forallb wf_json xs
  | JObj d =>
      bool_decide (NoDup (map fst d)) &&
      forallb (fun kv => wf_json (snd kv)) d
  | _ => true
  end.

(* ------------------------------------------------------------------ *)
(** ** Library functions *)

(** The library functions the code calls on strings, whose tables are
    not part of the repository: [json.loads] ([None] when it raises
    [JSONDecodeError]), [int] on a [str] ([None] when it raises
    [ValueError]) and [str.lower]. *)
Class Builtins := {
  json_loads : string -> option json;
  py_int : string -> option Z;
  str_lower : string -> string
  }.

(* ================================================================== *)
(** * kv_rule.py *)
(* ================================================================== *)

Section KvRule.
Context `{Builtins}.

(** [select_dictionary_range]: the dict comprehension evaluates
    [int(key)] for every key, in order. *)
Fixpoint select_dictionary_range (input_dict : pydict)
         (start_key end_key : Z) : result pydict :=
  match input_dict with
  | [] => Ok []
  | (key, value) :: rest =>
      match py_int key with
      | None => Raise ValueError
      | Some n =>
          selected ← select_dictionary_range rest start_key end_key;
          Ok (if (start_key <=? n)%Z && (n <=? end_key)%Z
              then (key, value) :: selected else selected)
      end
  end.
End KvRule.

(* ------------------------------------------------------------------ *)
(** ** Files *)

(** What [json.load] finds in a file: a document, or text it rejects with
    [JSONDecodeError] (an empty file included).  [json.dump] writes a
    document that [json.load] reads back as it was, so a file is kept as
    the document it holds; its bytes are a function of that document, key
    order included. *)
Inductive file : Type :=
  | JsonFile (doc : json)
  | CorruptFile.

Abbreviation filesystem := (gmap string file).

(** [with open(path, 'r') as f: json.load(f)]. *)
Definition json_load (fs : filesystem) (path : string) : result json :=
  match fs !! path with
  | None => Raise FileNotFoundError
  | Some CorruptFile => Raise JSONDecodeError
  | Some (JsonFile doc) => Ok doc
  end.

(** [with open(path, 'w') as f: json.dump(doc, f, indent=4)]. *)
Definition json_dump (doc : json) (path : string) (fs : filesystem)
  : filesystem :=
  <[path := JsonFile doc]> fs.

(** [sorted(d.items())]: the keys of a dict are distinct, so the pairs are
    ordered by key alone (strings compare by code point). *)
Fixpoint insert_sorted (kv : string * json) (l : pydict) : pydict :=
  match l with
  | [] => [kv]
  | kv' :: l' =>
      if String.leb (fst kv) (fst kv') then kv :: l
      else kv' :: insert_sorted kv l'
  end.

Definition sorted_items (d : pydict) : pydict := foldr insert_sorted [] d.

(** The loop body of [update_json_if_different]: skip a key that is
    present with an equal value, otherwise write it. *)
Definition update_key (existing_data : json) (item : string * json)
  : result json :=
  let '(key, value) := item in
  present ← py_contains existing_data key;
  same ← (if present : bool
          then old ← py_getitem existing_data key; Ok (py_eq old value)
          else Ok false);
  if same : bool then Ok existing_data
  else py_setitem existing_data key value.

(** [update_json_if_different]: the outcome of the call and the files it
    leaves.  A missing file is first created holding [[]]; a file that
    does not parse counts as [{}]; opening the file for writing empties it
    before [existing_data.items()] is evaluated. *)
Definition update_json_if_different (json_file : string) (new_data : pydict)
           (fs : filesystem) : result json * filesystem :=
  let fs :=
    match fs !! json_file with
    | None => json_dump (JArr []) json_file fs
    | Some _ => fs
    end in
  let existing_data :=
    match fs !! json_file with
    | Some (JsonFile doc) => doc
    | _ => JObj []
    end in
  match for_each update_key new_data existing_data with
  | Raise e => (Raise e, fs)
  | Ok existing_data =>
      match py_items existing_data with
      | Raise e => (Raise e, <[json_file := CorruptFile]> fs)
      | Ok items =>
          (Ok existing_data,
           json_dump (JObj (sorted_items items)) json_file fs)
      end
  end.

(* ================================================================== *)
(** * kv-rag/utils/kv_termArrange.py and kv-rag/utils/kv_qa.py *)
(* ================================================================== *)

(** The accumulator of [extract_terms]: the value the [defaultdict]
    creates for a new term, with its two sets. *)
Record term_entry : Type := TermEntry {
  acc_page_number : pyset;
  acc_rule_number : pyset;
  acc_definition : json;
  acc_terms : json;
  acc_measurements : json
  }.

Definition new_term_entry : term_entry :=
  TermEntry [] [] (JStr "") (JStr "") (JStr "").

(** Step 4 of [extract_terms]: the sets become lists. *)
Definition term_record (e : term_entry) : json :=
  JObj [("page_number", JArr (acc_page_number e));
        ("rule_number", JArr (acc_rule_number e));
        ("definition", acc_definition e);
        ("terms", acc_terms e);
        ("measurements", acc_measurements e)].

Section KvTermArrange.
Context `{Builtins}.

(** [if isinstance(x, str): try: x = json.loads(x) except
    json.JSONDecodeError: continue]: [None] stands for [continue]. *)
Definition loads_if_str (x : json) : option json :=
  match x with
  | JStr s => json_loads s
  | _ => Some x
  end.

(** The two nested loops every function of the file opens with:
    [for page, keys in data.items():], the decoding of a page that is a
    string, and [for key, value in keys.items():] around [body]. *)
Definition for_each_rule {A} (body : string -> A -> string * json -> result A)
           (data : json) (init : A) : result A :=
  pages ← py_items data;
  for_each
    (fun acc '(page, keys) =>
       match loads_if_str keys with
       | None => Ok acc
       | Some keys =>
           items ← py_items keys;
           for_each (body page) items acc
       end)
    pages init.

(** ** flatten_json *)

(** Steps 2 and 3: [flattened_data[rule] = details]. *)
Definition flatten_data (data : json) : result pydict :=
  for_each_rule
    (fun page flattened_data '(rule, details) =>
       Ok (dict_set rule details flattened_data))
    data [].


(** ** extract_terms *)

(** The body of [for term, term_rule in terms.items()]. *)
Definition add_term (page_number definition : json)
           (concatenated_terms : list (string * term_entry))
           (item : string * json) : result (list (string * term_entry)) :=
  let '(term, term_rule) := item in
  let e := default new_term_entry (dict_get term concatenated_terms) in
  pages ← set_add page_number (acc_page_number e);
  rules ← set_add term_rule (acc_rule_number e);
  let definition' :=
    if negb (truthy (acc_definition e)) then definition
    else acc_definition e in
  Ok (dict_set term
        (TermEntry pages rules definition' (JStr term) (acc_measurements e))
        concatenated_terms).

(** The body of [for key, key_data in keys.items()] in step 3. *)
Definition add_rule_terms (page : string)
           (concatenated_terms : list (string * term_entry))
           (item : string * json) : result (list (string * term_entry)) :=
  let '(key, key_data) := item in
  page_number ← py_get key_data "page_number" (JStr page);
  rule_number ← py_get key_data "rule_number" (JStr key);
  terms ← py_get key_data "terms" (JObj []);
  definition ← py_get key_data "definition" (JStr "");
  term_items ← py_items terms;
  for_each (add_term page_number definition) term_items concatenated_terms.

(** Step 3 on the loaded document. *)
Definition concatenate_terms (data : json)
  : result (list (string * term_entry)) :=
  for_each_rule add_rule_terms data [].

(** The body of [for key, value in keys.items()] in step 5. *)
Definition restructure_rule (page : string) (flattened_data : pydict)
           (item : string * json) : result pydict :=
  let '(key, value) := item in
  rule_number ← py_get value "rule_number" (JStr "");
  definition ← py_get value "definition" (JStr "");
  terms ← py_get value "terms" (JObj []);
  Ok (dict_set key
        (JObj [("rule_number", rule_number);
               ("definition", definition);
               ("terms", terms);
               ("measurements", JObj [])])
        flattened_data).

(** Step 5 on the loaded document. *)
Definition restructure_data (data : json) : result pydict :=
  for_each_rule restructure_rule data [].

(** Steps 2 to 6: the document that step 7 writes.  Step 4 turns the
    sets into lists, step 6 is [flattened_data.update(concatenated_terms)]. *)
Definition extract_terms_data (data : json) : result pydict :=
  concatenated_terms ← concatenate_terms data;
  let term_records :=
    map (fun te => (fst te, term_record (snd te))) concatenated_terms in
  flattened_data ← restructure_data data;
  Ok (dict_update flattened_data term_records).

Definition extract_terms (input_file output_file : string) (fs : filesystem)
  : result filesystem :=
  data ← json_load fs input_file;
  flattened_data ← extract_terms_data data;
  Ok (json_dump (JObj flattened_data) output_file fs).

(** ** extract_information (the same text in both files) *)

(** The body of [for key, value in data.items()] in step 3. *)
Definition collect_rule_numbers (key_to_extract : string)
           (rule_numbers : list json) (item : string * json)
  : result (list json) :=
  let '(key, value) := item in
  match loads_if_str value with
  | None => Ok rule_numbers
  | Some value =>
      terms ← py_get value "terms" (JObj []);
      match loads_if_str terms with
      | None => Ok rule_numbers
      | Some terms =>
          term_items ← py_items terms;
          Ok (fold_left
                (fun rule_numbers '(term, rule) =>
                   if String.eqb (str_lower term) (str_lower key_to_extract)
                   then rule_numbers ++ [rule] else rule_numbers)
                term_items rule_numbers)
      end
  end.

(** Steps 2 to 4 on the loaded document; the value returned is a [str]
    or a [list]. *)
Definition extract_information_data (data : json)
           (key_to_extract information_to_extract : string) : result json :=
  if String.eqb information_to_extract "definition" then
    present ← py_contains data key_to_extract;
    if present : bool then
      record ← py_getitem data key_to_extract;
      definition ← py_get record "definition" (JStr "");
      Ok (if truthy definition then definition
          else JStr ("No definition found for key: " +:+ key_to_extract))
    else
      Ok (JStr ("Key '" +:+ key_to_extract +:+
                "' not found in the JSON file."))
  else if String.eqb information_to_extract "rule_numbers" then
    items ← py_items data;
    rule_numbers ← for_each (collect_rule_numbers key_to_extract) items [];
    Ok (match rule_numbers with
        | [] => JStr ("Technical term '" +:+ key_to_extract +:+
                      "' not found in the JSON file.")
        | _ => JArr rule_numbers
        end)
  else
    Ok (JStr ("Invalid information_to_extract value: " +:+
              information_to_extract +:+
              ". Use 'definition' or 'rule_numbers'.")).

Definition extract_information (input_file key_to_extract
                                information_to_extract : string)
           (fs : filesystem) : result json :=
  data ← json_load fs input_file;
  extract_information_data data key_to_extract information_to_extract.
End KvTermArrange.

(* ================================================================== *)
(** * kv_term.py *)
(* ================================================================== *)

(** The loop of [add_rule_number_to_measurements]:
    [value["rule#"] = rule_number] for every entry, in order. *)
Fixpoint tag_measurements (items : pydict) (rule_number : json)
  : result pydict :=
  match items with
  | [] => Ok []
  | (key, value) :: rest =>
      value' ← py_setitem value "rule#" rule_number;
      rest' ← tag_measurements rest rule_number;
      Ok ((key, value') :: rest')
  end.

Definition add_rule_number_to_measurements (data_dict rule_number : json)
  : result json :=
  items ← py_items data_dict;
  items' ← tag_measurements items rule_number;
  Ok (JObj items').

(** The accumulator of [extract_term_as_key]; ["definition"] is assigned
    in the iteration that creates the entry. *)
Record summary_entry : Type := SummaryEntry {
  sum_pages : pyset;
  sum_rules : pyset;
  sum_definition : json
  }.

Definition summary_record (term : string) (e : summary_entry) : json :=
  JObj [("page#", JArr (sum_pages e));
        ("rule#", JArr (sum_rules e));
        ("definition", sum_definition e);
        ("terms", JObj [(term, JArr (sum_rules e))])].

Section KvTerm.
Context `{Builtins}.

(** Decoding the model's answer in [invoke_llm]:
    [try: results_dict = json.loads(results)
     except json.JSONDecodeError: results_dict = {}]. *)
Definition results_dict (results : string) : json :=
  match json_loads results with
  | Some parsed => parsed
  | None => JObj []
  end.

(** The body of [for term, rule in terms.items()] in
    [extract_term_as_key]. *)
Definition add_term_as_key (page_number rule_number definition : json)
           (concatenated_terms : list (string * summary_entry))
           (item : string * json)
  : result (list (string * summary_entry)) :=
  let '(term, rule) := item in
  let e := default (SummaryEntry [] [] JNull)
                   (dict_get term concatenated_terms) in
  pages ← set_add page_number (sum_pages e);
  rules ← set_add rule_number (sum_rules e);
  Ok (dict_set term (SummaryEntry pages rules definition)
               concatenated_terms).

Definition add_rule_as_key (page : string)
           (concatenated_terms : list (string * summary_entry))
           (item : string * json)
  : result (list (string * summary_entry)) :=
  let '(key, rule_data) := item in
  page_number ← py_get rule_data "page#" (JStr page);
  rule_number ← py_get rule_data "rule#" (JStr "");
  definition ← py_get rule_data "definition" (JStr "");
  terms ← py_get rule_data "terms" (JObj []);
  term_items ← py_items terms;
  for_each (add_term_as_key page_number rule_number definition)
           term_items concatenated_terms.

(** The accumulation loop of [extract_term_as_key]. *)
Definition concatenate_terms_as_key (data : json)
  : result (list (string * summary_entry)) :=
  for_each_rule add_rule_as_key data [].

(** The document [extract_term_as_key] writes: every page is replaced
    by the summary of all terms. *)
Definition extract_term_as_key_data (data : json) : result pydict :=
  concatenated_terms ← concatenate_terms_as_key data;
  pages ← py_items data;
  let terms_summary :=
    JObj (map (fun te => (fst te, summary_record (fst te) (snd te)))
              concatenated_terms) in
  let summary := map (fun pg => (fst pg, terms_summary)) pages in
  Ok (dict_update pages summary).

Definition extract_term_as_key (input_file output_file : string)
           (fs : filesystem) : result filesystem :=
  data ← json_load fs input_file;
  data' ← extract_term_as_key_data data;
  Ok (json_dump (JObj data') output_file fs).
End KvTerm.

(* ================================================================== *)
(** * Vocabulary of the properties *)
(* ================================================================== *)

Section Vocabulary.
Context `{Builtins}.

(** The key, read as an integer, lies between the two bounds. *)
Definition key_in_range (start_key end_key : Z) (kv : string * json)
  : bool :=
  match py_int (fst kv) with
  | Some n => (start_key <=? n)%Z && (n <=? end_key)%Z
  | None => false
  end.

(** *** The traversal of a page-keyed document *)

(** The rules a page contributes to the loops: the entries of its
    mapping, decoded first when the page is a string, and none when the
    string does not parse. *)
Definition page_rules (keys : json) : pydict :=
  match loads_if_str keys with
  | Some (JObj items) => items
  | _ => []
  end.

(** A page the loops can read: a mapping, or a string that holds a
    mapping or does not parse. *)
Definition page_ok (keys : json) : bool :=
  match loads_if_str keys with
  | Some (JObj _) | None => true
  | Some _ => false
  end.

(** A page-keyed document: [{page: {rule: record}}]. *)
Definition page_keyed (data : json) : bool :=
  match data with
  | JObj pages => forallb (fun pg => page_ok (snd pg)) pages
  | _ => false
  end.

Definition pages_of (data : json) : pydict :=
  match data with
  | JObj pages => pages
  | _ => []
  end.

(** Every (page, (rule, record)) in the order the loops visit them: pages
    in insertion order, rules of a page in insertion order. *)
Definition traversal (data : json) : list (string * (string * json)) :=
  flat_map (fun pg => map (pair (fst pg)) (page_rules (snd pg)))
         (pages_of data).

(** The (rule, record) pairs of the traversal. *)
Definition rule_records (data : json) : pydict := map snd (traversal data).

(** *** Terms *)

(** One pass of the innermost loop: a term of a rule record, with the
    values the loop bodies read from the record. *)
Record occurrence : Type := Occurrence {
  occ_term : string;
  occ_term_rule : json;       (* the value the terms mapping gives the term *)
  occ_page_number : json;     (* .get("page_number", page) *)
  occ_definition : json;      (* .get("definition", "") *)
  occ_page_hash : json;       (* .get("page#", page) *)
  occ_rule_hash : json        (* .get("rule#", "") *)
  }.

Definition record_terms (record : json) : option pydict :=
  match record with
  | JObj fields =>
    match default (JObj []) (dict_get "terms" fields) with
    | JObj terms => Some terms
    | _ => None
    end
  | _ => None
  end.

(** A rule record the term loops can read: a mapping whose [terms], when
    present, is a mapping. *)
Definition record_ok (record : json) : bool :=
  match record_terms record with Some _ => true | None => false end.

Definition field (record : json) (name : string) (dflt : json) : json :=
  match record with
  | JObj fields => default dflt (dict_get name fields)
  | _ => dflt
  end.

Definition rule_occurrences (pr : string * (string * json))
  : list occurrence :=
  let '(page, (key, record)) := pr in
  map (fun tr =>
       Occurrence (fst tr) (snd tr)
                  (field record "page_number" (JStr page))
                  (field record "definition" (JStr ""))
                  (field record "page#" (JStr page))
                  (field record "rule#" (JStr "")))
    (default [] (record_terms record)).

(** Every term occurrence of the document, in traversal order. *)
Definition occurrences (data : json) : list occurrence :=
  flat_map rule_occurrences (traversal data).

Definition occurrences_of (term : string) (data : json) : list occurrence :=
  List.filter (fun o => String.eqb (occ_term o) term) (occurrences data).

(** The rule numbers the terms mappings give a term, and the definitions
    of the rule records that list it, in traversal order. *)
Definition owners (term : string) (data : json) : list json :=
  map occ_term_rule (occurrences_of term data).

Definition definitions (term : string) (data : json) : list json :=
  map occ_definition (occurrences_of term data).

(** A document [extract_terms] reads to the end: page-keyed, every rule
    record readable, and what goes into the two sets hashable. *)
Definition terms_document (data : json) : bool :=
  page_keyed data &&
  forallb (fun pr => record_ok (snd (snd pr))) (traversal data) &&
  forallb (fun o => hashable (occ_page_number o) && hashable (occ_term_rule o))
        (occurrences data).

(** The same for [extract_term_as_key], which puts the ["page#"] and
    ["rule#"] fields into its sets. *)
Definition summary_document (data : json) : bool :=
  page_keyed data &&
  forallb (fun pr => record_ok (snd (snd pr))) (traversal data) &&
  forallb (fun o => hashable (occ_page_hash o) && hashable (occ_rule_hash o))
        (occurrences data).

(** The terms mappings give every term a rule-number string. *)
Definition string_owners (data : json) : bool :=
  forallb (fun o => match occ_term_rule o with JStr _ => true | _ => false end)
        (occurrences data).

(** *** Lookups *)

(** The rule numbers a record gives the terms that match the query under
    [str.lower]; the record and its [terms] are decoded when they are
    strings. *)
Definition record_matches (key_to_extract : string) (value : json)
  : list json :=
  match loads_if_str value with
  | Some (JObj fields) =>
    match loads_if_str (default (JObj []) (dict_get "terms" fields)) with
    | Some (JObj terms) =>
        map snd
            (List.filter
               (fun tr => String.eqb (str_lower (fst tr))
                                     (str_lower key_to_extract)) terms)
    | _ => []
    end
  | _ => []
  end.

(** All of them, records in insertion order. *)
Definition matching_rule_numbers (key_to_extract : string) (data : json)
  : list json :=
  flat_map (fun kv => record_matches key_to_extract (snd kv)) (pages_of data).

(** A record the scan of [extract_information] can read: a mapping, or a
    string that holds one or does not parse, and the same for its
    [terms]. *)
Definition scannable_record (value : json) : bool :=
  match loads_if_str value with
  | None => true
  | Some (JObj fields) =>
    match loads_if_str (default (JObj []) (dict_get "terms" fields)) with
    | None | Some (JObj _) => true
    | Some _ => false
    end
  | Some _ => false
  end.

Definition scannable (data : json) : bool :=
  match data with
  | JObj records => forallb (fun kv => scannable_record (snd kv)) records
  | _ => false
  end.
End Vocabulary.

(** A mapping, as opposed to any other value. *)
Definition is_mapping (x : json) : bool :=
  match x with JObj _ => true | _ => false end.

(** The entry of [add_rule_number_to_measurements] after the call. *)
Definition tagged (rule_number : json) (before after : string * json) : Prop :=
  fst after = fst before /\
  exists fields,
  snd before = JObj fields /\
  snd after = JObj (dict_set "rule#" rule_number fields).

(** [s.add(x)] for a hashable [x]. *)
Definition set_insert (x : json) (s : pyset) : pyset :=
  if set_mem x s then s else s ++ [x].

(** [d = x if not d else d], the update of a definition. *)
Definition keep_first (d x : json) : json :=
  if negb (truthy d) then x else d.

(** The loop bodies on an occurrence, when nothing raises. *)
Definition update_term_entry (e : term_entry) (o : occurrence) : term_entry :=
  TermEntry (set_insert (occ_page_number o) (acc_page_number e))
          (set_insert (occ_term_rule o) (acc_rule_number e))
          (keep_first (acc_definition e) (occ_definition o))
          (JStr (occ_term o))
          (acc_measurements e).

Definition update_summary_entry (e : summary_entry) (o : occurrence)
  : summary_entry :=
  SummaryEntry (set_insert (occ_page_hash o) (sum_pages e))
             (set_insert (occ_rule_hash o) (sum_rules e))
             (occ_definition o).

(** The innermost loop bodies of [extract_terms] and
    [extract_term_as_key] at an occurrence. *)
Definition add_occurrence (concatenated_terms : list (string * term_entry))
           (o : occurrence) : result (list (string * term_entry)) :=
  add_term (occ_page_number o) (occ_definition o) concatenated_terms
         (occ_term o, occ_term_rule o).

Definition add_occurrence_as_key
           (concatenated_terms : list (string * summary_entry))
           (o : occurrence) : result (list (string * summary_entry)) :=
  add_term_as_key (occ_page_hash o) (occ_rule_hash o) (occ_definition o)
                concatenated_terms (occ_term o, occ_term_rule o).

(** The record step 5 of [extract_terms] stores for a rule. *)
Definition restructured (record : json) : json :=
  JObj [("rule_number", field record "rule_number" (JStr ""));
      ("definition", field record "definition" (JStr ""));
      ("terms", field record "terms" (JObj []));
      ("measurements", JObj [])].

(** [acc[term] = update(acc[term])] with the [defaultdict] default. *)
Definition record_with {E} (update : E -> occurrence -> E) (dflt : E)
           (acc : list (string * E)) (o : occurrence) : list (string * E) :=
  dict_set (occ_term o)
         (update (default dflt (dict_get (occ_term o) acc)) o) acc.

(** The loop body of [update_json_if_different] on a dict: the key is
    skipped when it is present with an equal value. *)
Definition skipped (existing_data : pydict) (item : string * json) : bool :=
  match dict_get (fst item) existing_data with
  | Some old => py_eq old (snd item)
  | None => false
  end.

Definition merge_key (existing_data : pydict) (item : string * json)
  : pydict :=
  if skipped existing_data item then existing_data
  else dict_set (fst item) (snd item) existing_data.

(** Keys in lexicographic order. *)
Definition key_le (a b : string * json) : Prop :=
  String.leb (fst a) (fst b) = true.

(* ================================================================== *)
(** * A concrete reading of the library functions *)
(* ================================================================== *)

(** The ASCII fragment of the three library functions, used to run the
    model on concrete documents: [json.loads] for documents without
    floating-point numbers and without [\u] escapes, [int] for decimal
    digits with optional sign, surrounding blanks and single underscores
    between digits, [str.lower] for the letters A to Z. *)
Module Concrete.
Definition code (c : Ascii.ascii) : nat := Ascii.nat_of_ascii c.

Definition char_in (c : Ascii.ascii) (codes : list nat) : bool :=
  existsb (Nat.eqb (code c)) codes.

Definition is_digit (c : Ascii.ascii) : bool :=
  (48 <=? code c)%nat && (code c <=? 57)%nat.

Definition digit_value (c : Ascii.ascii) : Z := Z.of_nat (code c - 48).

(** *** int *)

Definition is_blank (c : Ascii.ascii) : bool :=
  char_in c [9; 10; 11; 12; 13; 28; 29; 30; 31; 32]%nat.

Fixpoint lstrip (s : string) : string :=
  match s with
  | String c s' => if is_blank c then lstrip s' else s
  | EmptyString => s
  end.

Definition strip (s : string) : string :=
  String.rev (lstrip (String.rev (lstrip s))).

Fixpoint int_digits (s : string) (acc : Z) (after_digit : bool)
  : option Z :=
  match s with
  | EmptyString => if after_digit then Some acc else None
  | String c s' =>
      if is_digit c then int_digits s' (10 * acc + digit_value c)%Z true
      else if (code c =? 95)%nat && after_digit
           then int_digits s' acc false
           else None
  end.

(** Codes 43 and 45 are the signs. *)
Definition int (s : string) : option Z :=
  match strip s with
  | String c s' =>
      if (code c =? 45)%nat then Z.opp <$> int_digits s' 0%Z false
      else if (code c =? 43)%nat then int_digits s' 0%Z false
      else int_digits (String c s') 0%Z false
  | EmptyString => None
  end.

(** *** str.lower *)

Definition lower_char (c : Ascii.ascii) : Ascii.ascii :=
  if (65 <=? code c)%nat && (code c <=? 90)%nat
  then Ascii.ascii_of_nat (code c + 32)
  else c.

Fixpoint lower (s : string) : string :=
  match s with
  | EmptyString => EmptyString
  | String c s' => String (lower_char c) (lower s')
  end.

(** *** json.loads *)

Definition is_json_space (c : Ascii.ascii) : bool :=
  char_in c [9; 10; 13; 32]%nat.

Fixpoint skip_space (s : string) : string :=
  match s with
  | String c s' => if is_json_space c then skip_space s' else s
  | EmptyString => s
  end.

Fixpoint take_digits (s : string) (acc : Z) : Z * string :=
  match s with
  | String c s' =>
      if is_digit c then take_digits s' (10 * acc + digit_value c)%Z
      else (acc, s)
  | EmptyString => (acc, s)
  end.

(** An integer literal; a fraction or an exponent (codes 46, 69, 101
    after the digits) is not read. *)
Definition parse_int (s : string) : option (Z * string) :=
  let '(neg, s) :=
    match s with
    | String c s' => if (code c =? 45)%nat then (true, s') else (false, s)
    | EmptyString => (false, s)
    end in
  match s with
  | String c s' =>
      if is_digit c then
        let '(n, rest) :=
          if (code c =? 48)%nat then (0%Z, s') else take_digits s 0%Z in
        match rest with
        | String c' _ =>
            if is_digit c' || char_in c' [46; 69; 101]%nat then None
            else Some (if neg : bool then Z.opp n else n, rest)
        | EmptyString => Some (if neg : bool then Z.opp n else n, rest)
        end
      else None
  | EmptyString => None
  end.

(** The character an escape letter stands for: quote, backslash and
    slash stand for themselves, then b, f, n, r, t. *)
Definition unescape (c : Ascii.ascii) : option Ascii.ascii :=
  if char_in c [34; 92; 47]%nat then Some c
  else if (code c =? 98)%nat then Some (Ascii.ascii_of_nat 8)
  else if (code c =? 102)%nat then Some (Ascii.ascii_of_nat 12)
  else if (code c =? 110)%nat then Some (Ascii.ascii_of_nat 10)
  else if (code c =? 114)%nat then Some (Ascii.ascii_of_nat 13)
  else if (code c =? 116)%nat then Some (Ascii.ascii_of_nat 9)
  else None.

(** The text after an opening quote (code 34), up to the closing one;
    code 92 is the backslash. *)
Fixpoint parse_str (s : string) : option (string * string) :=
  match s with
  | EmptyString => None
  | String c s' =>
      if (code c =? 34)%nat then Some (EmptyString, s')
      else if (code c =? 92)%nat then
        match s' with
        | String e s'' =>
            c' ← unescape e;
            '(body, rest) ← parse_str s'';
            Some (String c' body, rest)
        | EmptyString => None
        end
      else if (code c <? 32)%nat then None
      else '(body, rest) ← parse_str s'; Some (String c body, rest)
  end.

Definition literal (word : string) (v : json) (s : string)
  : option (json * string) :=
  if String.prefix word s
  then Some (v, String.substring (String.length word)
                                 (String.length s - String.length word) s)
  else None.

(** Codes: 123 and 125 braces, 91 and 93 brackets, 44 comma, 58 colon. *)
Fixpoint parse_value (fuel : nat) (s : string) : option (json * string) :=
  match fuel with
  | O => None
  | S fuel =>
      match skip_space s with
      | EmptyString => None
      | String c s1 =>
          if (code c =? 123)%nat then
            match skip_space s1 with
            | EmptyString => None
            | String c2 s2 =>
                if (code c2 =? 125)%nat then Some (JObj [], s2)
                else parse_members fuel (String c2 s2) []
            end
          else if (code c =? 91)%nat then
            match skip_space s1 with
            | EmptyString => None
            | String c2 s2 =>
                if (code c2 =? 93)%nat then Some (JArr [], s2)
                else parse_elements fuel (String c2 s2) []
            end
          else if (code c =? 34)%nat then
            '(body, rest) ← parse_str s1; Some (JStr body, rest)
          else if (code c =? 110)%nat then literal "null" JNull (String c s1)
          else if (code c =? 116)%nat
               then literal "true" (JBool true) (String c s1)
          else if (code c =? 102)%nat
               then literal "false" (JBool false) (String c s1)
          else '(n, rest) ← parse_int (String c s1); Some (JNum n, rest)
      end
  end
  with parse_elements (fuel : nat) (s : string) (acc : list json)
  : option (json * string) :=
  match fuel with
  | O => None
  | S fuel =>
      '(v, rest) ← parse_value fuel s;
      match skip_space rest with
      | EmptyString => None
      | String c s1 =>
          if (code c =? 44)%nat then parse_elements fuel s1 (acc ++ [v])
          else if (code c =? 93)%nat then Some (JArr (acc ++ [v]), s1)
          else None
      end
  end
  with parse_members (fuel : nat) (s : string) (acc : pydict)
  : option (json * string) :=
  match fuel with
  | O => None
  | S fuel =>
      match skip_space s with
      | EmptyString => None
      | String q s1 =>
          if (code q =? 34)%nat then
            '(key, rest) ← parse_str s1;
            match skip_space rest with
            | EmptyString => None
            | String c s2 =>
                if (code c =? 58)%nat then
                  '(v, rest') ← parse_value fuel s2;
                  match skip_space rest' with
                  | EmptyString => None
                  | String c' s3 =>
                      if (code c' =? 44)%nat
                      then parse_members fuel s3 (dict_set key v acc)
                      else if (code c' =? 125)%nat
                      then Some (JObj (dict_set key v acc), s3)
                      else None
                  end
                else None
            end
          else None
      end
  end.

Definition loads (s : string) : option json :=
  '(v, rest) ← parse_value (2 * String.length s + 2) s;
  match skip_space rest with
  | EmptyString => Some v
  | _ => None
  end.

Definition builtins : Builtins :=
  {| json_loads := loads; py_int := int; str_lower := lower |}.
End Concrete.

(* ================================================================== *)
(** * Example documents *)
(* ================================================================== *)

Module Examples.
(** A page-keyed document: the term Wheelbase is listed by three rule
    records with two distinct rule numbers, page 17 does not parse, and
    the term V.1.3 is spelled like a rule number. *)
Definition page_keyed_rules : json :=
  JObj [("16",
       JObj [("V.1.2",
              JObj [("page_number", JStr "16");
                    ("rule_number", JStr "V.1.2");
                    ("definition", JStr "Wheelbase");
                    ("terms", JObj [("Wheelbase", JStr "V.1.2");
                                    ("V.1.3", JStr "V.1.2")])]);
             ("V.1.3",
              JObj [("page_number", JStr "16");
                    ("rule_number", JStr "V.1.3");
                    ("definition", JStr "Vehicle Track");
                    ("terms", JObj [("Wheelbase", JStr "V.1.3");
                                    ("Rollover Stability", JStr "V.1.3")])])]);
      ("17", JStr "not json");
      ("18",
       JObj [("V.1.3",
              JObj [("page_number", JStr "18");
                    ("rule_number", JStr "V.1.3");
                    ("definition", JStr "Track width");
                    ("terms", JObj [("Wheelbase", JStr "V.1.3")])])])].

(** A rule-keyed document, the rule-flattened layout. *)
Definition rule_keyed_rules : json :=
  JObj [("V.1.2",
       JObj [("rule_number", JStr "V.1.2");
             ("definition", JStr "Wheelbase");
             ("terms", JObj [("Wheelbase", JStr "V.1.2")]);
             ("measurements", JObj [])]);
      ("V.1.3",
       JObj [("rule_number", JStr "V.1.3");
             ("definition", JStr "Vehicle Track");
             ("terms", JObj [("Rollover Stability", JStr "V.1.3")]);
             ("measurements", JObj [])]);
      ("V.1.4",
       JObj [("rule_number", JStr "V.1.4");
             ("definition", JStr "");
             ("terms", JStr "NONE");
             ("measurements", JObj [])])].

(** The text [{"a": 1}]; code 34 is the quote. *)
Definition quote : string := String (Ascii.ascii_of_nat 34) EmptyString.

Definition object_text : string :=
  "{" +:+ quote +:+ "a" +:+ quote +:+ ": 1}".

(** A measurements mapping; the second entry has none of the expected
    fields. *)
Definition measurements : pydict :=
  [("parameter1",
  JObj [("type", JStr "force"); ("component", JStr "accelerator pedal");
        ("criteria", JStr "minimum"); ("value", JStr "500");
        ("unit", JStr "N")]);
 ("parameter2", JObj [("note", JNum 3); ("rule#", JStr "stale")])].
End Examples.

(* ================================================================== *)
(** * Further vocabulary *)
(* ================================================================== *)

(** What a key maps to once [update_json_if_different] has merged
    [new_data] into [store]: a stored value equal to the new one stays as
    it is stored, any other is replaced, an absent key is added. *)
Definition upserted (store new_data : pydict) (key : string) : option json :=
  match dict_get key new_data with
  | None => dict_get key store
  | Some value =>
      match dict_get key store with
      | Some old => if py_eq old value then Some old else Some value
      | None => Some value
      end
  end.


Section FurtherVocabulary.
Context `{Builtins}.

(** The page numbers of the rule records that list a term, in traversal
    order: the record's [page_number], or the page key when it has
    none. *)
Definition term_pages (term : string) (data : json) : list json :=
  map occ_page_number (occurrences_of term data).

(** Every page number the term loop reads is a string. *)
Definition string_pages (data : json) : bool :=
  forallb (fun o => match occ_page_number o with JStr _ => true | _ => false end)
          (occurrences data).

(** No rule record of the traversal has a ["rule#"] field. *)
Definition lacks_rule_hash (data : json) : bool :=
  forallb (fun pr => match snd (snd pr) with
                     | JObj fields => negb (dict_has "rule#" fields)
                     | _ => true
                     end) (traversal data).

(** The keys under which the traversal meets a rule record. *)
Definition rule_keys (data : json) : list string :=
  map fst (rule_records data).
End FurtherVocabulary.


(* ================================================================== *)
(** * The annotation functions and the calls of the service *)
(* ================================================================== *)

(** What the functions below use besides [Builtins]: [str.strip], the
    text [str(x)] of a value that is no string, no boolean and not
    [None], the prompts that stand in the source as long string
    defaults, and the completion service.  [llm_create model input] is
    [client.responses.create(model=model, input=input).output_text],
    [None] when the call raises; the client itself is taken to be
    constructed. *)
Class Service := {
  str_strip : string -> string;
  py_repr : json -> string;
  default_prompt : string;
  llm_create : string -> string -> option string
  }.

(** A failure of a function that calls the service: an exception of the
    list above, the [UnboundLocalError] of a [return] of a name that was
    never assigned, or a dict that gets a key that is no string, which
    [json] does not hold: there the embedding stops. *)
Inductive failure : Type :=
  | PyError (e : pyerror)
  | UnboundLocalError
  | NonStringKey.

Inductive outcome (A : Type) : Type :=
  | Done (a : A)
  | Fail (f : failure).
Arguments Done {A} a.
Arguments Fail {A} f.

#[global] Instance outcome_ret : MRet outcome := fun _ a => Done a.
#[global] Instance outcome_bind : MBind outcome := fun _ _ f r =>
  match r with
  | Done a => f a
  | Fail e => Fail e
  end.

Definition lift {A} (r : result A) : outcome A :=
  match r with
  | Ok a => Done a
  | Raise e => Fail (PyError e)
  end.

Fixpoint for_each_outcome {A B} (body : B -> A -> outcome B) (l : list A)
         (acc : B) : outcome B :=
  match l with
  | [] => Done acc
  | x :: l' => acc' ← body acc x; for_each_outcome body l' acc'
  end.

Definition newline : string := String (Ascii.ascii_of_nat 10) EmptyString.

(** A dict whose keys are any hashable values, in insertion order. *)
Abbreviation hdict := (list (json * json)).

(** [d[k] = v] on such a dict: a key equal to [k] keeps its place. *)
Fixpoint hdict_set (k v : json) (d : hdict) : hdict :=
  match d with
  | [] => [(k, v)]
  | (k', v') :: d' =>
      if py_eq k' k then (k', v) :: d' else (k', v') :: hdict_set k v d'
  end.

(** The dict as a [json] value, when all its keys are strings. *)
Fixpoint hdict_json (d : hdict) : option pydict :=
  match d with
  | [] => Some []
  | (JStr k, v) :: d' => rest ← hdict_json d'; Some ((k, v) :: rest)
  | _ => None
  end.

(** ** add_rule_numbers_to_terms (kv_term.py) *)

(** [technical_terms] made a list: a list as it is, the string "NONE"
    the empty list, any other value the list of that value. *)
Definition terms_list (technical_terms : json) : list json :=
  match technical_terms with
  | JArr l => l
  | other => if py_eq other (JStr "NONE") then [] else [other]
  end.

(** [dict((term, rule_number) for term in technical_terms)]. *)
Fixpoint terms_dict_of (technical_terms : list json) (rule_number : json)
         (acc : hdict) : result hdict :=
  match technical_terms with
  | [] => Ok acc
  | term :: rest =>
      if hashable term
      then terms_dict_of rest rule_number (hdict_set term rule_number acc)
      else Raise TypeError
  end.

(** [add_rule_numbers_to_terms]: the dict returned under
    ["technical_terms"], the only key of the result. *)
Definition add_rule_numbers_to_terms (terms_dict rule_number : json)
  : result hdict :=
  technical_terms ← py_get terms_dict "technical_terms" (JArr []);
  terms_dict_of (terms_list technical_terms) rule_number [].

Section Annotation.
Context `{Builtins} `{Service}.

(** [str(x)]. *)
Definition to_str (x : json) : string :=
  match x with
  | JStr s => s
  | JNull => "None"
  | JBool true => "True"
  | JBool false => "False"
  | _ => py_repr x
  end.

(** ** invoke_llm (kv_term.py) *)

(** [text.strip()] needs a string; [results_dict] is assigned only when
    the call of the service returns, and [return results_dict] raises
    [UnboundLocalError] when it did not. *)
Definition invoke_llm (text : json) (prompt : option string)
  : outcome json :=
  match text with
  | JStr text =>
      let text := str_strip text in
      let prompt := default default_prompt prompt in
      match llm_create "gpt-5-nano" (prompt +:+ newline +:+ newline +:+ text)
      with
      | Some results => Done (results_dict results)
      | None => Fail UnboundLocalError
      end
  | _ => Fail (PyError AttributeError)
  end.

(** ** extract_details (kv_term.py) *)

(** [if isinstance(terms, str): try: terms = json.loads(terms);
    measurements = json.loads(measurements) except
    json.JSONDecodeError: continue]; [json.loads] of a value that is no
    string raises [TypeError].  [None] stands for [continue]. *)
Definition decode_annotations (terms measurements : json)
  : outcome (option (json * json)) :=
  match terms with
  | JStr t =>
      match json_loads t with
      | None => Done None
      | Some terms =>
          match measurements with
          | JStr m =>
              match json_loads m with
              | None => Done None
              | Some measurements => Done (Some (terms, measurements))
              end
          | _ => Fail (PyError TypeError)
          end
      end
  | _ => Done (Some (terms, measurements))
  end.

(** The body of [for rule, details in rules.items()] up to the two
    assignments to [details]: the annotated record, or [None] for
    [continue]. *)
Definition annotate_rule (prompt_term_extraction
                          prompt_measurement_extraction : option string)
           (rule : string) (details : json) : outcome (option json) :=
  definition ← lift (py_get details "definition" (JStr ""));
  terms ← invoke_llm definition prompt_term_extraction;
  measurements ← invoke_llm definition prompt_measurement_extraction;
  decoded ← decode_annotations terms measurements;
  match decoded with
  | None => Done None
  | Some (terms, measurements) =>
      terms ← lift (add_rule_numbers_to_terms terms (JStr rule));
      measurements ←
        lift (add_rule_number_to_measurements measurements (JStr rule));
      terms ← match hdict_json terms with
              | Some terms => Done (JObj terms)
              | None => Fail NonStringKey
              end;
      details ← lift (py_setitem details "terms" terms);
      details ← lift (py_setitem details "measurements" measurements);
      Done (Some details)
  end.

(** The rest of the body: [data[page]] is decoded when it is still a
    string, then [data[page][rule] = details]. *)
Definition store_rule (page rule : string) (details : json) (data : pydict)
  : outcome pydict :=
  current ← lift (py_getitem (JObj data) page);
  let current :=
    match current with
    | JStr s => default current (json_loads s)
    | _ => current
    end in
  current ← lift (py_setitem current rule details);
  Done (dict_set page current data).

Definition annotate_in_page (prompt_term_extraction
                             prompt_measurement_extraction : option string)
           (page : string) (data : pydict) (item : string * json)
  : outcome pydict :=
  let '(rule, details) := item in
  annotated ← annotate_rule prompt_term_extraction
                            prompt_measurement_extraction rule details;
  match annotated with
  | None => Done data
  | Some details => store_rule page rule details data
  end.

(** The body of [for page, rules in data.items()]. *)
Definition annotate_page (prompt_term_extraction
                          prompt_measurement_extraction : option string)
           (start_page end_page : Z) (data : pydict) (entry : string * json)
  : outcome pydict :=
  let '(page, rules) := entry in
  match py_int page with
  | None => Fail (PyError ValueError)
  | Some page_number =>
      if (start_page <=? page_number)%Z && (page_number <=? end_page)%Z then
        match loads_if_str rules with
        | None => Done data
        | Some rules =>
            items ← lift (py_items rules);
            for_each_outcome
              (annotate_in_page prompt_term_extraction
                                prompt_measurement_extraction page)
              items data
        end
      else Done data
  end.

(** The loop of [extract_details] on the loaded document. *)
Definition extract_details_data (prompt_term_extraction
                                 prompt_measurement_extraction : option string)
           (start_page end_page : Z) (data : json) : outcome pydict :=
  pages ← lift (py_items data);
  for_each_outcome
    (annotate_page prompt_term_extraction
                   prompt_measurement_extraction start_page end_page)
    pages pages.

(** [extract_details]: the outcome of the call and the files it leaves;
    the output file is opened after the loop. *)
Definition extract_details (input_file output_file : string)
           (prompt_term_extraction
            prompt_measurement_extraction : option string)
           (start_page end_page : Z) (fs : filesystem)
  : outcome json * filesystem :=
  match data ← lift (json_load fs input_file);
        extract_details_data prompt_term_extraction
                             prompt_measurement_extraction
                             start_page end_page data with
  | Done data => (Done (JObj data), json_dump (JObj data) output_file fs)
  | Fail f => (Fail f, fs)
  end.

(** ** extract_rules_gpt (kv_rule.py) *)

(** [f"\nPage {page_number}\n\n{page_content}"]. *)
Definition page_text (page_number : string) (page_content : json) : string :=
  newline +:+ "Page " +:+ page_number +:+ newline +:+ newline +:+
  to_str page_content.

(** The body of the loop: the answer is stored under the page, a call
    that raises is passed over. *)
Definition ask_page (prompt : string) (results : pydict)
           (item : string * json) : pydict :=
  let '(page_number, page_content) := item in
  match llm_create "gpt-5-nano"
                   (prompt +:+ newline +:+ newline +:+
                    page_text page_number page_content) with
  | Some output_text => dict_set page_number (JStr output_text) results
  | None => results
  end.

(** [extract_rules_gpt]: the function returns [None]; the outcome and
    the files left. *)
Definition extract_rules_gpt (page_content_dict : pydict)
           (output_json : string) (prompt : option string)
           (start_page end_page : Z) (fs : filesystem)
  : result unit * filesystem :=
  match select_dictionary_range page_content_dict start_page end_page with
  | Raise e => (Raise e, fs)
  | Ok context =>
      let results :=
        fold_left (ask_page (default default_prompt prompt)) context [] in
      match update_json_if_different output_json results fs with
      | (Ok _, fs') => (Ok (), fs')
      | (Raise e, fs') => (Raise e, fs')
      end
  end.
End Annotation.

(** ** kv_qa.py *)

Module QA.
Section QA.
Context `{Builtins} `{Service}.

(** The path the module binds to [output_file_with_terms]. *)
Definition output_file_with_terms : string :=
  "../files/processed_rules_with_terms.json".

(** [invoke_llm] of kv_qa.py returns [results]: the text of the answer,
    or the [{}] it was initialised with when the call raises. *)
Definition invoke_llm (model : string) (text : json) (prompt : option string)
  : result json :=
  match text with
  | JStr text =>
      let text := str_strip text in
      let prompt := default default_prompt prompt in
      match llm_create model (prompt +:+ newline +:+ newline +:+ text) with
      | Some results => Ok (JStr results)
      | None => Ok (JObj [])
      end
  | _ => Raise AttributeError
  end.

(** [retrieve_context]; [prompt] stands for the text the function
    passes. *)
Definition retrieve_context (prompt : string) (model : string)
           (question : json) (fs : filesystem) : result json :=
  answer ← invoke_llm model question (Some prompt);
  let answer :=
    match answer with
    | JStr a => default answer (json_loads a)
    | _ => answer
    end in
  key_to_extract ← py_get answer "key_to_extract" JNull;
  information_to_extract ← py_get answer "information_to_extract" JNull;
  context ← extract_information output_file_with_terms
                                (to_str key_to_extract)
                                (to_str information_to_extract) fs;
  Ok (JObj [("key_to_extract", key_to_extract);
            ("information_extracted", context)]).
End QA.
End QA.


(* ------------------------------------------------------------------ *)
(** ** Vocabulary of the annotation *)

Section AnnotationVocabulary.
Context `{Builtins} `{Service}.

(** The rules [extract_details] visits: those of the pages whose number
    is in the range and whose value is, or decodes to, a mapping. *)
Definition rules_in_range (start_page end_page : Z) (data : pydict)
  : list (string * json) :=
  flat_map (fun '(page, rules) =>
              match py_int page with
              | Some page_number =>
                  if (start_page <=? page_number)%Z &&
                     (page_number <=? end_page)%Z
                  then match loads_if_str rules with
                       | Some (JObj items) => items
                       | _ => []
                       end
                  else []
              | None => []
              end) data.

(** A rule record with a text to annotate: a mapping whose
    ["definition"], when it has one, is a string. *)
Definition has_text (details : json) : bool :=
  match details with
  | JObj fields =>
      match dict_get "definition" fields with
      | Some (JStr _) | None => true
      | Some _ => false
      end
  | _ => false
  end.

(** A document of the shape [extract_details] is written for: every
    page key is an integer numeral, and a page of the range is a
    mapping of rule records with a text, or a string that decodes to
    one or does not decode at all. *)
Definition annotatable (start_page end_page : Z) (data : pydict) : bool :=
  forallb (fun '(page, rules) =>
             match py_int page with
             | Some page_number =>
                 if (start_page <=? page_number)%Z &&
                    (page_number <=? end_page)%Z
                 then match loads_if_str rules with
                      | Some (JObj items) =>
                          forallb (fun kv => has_text (snd kv)) items
                      | Some _ => false
                      | None => true
                      end
                 else true
             | None => false
             end) data.

(** The answer [extract_rules_gpt] gets for a page of [context], if the
    page is there and the call returns. *)
Definition page_answer (prompt : option string) (context : pydict)
           (page_number : string) : option string :=
  page_content ← dict_get page_number context;
  llm_create "gpt-5-nano"
             (default default_prompt prompt +:+ newline +:+ newline +:+
              page_text page_number page_content).
End AnnotationVocabulary.

(** An annotated rule record: the record it was with ["terms"] and
    ["measurements"] set, every term mapped to the rule and every
    measurement carrying the rule under ["rule#"]. *)
Definition annotated (rule : string) (details details' : json) : Prop :=
  exists fields terms measurements,
    details = JObj fields /\
    details' = JObj (dict_set "measurements" (JObj measurements)
                       (dict_set "terms" (JObj terms) fields)) /\
    Forall (fun kv => snd kv = JStr rule) terms /\
    Forall (fun kv => exists m, snd kv = JObj m /\
                                dict_get "rule#" m = Some (JStr rule))
           measurements.

(* ------------------------------------------------------------------ *)
(** ** A service for the examples *)

Module Replies.
(** The service answers by a table: the answer of the first entry whose
    mark occurs in the input, and the call raises when there is none.
    The examples take the text of strings and of [None] only. *)
Definition reply (table : list (string * string)) (input : string)
  : option string :=
  snd <$> List.find (fun entry => str_contains (fst entry) input) table.

Definition service (table : list (string * string)) : Service :=
  {| str_strip := Concrete.strip;
     py_repr := fun _ => "";
     default_prompt := "Extract the key terms.";
     llm_create := fun _ input => reply table input |}.

(** No call returns. *)
Definition down : Service := service [].
End Replies.


Module Annotator.
(** A service that answers the prompt [terms:] with one term and the
    prompt [measurements:] with one measurement. *)
Definition terms_answer : string :=
  "{" +:+ Examples.quote +:+ "technical_terms" +:+ Examples.quote +:+ ": [" +:+
  Examples.quote +:+ "wheelbase" +:+ Examples.quote +:+ "]}".

Definition measurements_answer : string :=
  "{" +:+ Examples.quote +:+ "wheelbase" +:+ Examples.quote +:+ ": {" +:+
  Examples.quote +:+ "unit" +:+ Examples.quote +:+ ": " +:+
  Examples.quote +:+ "mm" +:+ Examples.quote +:+ "}}".

Definition service : Service :=
  Replies.service [("terms:", terms_answer);
                   ("measurements:", measurements_answer)].

(** A page-keyed document of rules: page 1 as a mapping, page 7 as
    another. *)
Definition wheelbase : json :=
  JObj [("rule_number", JStr "V.1.2");
        ("definition", JStr "The wheelbase must be at least 1525 mm")].

Definition rules : pydict :=
  [("1", JObj [("V.1.2", wheelbase)]);
   ("7", JObj [("T.1", JObj [("definition", JStr "Brake pedal")])])].
End Annotator.


Module Retrieval.
(** The prompt of the examples, and a service that answers it with the
    mode [rule_number], as the prompt of [retrieve_context] shows it. *)
Definition prompt : string := "Summarize the question.".

Definition answer : string :=
  "{" +:+ Examples.quote +:+ "key_to_extract" +:+ Examples.quote +:+ ": " +:+
  Examples.quote +:+ "Aerodynamic" +:+ Examples.quote +:+ ", " +:+
  Examples.quote +:+ "information_to_extract" +:+ Examples.quote +:+ ": " +:+
  Examples.quote +:+ "rule_number" +:+ Examples.quote +:+ "}".

Definition service : Service := Replies.service [("rules", answer)].

(** A service that answers in prose. *)
Definition prose : Service :=
  Replies.service [("rules", "The rules are T.7 and T.8.")].

Definition store : filesystem :=
  {[QA.output_file_with_terms := JsonFile (JObj [])]}.
End Retrieval.


(* ================================================================== *)
(** * init_kv.py *)
(* ================================================================== *)

(** [s[n:]]. *)
Fixpoint str_drop (n : nat) (s : string) : string :=
  match n, s with
  | O, _ => s
  | S n', String _ s' => str_drop n' s'
  | S _, EmptyString => EmptyString
  end.

(** [s.split(sep, 1)] for a non-empty [sep]: the text before the first
    occurrence of [sep] and the text after it, or [None] when [sep]
    does not occur and the list has [s] alone. *)
Fixpoint str_partition (sep s : string) : option (string * string) :=
  if String.prefix sep s then Some (EmptyString, str_drop (String.length sep) s)
  else match s with
       | EmptyString => None
       | String c s' =>
           match str_partition sep s' with
           | Some (before, after) => Some (String c before, after)
           | None => None
           end
       end.

(** [s.split(sep)] for a non-empty [sep]: the occurrences are taken from
    the left and do not overlap.  Every cut shortens the text, so its
    length bounds their number. *)
Fixpoint split_upto (cuts : nat) (sep s : string) : list string :=
  match str_partition sep s with
  | None => [s]
  | Some (before, after) =>
      match cuts with
      | S cuts' => before :: split_upto cuts' sep after
      | O => [s]
      end
  end.

Definition str_split (sep s : string) : list string :=
  split_upto (String.length s) sep s.

(** The text files [split_text_by_page] reads, by path. *)
Abbreviation textfiles := (gmap string string).

Section InitKv.
Context `{Service}.

(** The body of [for page in pages]: a blank piece is skipped, a piece
    with ["---"] is stored under the text before it, and a piece without
    reaches [page, pagecontent = parts] with a list of one part, which
    raises [ValueError]. *)
Definition split_page (page_content_dict : pydict) (page : string)
  : result pydict :=
  if negb (String.eqb (str_strip page) "") then
    match str_partition "---" page with
    | Some (page_number, content) =>
        Ok (dict_set (str_strip page_number) (JStr (str_strip content))
                     page_content_dict)
    | None => Raise ValueError
    end
  else Ok page_content_dict.

(** [split_text_by_page]: the outcome of the call and the JSON files it
    leaves. *)
Definition split_text_by_page (text_file output_json : string)
           (texts : textfiles) (fs : filesystem) : result json * filesystem :=
  match texts !! text_file with
  | None => (Raise FileNotFoundError, fs)
  | Some text =>
      match for_each split_page (str_split "--- Page " text) [] with
      | Ok page_content_dict =>
          (Ok (JObj page_content_dict),
           json_dump (JObj page_content_dict) output_json fs)
      | Raise e => (Raise e, fs)
      end
  end.

(** The text of a page as [extract_text_with_pdfplumber] writes it: the
    marker, the number up to the closing ["---"], and the lines. *)
Definition page_block (page : string * string) : string :=
  "--- Page " +:+ fst page +:+ "---" +:+ snd page.

(** A text of page blocks after a preface. *)
Definition marked_text (preface : string) (pages : list (string * string))
  : string :=
  preface +:+ fold_right (fun page rest => page_block page +:+ rest) "" pages.

(** The number of the block has no ["---"] of its own, also not
    together with the closing one, and the block brings no page marker
    of its own, also not together with the next one. *)
Definition plain_block (page : string * string) : bool :=
  negb (str_contains "---" (fst page +:+ "--")) &&
  negb (str_contains "--- Page "
                     (fst page +:+ "---" +:+ snd page +:+ "--- Page")).

(** The piece of a block that [split] hands to the loop is not blank. *)
Definition inked_block (page : string * string) : bool :=
  negb (String.eqb (str_strip (fst page +:+ "---" +:+ snd page)) "").
End InitKv.


Module Alloy.
(** A page-keyed document in which a rule lists the term 4130, the name
    of a steel, beside the term Tubing. *)
Definition rules : json :=
  JObj [("40",
         JObj [("T.3.2",
                JObj [("page_number", JStr "40");
                      ("rule_number", JStr "T.3.2");
                      ("definition", JStr "Tubing of 4130 steel");
                      ("terms", JObj [("4130", JStr "T.3.2");
                                      ("Tubing", JStr "T.3.2")])])])].
End Alloy.


(* ================================================================== *)
(** * Properties *)
(* ================================================================== *)

(** ** Dictionaries as association lists *)

Section DictFacts.
Context {V : Type}.
Implicit Types (d : list (string * V)) (k : string) (v : V).

Lemma dict_get_set_eq k v d : dict_get k (dict_set k v d) = Some v.
Proof.
  induction d as [|[k' v'] d IH]; simpl.
  - by rewrite String.eqb_refl.
  - destruct (String.eqb k k') eqn:E; simpl; rewrite E; done.
Qed.

Lemma dict_get_set_ne k k' v d :
  k <> k' -> dict_get k (dict_set k' v d) = dict_get k d.
Proof.
  intros Hne. apply String.eqb_neq in Hne.
  induction d as [|[k'' v''] d IH]; simpl.
  - by rewrite Hne.
  - destruct (String.eqb k' k'') eqn:E; simpl.
    + apply String.eqb_eq in E. subst k''. by rewrite Hne.
    + by rewrite IH.
Qed.

Lemma dict_get_set k k' v d :
  dict_get k (dict_set k' v d) =
  if String.eqb k k' then Some v else dict_get k d.
Proof.
  destruct (String.eqb k k') eqn:E.
  - apply String.eqb_eq in E. subst. apply dict_get_set_eq.
  - apply String.eqb_neq in E. by apply dict_get_set_ne.
Qed.

Lemma dict_get_None k d : dict_get k d = None <-> ~ In k (map fst d).
Proof.
  induction d as [|[k' v'] d IH]; simpl; [tauto|].
  destruct (String.eqb k k') eqn:E.
  - apply String.eqb_eq in E. subst. split; [done | tauto].
  - apply String.eqb_neq in E. rewrite IH. split; [|tauto].
    intros Hn [Hk | Hin]; [congruence | tauto].
Qed.

Lemma dict_get_Some_In k v d : dict_get k d = Some v -> In (k, v) d.
Proof.
  induction d as [|[k' v'] d IH]; simpl; [done|].
  destruct (String.eqb k k') eqn:E.
  - apply String.eqb_eq in E. intros [= ->]. subst. by left.
  - intros Hg. right. by apply IH.
Qed.

Lemma dict_get_In_NoDup k v d :
  List.NoDup (map fst d) -> In (k, v) d -> dict_get k d = Some v.
Proof.
  induction d as [|[k' v'] d IH]; simpl; [done|].
  intros Hnd [Heq | Hin].
  - injection Heq as -> ->. by rewrite String.eqb_refl.
  - inversion Hnd as [|? ? Hnotin Hnd']; subst.
    destruct (String.eqb k k') eqn:E.
    + apply String.eqb_eq in E. subst. exfalso. apply Hnotin.
      apply in_map_iff. by exists (k', v).
    + by apply IH.
Qed.

Lemma dict_set_keys k v d :
  map fst (dict_set k v d) =
  if dict_has k d then map fst d else map fst d ++ [k].
Proof.
  unfold dict_has.
  induction d as [|[k' v'] d IH]; simpl; [done|].
  destruct (String.eqb k k') eqn:E; simpl; [done|].
  rewrite IH. by destruct (dict_get k d).
Qed.

Lemma dict_set_NoDup k v d :
  List.NoDup (map fst d) -> List.NoDup (map fst (dict_set k v d)).
Proof.
  intros Hnd. rewrite dict_set_keys. unfold dict_has.
  destruct (dict_get k d) eqn:E; [done|].
  apply dict_get_None in E.
  apply NoDup_ListNoDup, NoDup_app. apply NoDup_ListNoDup in Hnd.
  split_and!; [done | | apply NoDup_singleton].
  intros x Hx Hx'. apply list_elem_of_singleton in Hx'. subst.
  apply E. by apply list_elem_of_In.
Qed.

Lemma dict_get_update k d other :
  dict_get k (dict_update d other) =
  match last_entry k other with
  | Some v => Some v
  | None => dict_get k d
  end.
Proof.
  unfold dict_update, last_entry. revert d.
  induction other as [|[k' v'] other IH]; intros d; simpl.
  - by destruct (dict_get k d).
  - rewrite IH. rewrite dict_get_set.
    assert (Happ : forall (l : list (string * V)),
               dict_get k (l ++ [(k', v')]) =
               match dict_get k l with
               | Some w => Some w
               | None => if String.eqb k k' then Some v' else None
               end).
    { induction l as [|[a b] l IHl]; simpl; [done|].
      by destruct (String.eqb k a). }
    rewrite Happ. destruct (dict_get k (rev other)); [done|].
    by destruct (String.eqb k k').
Qed.


Lemma dict_update_NoDup d other :
  List.NoDup (map fst d) -> List.NoDup (map fst (dict_update d other)).
Proof.
  unfold dict_update. revert d.
  induction other as [|[k v] other IH]; intros d Hnd; simpl; [done|].
  apply IH. by apply dict_set_NoDup.
Qed.
End DictFacts.

(** ** Loops *)

Lemma for_each_app {A B} (body : B -> A -> result B) (l1 l2 : list A) acc :
  for_each body (l1 ++ l2) acc =
  (acc' ← for_each body l1 acc; for_each body l2 acc').
Proof.
  revert acc. induction l1 as [|x l1 IH]; intros acc; simpl; [done|].
  destruct (body acc x) as [acc'|e]; simpl; [apply IH | done].
Qed.

(** A loop whose body never raises is a left fold. *)
Lemma for_each_pure {A B} (body : B -> A -> result B) (step : B -> A -> B)
      (P : A -> Prop) (l : list A) acc :
  (forall b x, P x -> body b x = Ok (step b x)) ->
  Forall P l ->
  for_each body l acc = Ok (fold_left step l acc).
Proof.
  intros Hbody Hl. revert acc.
  induction Hl as [|x l Hx Hl IH]; intros acc; simpl; [done|].
  rewrite Hbody by done. simpl. apply IH.
Qed.

(* ------------------------------------------------------------------ *)
(** ** RangeSelector: [select_dictionary_range] *)

Section RangeSelector.
Context `{Builtins}.

Lemma key_in_range_spec start_key end_key kv :
  key_in_range start_key end_key kv = true <->
  exists n, py_int (fst kv) = Some n /\ (start_key <= n <= end_key)%Z.
Proof.
  unfold key_in_range. destruct (py_int (fst kv)) as [n|].
  - rewrite andb_true_iff, !Z.leb_le. split.
    + intros Hr. exists n. split; [done | lia].
    + intros (m & [= <-] & Hr). lia.
  - split; [done | by intros (n & Hn & _)].
Qed.

(** C5. When every key parses as an integer, [select_dictionary_range]
    returns exactly the entries whose key [n] satisfies
    [start_key <= n <= end_key], both bounds included, in their order;
    when some key does not parse, the call raises (a [ValueError]) and
    returns nothing. *)
Theorem select_dictionary_range_inclusive
        (input_dict : pydict) (start_key end_key : Z) :
  (Forall (fun kv => is_Some (py_int (fst kv))) input_dict ->
   select_dictionary_range input_dict start_key end_key =
     Ok (List.filter (key_in_range start_key end_key) input_dict)) /\
  (Exists (fun kv => py_int (fst kv) = None) input_dict ->
   select_dictionary_range input_dict start_key end_key = Raise ValueError).
Proof.
  split.
  - induction 1 as [|[key value] rest [n Hn] _ IH]; simpl in *; [done|].
    rewrite Hn, IH. simpl. unfold key_in_range. simpl. rewrite Hn.
    by destruct ((start_key <=? n)%Z && (n <=? end_key)%Z).
  - induction input_dict as [|[key value] rest IH]; intros Hex; simpl.
    + by apply Exists_nil in Hex.
    + destruct (py_int key) as [n|] eqn:Hn; [|done].
      apply Exists_cons in Hex as [Hbad | Hex]; simpl in *; [congruence|].
      by rewrite (IH Hex).
Qed.
End RangeSelector.

Lemma select_dictionary_range_inclusive_witness :
  @select_dictionary_range Concrete.builtins
    [("1", JStr "a"); ("5", JStr "b"); ("16", JStr "c")] 1 5 =
    Ok [("1", JStr "a"); ("5", JStr "b")] /\
  @select_dictionary_range Concrete.builtins
    [("1", JStr "a"); ("cover", JStr "b")] 1 5 = Raise ValueError.
Proof.
  split.
  - apply (proj1 (@select_dictionary_range_inclusive Concrete.builtins
                    [("1", JStr "a"); ("5", JStr "b"); ("16", JStr "c")] 1 5)).
    repeat constructor; eexists; vm_compute; reflexivity.
  - apply (proj2 (@select_dictionary_range_inclusive Concrete.builtins
                    [("1", JStr "a"); ("cover", JStr "b")] 1 5)).
    apply Exists_cons_tl, Exists_cons_hd. vm_compute. reflexivity.
Defined.

(* ------------------------------------------------------------------ *)
(** ** Equality of values *)

Lemma all2_py_eq_refl (xs : list json) :
  Forall (fun x => wf_json x = true -> py_eq x x = true) xs ->
  forallb wf_json xs = true ->
  (fix all2 (xs ys : list json) {struct xs} : bool :=
     match xs, ys with
     | [], [] => true
     | x :: xs', y :: ys' => py_eq x y && all2 xs' ys'
     | _, _ => false
     end) xs xs = true.
Proof.
  induction 1 as [|x xs Hx _ IH]; simpl; [done|].
  intros [Hwx Hwxs]%andb_true_iff. rewrite (Hx Hwx). simpl. by apply IH.
Qed.

(** [x == x] holds for every value built from dicts with distinct keys. *)
Lemma py_eq_refl (x : json) : wf_json x = true -> py_eq x x = true.
Proof.
  induction x as [| b | n | s | xs IH | d IH] using json_ind; simpl; try done.
  - intros _. by destruct b.
  - intros _. apply Z.eqb_refl.
  - intros _. apply String.eqb_refl.
  - intros Hwf. by apply all2_py_eq_refl.
  - intros [Hnd Hwf]%andb_true_iff.
    apply bool_decide_eq_true, NoDup_ListNoDup in Hnd.
    rewrite Nat.eqb_refl. simpl.
    apply forallb_forall. intros [k v] Hin. simpl.
    rewrite (dict_get_In_NoDup k v d Hnd Hin).
    rewrite Forall_forall in IH.
    apply (IH (k, v)); [by apply list_elem_of_In|].
    rewrite forallb_forall in Hwf. apply (Hwf (k, v) Hin).
Qed.

(* ------------------------------------------------------------------ *)
(** ** PersistentMergeStore: [update_json_if_different] *)

Lemma leb_refl (s : string) : String.leb s s = true.
Proof. by destruct (String.leb_total s s). Qed.

Lemma dict_get_insert_sorted k kv (l : pydict) :
  dict_get k (insert_sorted kv l) =
  if String.eqb k (fst kv) then Some (snd kv) else dict_get k l.
Proof.
  destruct kv as [k' v']. simpl.
  induction l as [|[k'' v''] l IH]; simpl; [done|].
  destruct (String.leb k' k'') eqn:Hle; simpl; [done|].
  rewrite IH. destruct (String.eqb k k') eqn:E1; [|done].
  apply String.eqb_eq in E1. subst k'.
  destruct (String.eqb k k'') eqn:E2; [|done].
  apply String.eqb_eq in E2. subst k''. by rewrite leb_refl in Hle.
Qed.

(** Sorting moves entries, it does not change what a key maps to. *)
Lemma dict_get_sorted_items k (d : pydict) :
  dict_get k (sorted_items d) = dict_get k d.
Proof.
  induction d as [|[k' v'] d IH]; simpl; [done|].
  rewrite dict_get_insert_sorted. simpl. by rewrite IH.
Qed.

Lemma insert_sorted_Sorted kv (l : pydict) :
  Sorted key_le l -> Sorted key_le (insert_sorted kv l).
Proof.
  induction 1 as [|kv' l Hs IH Hhd]; simpl.
  - by repeat constructor.
  - destruct (String.leb (fst kv) (fst kv')) eqn:Hle.
    + by repeat constructor.
    + constructor; [done|].
      assert (Hge : key_le kv' kv).
      { unfold key_le. destruct (String.leb_total (fst kv) (fst kv'));
          [congruence | done]. }
      destruct l as [|kv'' l]; simpl in *; [by constructor|].
      destruct (String.leb (fst kv) (fst kv'')); constructor; [done|].
      by inversion Hhd.
Qed.

Lemma sorted_items_Sorted (d : pydict) : Sorted key_le (sorted_items d).
Proof.
  induction d as [|kv d IH]; simpl; [constructor|].
  by apply insert_sorted_Sorted.
Qed.

Lemma sorted_items_id (d : pydict) : Sorted key_le d -> sorted_items d = d.
Proof.
  induction 1 as [|kv l Hs IH Hhd]; simpl; [done|].
  rewrite IH. destruct Hhd as [|kv' l' Hle]; simpl; [done|].
  unfold key_le in Hle. by rewrite Hle.
Qed.

Lemma update_key_dict (d : pydict) (item : string * json) :
  update_key (JObj d) item = Ok (JObj (merge_key d item)).
Proof.
  destruct item as [key value].
  unfold update_key, merge_key, skipped. simpl. unfold dict_has.
  destruct (dict_get key d) as [old|]; simpl; [|done].
  by destruct (py_eq old value).
Qed.

Lemma update_loop_dict (new_data d : pydict) :
  for_each update_key new_data (JObj d) =
  Ok (JObj (fold_left merge_key new_data d)).
Proof.
  revert d. induction new_data as [|item new_data IH]; intros d; simpl;
    [done|].
  rewrite update_key_dict. simpl. apply IH.
Qed.

Lemma merge_key_get k (d : pydict) item :
  k <> fst item -> dict_get k (merge_key d item) = dict_get k d.
Proof.
  intros Hne. unfold merge_key. destruct (skipped d item); [done|].
  by apply dict_get_set_ne.
Qed.

Lemma merge_keys_get k (new_data d : pydict) :
  ~ In k (map fst new_data) ->
  dict_get k (fold_left merge_key new_data d) = dict_get k d.
Proof.
  revert d. induction new_data as [|item new_data IH]; intros d Hk; simpl;
    [done|].
  simpl in Hk. rewrite IH by tauto. apply merge_key_get. intros ->. tauto.
Qed.

(** After the loop every new key is present with a value equal to the new
    one. *)
Lemma merged_skipped (new_data d : pydict) :
  List.NoDup (map fst new_data) ->
  Forall (fun item => py_eq (snd item) (snd item) = true) new_data ->
  Forall (fun item => skipped (fold_left merge_key new_data d) item = true)
         new_data.
Proof.
  intros Hnd Hrefl. revert d.
  induction Hrefl as [|[k v] new_data Hv _ IH]; intros d; simpl; [done|].
  inversion Hnd as [|? ? Hk Hnd']; subst. constructor.
  - unfold skipped at 1. simpl. rewrite merge_keys_get by done.
    unfold merge_key. destruct (skipped d (k, v)) eqn:Hs.
    + exact Hs.
    + simpl. by rewrite dict_get_set_eq.
  - by apply IH.
Qed.

Lemma merge_skipped_id (new_data d : pydict) :
  Forall (fun item => skipped d item = true) new_data ->
  fold_left merge_key new_data d = d.
Proof.
  induction 1 as [|item new_data Hs _ IH]; simpl; [done|].
  unfold merge_key at 2. by rewrite Hs.
Qed.

Lemma skipped_sorted_items (d : pydict) item :
  skipped (sorted_items d) item = skipped d item.
Proof. unfold skipped. by rewrite dict_get_sorted_items. Qed.

Lemma wf_dict_values (d : pydict) :
  wf_json (JObj d) = true ->
  List.NoDup (map fst d) /\
  Forall (fun item => py_eq (snd item) (snd item) = true) d.
Proof.
  simpl. intros [Hnd Hwf]%andb_true_iff. split.
  - by apply bool_decide_eq_true, NoDup_ListNoDup in Hnd.
  - apply Forall_forall. intros item Hin. apply py_eq_refl.
    rewrite forallb_forall in Hwf. apply Hwf. by apply list_elem_of_In.
Qed.

(** The call on a store that holds a JSON object. *)
Lemma update_json_object json_file (new_data store : pydict)
      (fs : filesystem) :
  fs !! json_file = Some (JsonFile (JObj store)) ->
  update_json_if_different json_file new_data fs =
  (Ok (JObj (fold_left merge_key new_data store)),
   <[json_file :=
       JsonFile (JObj (sorted_items (fold_left merge_key new_data store)))]>
     fs).
Proof.
  intros Hfile. unfold update_json_if_different, json_dump.
  rewrite Hfile. simpl. rewrite Hfile. by rewrite update_loop_dict.
Qed.

(** C1. On a store whose document is a JSON object, a second call of
    [update_json_if_different] with the same [new_data] leaves exactly
    the files the first call left: it loads the document the first call
    wrote, finds every key of [new_data] present with an equal value and
    skips it, and rewrites the same document, whose keys are in
    lexicographic order. *)
Theorem update_json_if_different_idempotent json_file
        (new_data store : pydict) (fs : filesystem) :
  fs !! json_file = Some (JsonFile (JObj store)) ->
  wf_json (JObj new_data) = true ->
  exists merged doc,
    let fs1 := <[json_file := JsonFile (JObj doc)]> fs in
    update_json_if_different json_file new_data fs = (Ok (JObj merged), fs1) /\
    update_json_if_different json_file new_data fs1 = (Ok (JObj doc), fs1) /\
    doc = sorted_items merged /\
    Sorted key_le doc /\
    Forall (fun item => skipped doc item = true) new_data.
Proof.
  intros Hfile [Hnd Hrefl]%wf_dict_values.
  set (merged := fold_left merge_key new_data store).
  exists merged, (sorted_items merged). simpl.
  assert (Hskip : Forall (fun item => skipped (sorted_items merged) item = true)
                         new_data).
  { eapply Forall_impl; [by apply merged_skipped|].
    intros item Hs. simpl in Hs. by rewrite skipped_sorted_items. }
  split_and!.
  - by apply update_json_object.
  - rewrite (update_json_object json_file new_data (sorted_items merged))
      by apply lookup_insert_eq.
    rewrite merge_skipped_id by done.
    rewrite (sorted_items_id (sorted_items merged))
      by apply sorted_items_Sorted.
    by rewrite insert_insert_eq.
  - done.
  - apply sorted_items_Sorted.
  - done.
Qed.

Lemma update_json_if_different_idempotent_witness :
  exists merged doc,
    let fs := {["extracted_rules.json" :=
                  JsonFile (JObj [("18", JStr "c"); ("16", JStr "old")])]} in
    let new_data := [("17", JStr "b"); ("16", JStr "a")] in
    let fs1 := <["extracted_rules.json" := JsonFile (JObj doc)]> fs in
    update_json_if_different "extracted_rules.json" new_data fs =
      (Ok (JObj merged), fs1) /\
    update_json_if_different "extracted_rules.json" new_data fs1 =
      (Ok (JObj doc), fs1) /\
    doc = sorted_items merged /\
    Sorted key_le doc /\
    Forall (fun item => skipped doc item = true) new_data.
Proof.
  apply (update_json_if_different_idempotent "extracted_rules.json"
           [("17", JStr "b"); ("16", JStr "a")]
           [("18", JStr "c"); ("16", JStr "old")]).
  - apply lookup_singleton_eq.
  - vm_compute. reflexivity.
Defined.

(** A missing file is created holding a list, which no key can be
    written into. *)
Lemma update_key_list (l : list json) (item : string * json) :
  update_key (JArr l) item = Raise TypeError.
Proof.
  destruct item as [key value]. unfold update_key, py_contains.
  destruct (existsb (py_eq (JStr key)) l); reflexivity.
Qed.

(** C2. At a path where no file exists, [update_json_if_different] with a
    non-empty [new_data] writes the document [[]], loads it back as a
    list and raises [TypeError] at the first key: nothing is merged and
    no document is returned. *)
Theorem update_json_missing_file_raises json_file (new_data : pydict)
        (fs : filesystem) :
  fs !! json_file = None ->
  new_data <> [] ->
  update_json_if_different json_file new_data fs =
  (Raise TypeError, <[json_file := JsonFile (JArr [])]> fs).
Proof.
  intros Hfile Hne. unfold update_json_if_different, json_dump.
  rewrite Hfile. simpl. rewrite lookup_insert_eq.
  destruct new_data as [|item new_data]; [done|]. simpl.
  by rewrite update_key_list.
Qed.

Lemma update_json_missing_file_raises_witness :
  update_json_if_different "extracted_rules.json" [("16", JStr "rules")] ∅ =
  (Raise TypeError, {["extracted_rules.json" := JsonFile (JArr [])]}).
Proof.
  apply (update_json_missing_file_raises "extracted_rules.json"
           [("16", JStr "rules")] ∅).
  - apply lookup_empty.
  - discriminate.
Defined.

(* ------------------------------------------------------------------ *)
(** ** The traversal of a page-keyed document *)

Lemma for_each_map {A B C} (body : B -> C -> result B) (f : A -> C)
      (l : list A) acc :
  for_each body (map f l) acc = for_each (fun b x => body b (f x)) l acc.
Proof.
  revert acc. induction l as [|x l IH]; intros acc; simpl; [done|].
  destruct (body acc (f x)); simpl; [apply IH | done].
Qed.

Lemma for_each_ext {A B} (body body' : B -> A -> result B) (l : list A) acc :
  Forall (fun x => forall b, body b x = body' b x) l ->
  for_each body l acc = for_each body' l acc.
Proof.
  intros Hl. revert acc.
  induction Hl as [|x l Hx _ IH]; intros acc; simpl; [done|].
  rewrite Hx. destruct (body' acc x); simpl; [apply IH | done].
Qed.

(** A loop inside a loop is one loop over the concatenated items. *)
Lemma for_each_flat_map {A B C} (body : B -> C -> result B)
      (f : A -> list C) (l : list A) acc :
  for_each (fun b x => for_each body (f x) b) l acc =
  for_each body (flat_map f l) acc.
Proof.
  revert acc. induction l as [|x l IH]; intros acc; simpl; [done|].
  rewrite for_each_app.
  destruct (for_each body (f x) acc); simpl; [apply IH | done].
Qed.

Lemma fold_left_map' {A B C} (step : B -> C -> B) (f : A -> C)
      (l : list A) acc :
  fold_left step (map f l) acc = fold_left (fun b x => step b (f x)) l acc.
Proof.
  revert acc. induction l as [|x l IH]; intros acc; simpl; [done | apply IH].
Qed.

Section Traversal.
Context `{Builtins}.

(** On a page-keyed document the two nested loops visit the traversal. *)
Lemma for_each_rule_traversal {A}
      (body : string -> A -> string * json -> result A) data init :
  page_keyed data = true ->
  for_each_rule body data init =
  for_each (fun acc pr => body (fst pr) acc (snd pr)) (traversal data) init.
Proof.
  destruct data as [| | | | |pages]; try done.
  unfold for_each_rule, traversal. simpl. revert init.
  induction pages as [|[page keys] pages IH]; intros init; simpl; [done|].
  intros [Hpage Hpages]%andb_true_iff.
  rewrite for_each_app, for_each_map. simpl.
  unfold page_ok, page_rules in *.
  destruct (loads_if_str keys) as [[| | | | |items]|]; try done; simpl.
  - destruct (for_each (body page) items init); simpl; [by apply IH | done].
  - by apply IH.
Qed.

Lemma flatten_data_update data :
  page_keyed data = true ->
  flatten_data data = Ok (dict_update [] (rule_records data)).
Proof.
  intros Hdata. unfold flatten_data.
  rewrite for_each_rule_traversal by done.
  rewrite (for_each_pure _
             (fun acc pr => dict_set (fst (snd pr)) (snd (snd pr)) acc)
             (fun _ => True)).
  - unfold dict_update, rule_records. by rewrite fold_left_map'.
  - by intros b [page [rule details]] _.
  - by apply Forall_forall.
Qed.

End Traversal.


(* ------------------------------------------------------------------ *)
(** ** TermAggregator: the accumulation loops *)

Lemma set_add_hashable x s :
  hashable x = true -> set_add x s = Ok (set_insert x s).
Proof. intros Hx. unfold set_add. by rewrite Hx. Qed.

Lemma add_occurrence_pure acc o :
  hashable (occ_page_number o) && hashable (occ_term_rule o) = true ->
  add_occurrence acc o =
  Ok (record_with update_term_entry new_term_entry acc o).
Proof.
  intros [Hp Hr]%andb_true_iff. unfold add_occurrence, add_term.
  rewrite (set_add_hashable _ _ Hp). simpl.
  by rewrite (set_add_hashable _ _ Hr).
Qed.

Lemma add_occurrence_as_key_pure acc o :
  hashable (occ_page_hash o) && hashable (occ_rule_hash o) = true ->
  add_occurrence_as_key acc o =
  Ok (record_with update_summary_entry (SummaryEntry [] [] JNull) acc o).
Proof.
  intros [Hp Hr]%andb_true_iff. unfold add_occurrence_as_key, add_term_as_key.
  rewrite (set_add_hashable _ _ Hp). simpl.
  by rewrite (set_add_hashable _ _ Hr).
Qed.

(** The body of the rule loop is the term loop over the occurrences of
    the rule. *)
Lemma add_rule_terms_occurrences acc (pr : string * (string * json)) :
  record_ok (snd (snd pr)) = true ->
  add_rule_terms (fst pr) acc (snd pr) =
  for_each add_occurrence (rule_occurrences pr) acc.
Proof.
  destruct pr as [page [key record]]. unfold record_ok, record_terms. simpl.
  destruct record as [| | | | |fields]; try done. simpl.
  destruct (default (JObj []) (dict_get "terms" fields))
    as [| | | | |terms]; try done.
  intros _. simpl. rewrite for_each_map. apply for_each_ext.
  apply Forall_forall. by intros [term term_rule] _ b.
Qed.

Lemma add_rule_as_key_occurrences acc (pr : string * (string * json)) :
  record_ok (snd (snd pr)) = true ->
  add_rule_as_key (fst pr) acc (snd pr) =
  for_each add_occurrence_as_key (rule_occurrences pr) acc.
Proof.
  destruct pr as [page [key record]]. unfold record_ok, record_terms. simpl.
  destruct record as [| | | | |fields]; try done. simpl.
  destruct (default (JObj []) (dict_get "terms" fields))
    as [| | | | |terms]; try done.
  intros _. simpl. rewrite for_each_map. apply for_each_ext.
  apply Forall_forall. by intros [term term_rule] _ b.
Qed.

Lemma restructure_rule_pure acc (pr : string * (string * json)) :
  record_ok (snd (snd pr)) = true ->
  restructure_rule (fst pr) acc (snd pr) =
  Ok (dict_set (fst (snd pr)) (restructured (snd (snd pr))) acc).
Proof.
  destruct pr as [page [key record]]. unfold record_ok, record_terms. simpl.
  by destruct record as [| | | | |fields].
Qed.

Section Accumulation.
Context `{Builtins}.

Lemma terms_document_parts data :
  terms_document data = true ->
  page_keyed data = true /\
  Forall (fun pr => record_ok (snd (snd pr)) = true) (traversal data) /\
  Forall (fun o => hashable (occ_page_number o) &&
                   hashable (occ_term_rule o) = true) (occurrences data).
Proof.
  unfold terms_document. rewrite !andb_true_iff, !forallb_forall.
  intros [[Hp Hr] Ho]. split_and!; [done | |]; apply Forall_forall;
    intros x Hx%list_elem_of_In; auto.
Qed.

Lemma summary_document_parts data :
  summary_document data = true ->
  page_keyed data = true /\
  Forall (fun pr => record_ok (snd (snd pr)) = true) (traversal data) /\
  Forall (fun o => hashable (occ_page_hash o) &&
                   hashable (occ_rule_hash o) = true) (occurrences data).
Proof.
  unfold summary_document. rewrite !andb_true_iff, !forallb_forall.
  intros [[Hp Hr] Ho]. split_and!; [done | |]; apply Forall_forall;
    intros x Hx%list_elem_of_In; auto.
Qed.

(** Step 3 of [extract_terms] is the innermost body run over the
    occurrences. *)
Lemma concatenate_terms_occurrences data :
  page_keyed data = true ->
  Forall (fun pr => record_ok (snd (snd pr)) = true) (traversal data) ->
  concatenate_terms data = for_each add_occurrence (occurrences data) [].
Proof.
  intros Hp Hr. unfold concatenate_terms, occurrences.
  rewrite for_each_rule_traversal by done.
  rewrite <- for_each_flat_map. apply for_each_ext.
  eapply Forall_impl; [exact Hr|]. intros pr Hpr b. simpl in Hpr.
  by apply add_rule_terms_occurrences.
Qed.

Lemma concatenate_terms_fold data :
  terms_document data = true ->
  concatenate_terms data =
  Ok (fold_left (record_with update_term_entry new_term_entry)
                (occurrences data) []).
Proof.
  intros (Hp & Hr & Ho)%terms_document_parts.
  rewrite concatenate_terms_occurrences by done.
  eapply for_each_pure; [|exact Ho]. intros b o Hh. simpl in Hh.
  by apply add_occurrence_pure.
Qed.

Lemma concatenate_terms_as_key_fold data :
  summary_document data = true ->
  concatenate_terms_as_key data =
  Ok (fold_left (record_with update_summary_entry (SummaryEntry [] [] JNull))
                (occurrences data) []).
Proof.
  intros (Hp & Hr & Ho)%summary_document_parts.
  unfold concatenate_terms_as_key, occurrences.
  rewrite for_each_rule_traversal by done.
  rewrite (for_each_ext _
             (fun b pr => for_each add_occurrence_as_key
                                   (rule_occurrences pr) b)).
  - rewrite for_each_flat_map.
    eapply for_each_pure; [|exact Ho]. intros b o Hh. simpl in Hh.
    by apply add_occurrence_as_key_pure.
  - eapply Forall_impl; [exact Hr|]. intros pr Hpr b. simpl in Hpr.
    by apply add_rule_as_key_occurrences.
Qed.

Lemma restructure_data_update data :
  page_keyed data = true ->
  Forall (fun pr => record_ok (snd (snd pr)) = true) (traversal data) ->
  restructure_data data =
  Ok (dict_update []
        (map (fun kr => (fst kr, restructured (snd kr))) (rule_records data))).
Proof.
  intros Hp Hr. unfold restructure_data.
  rewrite for_each_rule_traversal by done.
  rewrite (for_each_pure _
             (fun acc pr => dict_set (fst (snd pr))
                                     (restructured (snd (snd pr))) acc)
             (fun pr => record_ok (snd (snd pr)) = true)); [| |done].
  - unfold dict_update, rule_records. by rewrite !fold_left_map'.
  - intros b pr Hpr. by apply restructure_rule_pure.
Qed.
End Accumulation.

(* ------------------------------------------------------------------ *)
(** ** One term of the accumulator *)

(** What the accumulator holds for one term after a run of occurrences:
    only the occurrences of that term count. *)
Lemma dict_get_record_with {E} (update : E -> occurrence -> E) (dflt : E)
      (term : string) (os : list occurrence) (acc : list (string * E)) :
  dict_get term (fold_left (record_with update dflt) os acc) =
  fold_left (fun oe o => Some (update (default dflt oe) o))
            (List.filter (fun o => String.eqb (occ_term o) term) os)
            (dict_get term acc).
Proof.
  revert acc. induction os as [|o os IH]; intros acc; simpl; [done|].
  rewrite IH. unfold record_with. rewrite dict_get_set.
  rewrite (String.eqb_sym term (occ_term o)).
  destruct (String.eqb (occ_term o) term) eqn:Heq; simpl; [|done].
  apply String.eqb_eq in Heq. by subst term.
Qed.

Lemma record_with_NoDup {E} (update : E -> occurrence -> E) (dflt : E)
      (os : list occurrence) (acc : list (string * E)) :
  List.NoDup (map fst acc) ->
  List.NoDup (map fst (fold_left (record_with update dflt) os acc)).
Proof.
  revert acc. induction os as [|o os IH]; intros acc Hnd; simpl; [done|].
  apply IH. by apply dict_set_NoDup.
Qed.

(** A term with an occurrence has an entry. *)
Lemma entry_fold_Some {E} (update : E -> occurrence -> E) (dflt : E)
      (os : list occurrence) (oe : option E) :
  os <> [] \/ is_Some oe ->
  is_Some (fold_left (fun oe o => Some (update (default dflt oe) o)) os oe).
Proof.
  revert oe. induction os as [|o os IH]; intros oe Hne; simpl.
  - by destruct Hne.
  - apply IH. right. by eexists.
Qed.

(** *** The set of rule numbers *)

Lemma set_mem_str (a : string) (s : pyset) :
  set_mem (JStr a) s = true <-> In (JStr a) s.
Proof.
  unfold set_mem. rewrite existsb_exists. split.
  - intros (y & Hy & Heq). destruct y; try done. simpl in Heq.
    apply String.eqb_eq in Heq. by subst.
  - intros Hin. exists (JStr a). split; [done|]. simpl.
    apply String.eqb_refl.
Qed.

Lemma set_insert_str_fold (xs : list json) (s : pyset) :
  Forall (fun x => match x with JStr _ => true | _ => false end = true) xs ->
  List.NoDup s ->
  List.NoDup (fold_left (fun s x => set_insert x s) xs s) /\
  forall r, In r (fold_left (fun s x => set_insert x s) xs s) <->
            In r s \/ In r xs.
Proof.
  intros Hxs. revert s.
  induction Hxs as [|x xs Hx _ IH]; intros s Hnd; simpl;
    [split; [done | intros r; tauto]|].
  destruct x as [| | |a| |]; try done.
  assert (Hstep : List.NoDup (set_insert (JStr a) s) /\
                  forall r, In r (set_insert (JStr a) s) <->
                            In r s \/ r = JStr a).
  { unfold set_insert. destruct (set_mem (JStr a) s) eqn:Hm.
    - apply set_mem_str in Hm. split; [done|]. intros r. split; [tauto|].
      intros [Hr | ->]; done.
    - assert (Hnot : ~ In (JStr a) s).
      { intros Hin%set_mem_str. congruence. }
      split.
      + apply NoDup_ListNoDup, NoDup_app. apply NoDup_ListNoDup in Hnd.
        split_and!; [done | | apply NoDup_singleton].
        intros y Hy Hy'%list_elem_of_singleton. subst.
        by apply Hnot, list_elem_of_In.
      + intros r. rewrite in_app_iff. simpl. split.
        * intros [?|[<-|[]]]; auto.
        * intros [?| ->]; auto. }
  destruct Hstep as [Hnd' Hmem]. destruct (IH _ Hnd') as [IHnd IHmem].
  split; [done|]. intros r. rewrite IHmem, Hmem. split.
  - intros [[?| ->]|?]; auto.
  - intros [?|[<-|?]]; auto.
Qed.

Lemma term_entry_rules (os : list occurrence) (oe : option term_entry) :
  acc_rule_number
    (default new_term_entry
       (fold_left (fun oe o => Some (update_term_entry
                                       (default new_term_entry oe) o)) os oe)) =
  fold_left (fun s x => set_insert x s) (map occ_term_rule os)
            (acc_rule_number (default new_term_entry oe)).
Proof.
  revert oe. induction os as [|o os IH]; intros oe; simpl; [done|].
  by rewrite IH.
Qed.

(** *** The definition *)

Lemma term_entry_definition (os : list occurrence) (oe : option term_entry) :
  acc_definition
    (default new_term_entry
       (fold_left (fun oe o => Some (update_term_entry
                                       (default new_term_entry oe) o)) os oe)) =
  fold_left keep_first (map occ_definition os)
            (acc_definition (default new_term_entry oe)).
Proof.
  revert oe. induction os as [|o os IH]; intros oe; simpl; [done|].
  by rewrite IH.
Qed.

(** A non-empty definition stays. *)
Lemma keep_first_truthy (ds : list json) (d : json) :
  truthy d = true -> fold_left keep_first ds d = d.
Proof.
  intros Hd. induction ds as [|x ds IH]; simpl; [done|].
  unfold keep_first at 2. by rewrite Hd.
Qed.

(** From an empty definition, the first non-empty one is kept. *)
Lemma keep_first_find (ds : list json) (d0 d : json) :
  truthy d0 = false ->
  List.find truthy ds = Some d ->
  fold_left keep_first ds d0 = d.
Proof.
  revert d0. induction ds as [|x ds IH]; intros d0 Hd0; simpl; [done|].
  unfold keep_first at 2. rewrite Hd0. simpl.
  destruct (truthy x) eqn:Hx.
  - intros [= ->]. by apply keep_first_truthy.
  - by apply IH.
Qed.

Lemma summary_entry_definition (os : list occurrence)
      (oe : option summary_entry) :
  sum_definition <$>
    fold_left (fun oe o => Some (update_summary_entry
                                   (default (SummaryEntry [] [] JNull) oe) o))
              os oe =
  match last (map occ_definition os) with
  | Some d => Some d
  | None => sum_definition <$> oe
  end.
Proof.
  revert oe. induction os as [|o os IH]; intros oe; simpl.
  - by destruct oe.
  - rewrite IH, last_cons. simpl.
    by destruct (last (map occ_definition os)).
Qed.

(* ------------------------------------------------------------------ *)
(** ** TermAggregator: [extract_terms] and [extract_term_as_key] *)

Lemma last_entry_NoDup {V} (k : string) (l : list (string * V)) :
  List.NoDup (map fst l) -> last_entry k l = dict_get k l.
Proof.
  intros Hnd. unfold last_entry.
  assert (Hrev : List.NoDup (map fst (rev l))).
  { rewrite map_rev. by apply List.NoDup_rev. }
  destruct (dict_get k l) as [v|] eqn:Hget.
  - apply dict_get_In_NoDup; [done|].
    apply in_rev. rewrite rev_involutive. by apply dict_get_Some_In.
  - apply dict_get_None. apply dict_get_None in Hget.
    rewrite map_rev. by rewrite <- in_rev.
Qed.

Lemma dict_get_map_values {V W} (f : V -> W) (k : string)
      (l : list (string * V)) :
  dict_get k (map (fun kv => (fst kv, f (snd kv))) l) = f <$> dict_get k l.
Proof.
  induction l as [|[k' v] l IH]; simpl; [done|].
  by destruct (String.eqb k k').
Qed.

Section Aggregation.
Context `{Builtins}.

(** What [extract_terms] computes on a document it reads to the end:
    the accumulator of step 3, the flattened rules of step 5, and their
    combination by step 6. *)
Lemma extract_terms_data_get data :
  terms_document data = true ->
  exists concatenated_terms flattened_data output,
    concatenate_terms data = Ok concatenated_terms /\
    concatenated_terms =
      fold_left (record_with update_term_entry new_term_entry)
                (occurrences data) [] /\
    restructure_data data = Ok flattened_data /\
    flattened_data =
      dict_update []
        (map (fun kr => (fst kr, restructured (snd kr))) (rule_records data)) /\
    extract_terms_data data = Ok output /\
    output =
      dict_update flattened_data
        (map (fun te => (fst te, term_record (snd te))) concatenated_terms) /\
    (forall key,
        dict_get key output =
        match dict_get key concatenated_terms with
        | Some e => Some (term_record e)
        | None => dict_get key flattened_data
        end).
Proof.
  intros Hdoc. pose proof (concatenate_terms_fold data Hdoc) as Hterms.
  apply terms_document_parts in Hdoc as (Hp & Hr & Ho).
  pose proof (restructure_data_update data Hp Hr) as Hflat.
  set (terms := fold_left (record_with update_term_entry new_term_entry)
                          (occurrences data) []) in *.
  set (flat := dict_update [] _) in *.
  set (records := map (fun te => (fst te, term_record (snd te))) terms).
  exists terms, flat, (dict_update flat records). split_and!; try done.
  - unfold extract_terms_data. rewrite Hterms. simpl. by rewrite Hflat.
  - intros key. rewrite dict_get_update, last_entry_NoDup.
    + unfold records. rewrite dict_get_map_values.
      by destruct (dict_get key terms).
    + unfold records. rewrite map_map. simpl.
      apply record_with_NoDup. constructor.
Qed.

Lemma extract_terms_writes input_file output_file data output
      (fs : filesystem) :
  fs !! input_file = Some (JsonFile data) ->
  extract_terms_data data = Ok output ->
  extract_terms input_file output_file fs =
  Ok (<[output_file := JsonFile (JObj output)]> fs).
Proof.
  intros Hfile Hout. unfold extract_terms, json_load.
  rewrite Hfile. simpl. by rewrite Hout.
Qed.


(** C3 (amended). On a page-keyed document [extract_terms] reads to the
    end and whose terms mappings give rule-number strings, the record of a
    term that occurs lists, without duplicates, exactly the rule numbers
    the terms mappings give the term: [n] of them when these are [n]
    distinct rule numbers. *)
Theorem extract_terms_rule_numbers input_file output_file data
        (fs : filesystem) :
  fs !! input_file = Some (JsonFile data) ->
  terms_document data = true ->
  string_owners data = true ->
  exists concatenated_terms output,
    concatenate_terms data = Ok concatenated_terms /\
    extract_terms input_file output_file fs =
      Ok (<[output_file := JsonFile (JObj output)]> fs) /\
    forall term,
      owners term data <> [] ->
      exists e,
        dict_get term concatenated_terms = Some e /\
        dict_get term output = Some (term_record e) /\
        List.NoDup (acc_rule_number e) /\
        (forall r, In r (acc_rule_number e) <-> In r (owners term data)) /\
        (forall n distinct,
            List.NoDup distinct ->
            length distinct = n ->
            (forall r, In r distinct <-> In r (owners term data)) ->
            length (acc_rule_number e) = n).
Proof.
  intros Hfile Hdoc Hstr.
  destruct (extract_terms_data_get data Hdoc)
    as (terms & flat & output & Hterms & -> & _ & _ & Hout & _ & Hget).
  eexists _, output.
  split_and!;
    [done | by apply (extract_terms_writes input_file output_file data) |].
  intros term Hocc.
  pose proof (dict_get_record_with update_term_entry new_term_entry term
                (occurrences data) []) as Hproj.
  simpl in Hproj. fold (occurrences_of term data) in Hproj.
  assert (Hsome : is_Some (dict_get term
             (fold_left (record_with update_term_entry new_term_entry)
                        (occurrences data) []))).
  { rewrite Hproj. apply entry_fold_Some. left. intros Hnil.
    apply Hocc. unfold owners. by rewrite Hnil. }
  destruct Hsome as [e He]. exists e.
  assert (Hrules : acc_rule_number e =
                   fold_left (fun s x => set_insert x s) (owners term data) []).
  { pose proof (term_entry_rules (occurrences_of term data) None) as Hr.
    rewrite <- Hproj, He in Hr. exact Hr. }
  assert (Hall : Forall (fun x => match x with JStr _ => true | _ => false end
                                  = true) (owners term data)).
  { unfold owners, occurrences_of. apply Forall_forall.
    intros x Hx%list_elem_of_In. apply in_map_iff in Hx as (o & <- & Ho).
    apply filter_In in Ho as [Ho _].
    unfold string_owners in Hstr. rewrite forallb_forall in Hstr.
    by apply Hstr. }
  destruct (set_insert_str_fold (owners term data) [] Hall)
    as [Hnd Hmem]; [constructor|].
  rewrite <- Hrules in Hnd, Hmem.
  split_and!; [done | by rewrite Hget, He | done | |].
  - intros r. rewrite Hmem. simpl. tauto.
  - intros n distinct Hd <- Hsame.
    apply Permutation_length, NoDup_Permutation.
    + by apply NoDup_ListNoDup.
    + by apply NoDup_ListNoDup.
    + intros r. rewrite !list_elem_of_In, Hmem, Hsame. simpl. tauto.
Qed.

(** C4 (amended). On a page-keyed document, [extract_terms] keeps for a
    term the first non-empty definition of the traversal, and a non-empty
    definition held after any part of the traversal is the one held at the
    end; [extract_term_as_key] keeps the definition of the last rule
    record that lists the term. *)
Theorem term_definition_first_or_last data :
  (terms_document data = true ->
   exists concatenated_terms,
     concatenate_terms data = Ok concatenated_terms /\
     forall term e,
       dict_get term concatenated_terms = Some e ->
       (forall d, List.find truthy (definitions term data) = Some d ->
                  acc_definition e = d) /\
       (forall os1 os2 acc1 e1,
           occurrences data = os1 ++ os2 ->
           for_each add_occurrence os1 [] = Ok acc1 ->
           dict_get term acc1 = Some e1 ->
           truthy (acc_definition e1) = true ->
           acc_definition e = acc_definition e1)) /\
  (summary_document data = true ->
   exists concatenated_terms,
     concatenate_terms_as_key data = Ok concatenated_terms /\
     forall term e,
       dict_get term concatenated_terms = Some e ->
       last (definitions term data) = Some (sum_definition e)).
Proof.
  split.
  - intros Hdoc. eexists. split; [by apply concatenate_terms_fold|].
    apply terms_document_parts in Hdoc as (_ & _ & Ho).
    intros term e He. split.
    + intros d Hfind.
      rewrite dict_get_record_with in He. simpl in He.
      fold (occurrences_of term data) in He.
      pose proof (term_entry_definition (occurrences_of term data) None) as Hd.
      rewrite He in Hd. simpl in Hd. rewrite Hd.
      by apply keep_first_find.
    + intros os1 os2 acc1 e1 Hsplit Hacc1 He1 Htruthy.
      rewrite Hsplit in He, Ho. apply Forall_app in Ho as [Ho1 _].
      rewrite (for_each_pure _ (record_with update_term_entry new_term_entry)
                 _ os1 [] (fun b o Hh => add_occurrence_pure b o Hh) Ho1)
        in Hacc1.
      injection Hacc1 as <-.
      rewrite fold_left_app, dict_get_record_with, He1 in He.
      pose proof (term_entry_definition
                    (List.filter (fun o => String.eqb (occ_term o) term) os2)
                    (Some e1)) as Hd.
      rewrite He in Hd. simpl in Hd. rewrite Hd.
      by apply keep_first_truthy.
  - intros Hdoc. eexists. split; [by apply concatenate_terms_as_key_fold|].
    intros term e He.
    rewrite dict_get_record_with in He. simpl in He.
    fold (occurrences_of term data) in He.
    pose proof (summary_entry_definition (occurrences_of term data) None)
      as Hd.
    rewrite He in Hd. simpl in Hd. unfold definitions.
    by destruct (last (map occ_definition (occurrences_of term data))).
Qed.
End Aggregation.


Lemma extract_terms_rule_numbers_witness :
  let fs : filesystem :=
    {["processed_rules.json" := JsonFile Examples.page_keyed_rules]} in
  exists concatenated_terms output,
    @concatenate_terms Concrete.builtins Examples.page_keyed_rules =
      Ok concatenated_terms /\
    @extract_terms Concrete.builtins "processed_rules.json"
      "processed_rules_with_terms.json" fs =
      Ok (<["processed_rules_with_terms.json" := JsonFile (JObj output)]> fs) /\
    forall term,
      @owners Concrete.builtins term Examples.page_keyed_rules <> [] ->
      exists e,
        dict_get term concatenated_terms = Some e /\
        dict_get term output = Some (term_record e) /\
        List.NoDup (acc_rule_number e) /\
        (forall r, In r (acc_rule_number e) <->
                   In r (@owners Concrete.builtins term
                                 Examples.page_keyed_rules)) /\
        (forall n distinct,
            List.NoDup distinct ->
            length distinct = n ->
            (forall r, In r distinct <->
                       In r (@owners Concrete.builtins term
                                     Examples.page_keyed_rules)) ->
            length (acc_rule_number e) = n).
Proof.
  apply (@extract_terms_rule_numbers Concrete.builtins
           "processed_rules.json" "processed_rules_with_terms.json"
           Examples.page_keyed_rules).
  - apply lookup_singleton_eq.
  - vm_compute. reflexivity.
  - vm_compute. reflexivity.
Defined.

(** C3, as stated, fails: on a rule-keyed document the inner loop of
    [extract_terms] runs over the fields of a rule record and calls
    [.get] on a string. *)
Lemma extract_terms_rule_keyed_raises :
  @concatenate_terms Concrete.builtins Examples.rule_keyed_rules =
    Raise AttributeError /\
  @extract_terms_data Concrete.builtins Examples.rule_keyed_rules =
    Raise AttributeError.
Proof. split; vm_compute; reflexivity. Qed.

Lemma term_definition_first_or_last_witness :
  (exists concatenated_terms,
     @concatenate_terms Concrete.builtins Examples.page_keyed_rules =
       Ok concatenated_terms /\
     forall term e,
       dict_get term concatenated_terms = Some e ->
       (forall d,
           List.find truthy (@definitions Concrete.builtins term
                                          Examples.page_keyed_rules) = Some d ->
           acc_definition e = d) /\
       (forall os1 os2 acc1 e1,
           @occurrences Concrete.builtins Examples.page_keyed_rules =
             os1 ++ os2 ->
           for_each add_occurrence os1 [] = Ok acc1 ->
           dict_get term acc1 = Some e1 ->
           truthy (acc_definition e1) = true ->
           acc_definition e = acc_definition e1)) /\
  (exists concatenated_terms,
     @concatenate_terms_as_key Concrete.builtins Examples.page_keyed_rules =
       Ok concatenated_terms /\
     forall term e,
       dict_get term concatenated_terms = Some e ->
       last (@definitions Concrete.builtins term Examples.page_keyed_rules) =
         Some (sum_definition e)).
Proof.
  destruct (@term_definition_first_or_last Concrete.builtins
              Examples.page_keyed_rules) as [Hfirst Hlast].
  split; [apply Hfirst | apply Hlast]; vm_compute; reflexivity.
Defined.

(** C4, as stated, fails for [extract_term_as_key]: the first non-empty
    definition of Wheelbase is that of V.1.2, the one stored is that of
    the last record listing it. *)
Lemma extract_term_as_key_overwrites :
  List.find truthy (@definitions Concrete.builtins "Wheelbase"
                                 Examples.page_keyed_rules) =
    Some (JStr "Wheelbase") /\
  exists concatenated_terms e,
    @concatenate_terms_as_key Concrete.builtins Examples.page_keyed_rules =
      Ok concatenated_terms /\
    dict_get "Wheelbase" concatenated_terms = Some e /\
    sum_definition e = JStr "Track width".
Proof.
  split; [vm_compute; reflexivity|].
  eexists _, _. split_and!; vm_compute; reflexivity.
Qed.

(* ------------------------------------------------------------------ *)
(** ** AnnotationMerger: [add_rule_number_to_measurements] *)

Lemma tag_measurements_mappings (items : pydict) (rule_number : json) :
  Forall (fun kv => is_mapping (snd kv) = true) items ->
  exists items',
    tag_measurements items rule_number = Ok items' /\
    Forall2 (tagged rule_number) items items'.
Proof.
  induction 1 as [|[key value] items Hv _ (items' & Htag & Hall)]; simpl.
  - exists []. by split.
  - destruct value as [| | | | |fields]; try done. simpl. rewrite Htag. simpl.
    eexists. split; [done|]. constructor; [|done].
    split; [done|]. by exists fields.
Qed.

Lemma add_rule_number_to_measurements_frame_core (data_dict : pydict)
      (rule_number : json) :
  Forall (fun kv => is_mapping (snd kv) = true) data_dict ->
  exists tagged_dict,
    add_rule_number_to_measurements (JObj data_dict) rule_number =
      Ok (JObj tagged_dict) /\
    Forall2 (tagged rule_number) data_dict tagged_dict.
Proof.
  intros Hmaps.
  destruct (tag_measurements_mappings data_dict rule_number Hmaps)
    as (tagged_dict & Htag & Hall).
  exists tagged_dict. unfold add_rule_number_to_measurements. simpl.
  by rewrite Htag.
Qed.

(** An entry that is no mapping cannot take the field. *)
Lemma tag_measurements_not_mapping key value (items : pydict) rule_number :
  is_mapping value = false ->
  tag_measurements ((key, value) :: items) rule_number = Raise TypeError.
Proof. by destruct value. Qed.

(** C9. On a mapping whose entries are mappings, whatever their fields,
    [add_rule_number_to_measurements] returns a mapping with the same
    keys in the same order; in every entry ['rule#'] is the rule number
    and every other field is as it was. *)
Theorem add_rule_number_to_measurements_frame (data_dict : pydict)
        (rule_number : json) :
  Forall (fun kv => is_mapping (snd kv) = true) data_dict ->
  exists tagged_dict,
    add_rule_number_to_measurements (JObj data_dict) rule_number =
      Ok (JObj tagged_dict) /\
    map fst tagged_dict = map fst data_dict /\
    Forall2 (tagged rule_number) data_dict tagged_dict /\
    Forall2 (fun before after =>
               field (snd after) "rule#" JNull = rule_number /\
               forall name dflt,
                 name <> "rule#" ->
                 field (snd after) name dflt = field (snd before) name dflt)
            data_dict tagged_dict.
Proof.
  intros Hmaps.
  destruct (add_rule_number_to_measurements_frame_core data_dict rule_number
              Hmaps) as (tagged_dict & Htag & Hall).
  exists tagged_dict. split_and!; [done | | done |].
  - clear Htag Hmaps. induction Hall as [|b a bs as' [Hk _] _ IH]; simpl;
      [done|]. by rewrite Hk, IH.
  - eapply Forall2_impl; [exact Hall|].
    intros before after (_ & fields & Hb & Ha). rewrite Hb, Ha. simpl.
    split.
    + by rewrite dict_get_set_eq.
    + intros name dflt Hne. by rewrite dict_get_set_ne.
Qed.

Lemma add_rule_number_to_measurements_frame_witness :
  exists tagged_dict,
    add_rule_number_to_measurements (JObj Examples.measurements)
                                    (JStr "V.1.2") = Ok (JObj tagged_dict) /\
    map fst tagged_dict = map fst Examples.measurements /\
    Forall2 (tagged (JStr "V.1.2")) Examples.measurements tagged_dict /\
    Forall2 (fun before after =>
               field (snd after) "rule#" JNull = JStr "V.1.2" /\
               forall name dflt,
                 name <> "rule#" ->
                 field (snd after) name dflt = field (snd before) name dflt)
            Examples.measurements tagged_dict.
Proof.
  apply (add_rule_number_to_measurements_frame Examples.measurements
           (JStr "V.1.2")).
  repeat constructor.
Defined.

(* ------------------------------------------------------------------ *)
(** ** JSONCoercion: decoding a value that may be a string *)

(** C8.  The decoding steps do not look at the type of what
    [json.loads] returns.  When the service answers with a text that
    parses to a value that is no mapping -- a list, a number, a string,
    a boolean, null -- [invoke_llm] returns that value where a mapping
    is promised; the except branch beside it gives [{}] only for a text
    that does not parse.  In [extract_terms] a page that is such a text
    is decoded to the value and the next statement, [keys.items()],
    raises AttributeError: the failure is not absorbed. *)
Theorem json_coercion_unchecked `{Builtins} `{Service}
        (text results : string) (prompt : option string) (parsed : json) :
  llm_create "gpt-5-nano"
             (default default_prompt prompt +:+ newline +:+ newline +:+
              str_strip text) = Some results ->
  json_loads results = Some parsed ->
  is_mapping parsed = false ->
  invoke_llm (JStr text) prompt = Done parsed /\
  is_mapping (results_dict results) = false /\
  forall page rest,
    extract_terms_data (JObj ((page, JStr results) :: rest)) =
    Raise AttributeError.
Proof.
  intros Hanswer Hparsed Hmapping. split_and!.
  - unfold invoke_llm. rewrite Hanswer. unfold results_dict.
    by rewrite Hparsed.
  - unfold results_dict. by rewrite Hparsed.
  - intros page rest.
    unfold extract_terms_data, concatenate_terms, for_each_rule. simpl.
    rewrite Hparsed. by destruct parsed.
Qed.

Lemma json_coercion_unchecked_witness :
  @invoke_llm Concrete.builtins (Replies.service [("terms:", "[1, 2]")])
    (JStr "Wheelbase") (Some "terms:") = Done (JArr [JNum 1; JNum 2]) /\
  is_mapping (@results_dict Concrete.builtins "[1, 2]") = false /\
  forall page rest,
    @extract_terms_data Concrete.builtins (JObj ((page, JStr "[1, 2]") :: rest))
    = Raise AttributeError.
Proof.
  apply (@json_coercion_unchecked Concrete.builtins
           (Replies.service [("terms:", "[1, 2]")])
           "Wheelbase" "[1, 2]" (Some "terms:") (JArr [JNum 1; JNum 2])).
  - reflexivity.
  - vm_compute. reflexivity.
  - reflexivity.
Defined.

(* ------------------------------------------------------------------ *)
(** ** Lookups: [extract_information] *)

Lemma fold_left_append {A B} (f : A -> list B) (l : list A) (acc : list B) :
  fold_left (fun acc x => acc ++ f x) l acc = acc ++ flat_map f l.
Proof.
  revert acc. induction l as [|x l IH]; intros acc; simpl.
  - by rewrite app_nil_r.
  - by rewrite IH, app_assoc.
Qed.

Section Lookups.
Context `{Builtins}.

Lemma matching_terms_fold key_to_extract (terms : pydict)
      (rule_numbers : list json) :
  fold_left
    (fun rule_numbers '(term, rule) =>
       if String.eqb (str_lower term) (str_lower key_to_extract)
       then rule_numbers ++ [rule] else rule_numbers)
    terms rule_numbers =
  rule_numbers ++
  map snd (List.filter
             (fun tr => String.eqb (str_lower (fst tr))
                                   (str_lower key_to_extract)) terms).
Proof.
  revert rule_numbers.
  induction terms as [|[term rule] terms IH]; intros rule_numbers; simpl.
  - by rewrite app_nil_r.
  - rewrite IH.
    destruct (String.eqb (str_lower term) (str_lower key_to_extract)); simpl;
      [by rewrite <- app_assoc | done].
Qed.

Lemma collect_rule_numbers_matches key_to_extract rule_numbers
      (item : string * json) :
  scannable_record (snd item) = true ->
  collect_rule_numbers key_to_extract rule_numbers item =
  Ok (rule_numbers ++ record_matches key_to_extract (snd item)).
Proof.
  destruct item as [key value]. simpl.
  unfold scannable_record, record_matches, collect_rule_numbers.
  destruct (loads_if_str value) as [[| | | | |fields]|]; try done;
    [|by rewrite app_nil_r].
  simpl.
  destruct (loads_if_str (default (JObj []) (dict_get "terms" fields)))
    as [[| | | | |terms]|]; try done; [|by rewrite app_nil_r].
  intros _. simpl. by rewrite matching_terms_fold.
Qed.

(** A record that is no mapping has no [.get]. *)
Lemma extract_information_unreadable_record key_to_extract
      (records : pydict) record :
  dict_get key_to_extract records = Some record ->
  is_mapping record = false ->
  extract_information_data (JObj records) key_to_extract "definition" =
  Raise AttributeError.
Proof.
  intros Hget Hrecord. unfold extract_information_data. simpl.
  unfold dict_has. rewrite Hget. simpl. by destruct record.
Qed.

(** What [extract_information] returns on a file that holds a mapping.
    In mode "definition", when the record under the key is a mapping:
    the definition of the record exactly when the key is present with a
    non-empty definition, otherwise one of the two not-found messages.
    In mode "rule_numbers", when every record can be read: the rule
    numbers of the terms that match the key under [str.lower], in
    traversal order, or the not-found message when there is none. *)
Lemma extract_information_readable input_file key_to_extract
        (records : pydict) (fs : filesystem) :
  fs !! input_file = Some (JsonFile (JObj records)) ->
  ((forall record, dict_get key_to_extract records = Some record ->
                   is_mapping record = true) ->
   extract_information input_file key_to_extract "definition" fs =
   Ok (match dict_get key_to_extract records with
       | Some record =>
           if truthy (field record "definition" (JStr ""))
           then field record "definition" (JStr "")
           else JStr ("No definition found for key: " +:+ key_to_extract)
       | None =>
           JStr ("Key '" +:+ key_to_extract +:+
                 "' not found in the JSON file.")
       end)) /\
  (scannable (JObj records) = true ->
   extract_information input_file key_to_extract "rule_numbers" fs =
   Ok (match matching_rule_numbers key_to_extract (JObj records) with
       | [] => JStr ("Technical term '" +:+ key_to_extract +:+
                     "' not found in the JSON file.")
       | rule_numbers => JArr rule_numbers
       end)).
Proof.
  intros Hfile. unfold extract_information, json_load. rewrite Hfile. simpl.
  split.
  - intros Hrecord. unfold extract_information_data. simpl.
    unfold dict_has.
    destruct (dict_get key_to_extract records) as [record|]; simpl; [|done].
    specialize (Hrecord record eq_refl).
    by destruct record as [| | | | |fields].
  - intros Hscan. unfold extract_information_data. simpl.
    rewrite (for_each_pure _
               (fun acc item => acc ++ record_matches key_to_extract (snd item))
               (fun item => scannable_record (snd item) = true)).
    + rewrite fold_left_append. simpl. unfold matching_rule_numbers. simpl.
      by destruct (flat_map _ records).
    + intros b item Hitem. by apply collect_rule_numbers_matches.
    + rewrite forallb_forall in Hscan. apply Forall_forall.
      intros item Hin%list_elem_of_In. by apply Hscan.
Qed.
End Lookups.

(* ------------------------------------------------------------------ *)
(** ** The documents on which the functions return *)

(** The conditions of the theorems above are exact: outside them the
    functions raise. *)

Lemma forallb_true_Forall {A} (f : A -> bool) (l : list A) :
  forallb f l = true <-> Forall (fun x => f x = true) l.
Proof.
  induction l as [|x l IH]; simpl; [done|].
  rewrite andb_true_iff, IH, Forall_cons. done.
Qed.

Lemma for_each_returns_Forall {A B} (body : B -> A -> result B)
      (P : A -> Prop) (l : list A) acc :
  (forall b x, returns (body b x) -> P x) ->
  returns (for_each body l acc) -> Forall P l.
Proof.
  intros Hbody. revert acc.
  induction l as [|x l IH]; intros acc Hret; simpl in *; [done|].
  destruct (body acc x) as [acc'|e] eqn:Hx; simpl in Hret.
  - constructor; [|by eapply IH]. apply (Hbody acc). rewrite Hx. by eexists.
  - by destruct Hret.
Qed.

Section Exactness.
Context `{Builtins}.

Lemma for_each_rule_returns_page_keyed {A}
      (body : string -> A -> string * json -> result A) data init :
  returns (for_each_rule body data init) -> page_keyed data = true.
Proof.
  destruct data as [| | | | |pages]; try by intros [? ?].
  unfold for_each_rule. simpl. intros Hret.
  apply forallb_true_Forall.
  eapply for_each_returns_Forall; [|exact Hret].
  intros b [page keys] [r Hr]. simpl. unfold page_ok.
  by destruct (loads_if_str keys) as [[| | | | |items]|].
Qed.

(** [flatten_json] returns exactly on the page-keyed documents. *)
Lemma flatten_data_returns_iff data :
  returns (flatten_data data) <-> page_keyed data = true.
Proof.
  split.
  - apply for_each_rule_returns_page_keyed.
  - intros Hdata. rewrite flatten_data_update by done. by eexists.
Qed.

Lemma add_rule_terms_returns_record_ok page acc (item : string * json) :
  returns (add_rule_terms page acc item) -> record_ok (snd item) = true.
Proof.
  destruct item as [key record]. unfold record_ok, record_terms. simpl.
  destruct record as [| | | | |fields]; try by intros [? ?].
  simpl.
  by destruct (default (JObj []) (dict_get "terms" fields))
    as [| | | | |terms]; try by intros [? ?].
Qed.

Lemma add_occurrence_returns_hashable acc o :
  returns (add_occurrence acc o) ->
  hashable (occ_page_number o) && hashable (occ_term_rule o) = true.
Proof.
  unfold add_occurrence, add_term, set_add.
  destruct (hashable (occ_page_number o)); simpl; [|by intros [? ?]].
  destruct (hashable (occ_term_rule o)); simpl; [done | by intros [? ?]].
Qed.

(** [extract_terms] returns exactly on the documents of the theorems. *)
Lemma concatenate_terms_returns_iff data :
  returns (concatenate_terms data) <-> terms_document data = true.
Proof.
  split.
  - intros Hret.
    assert (Hp : page_keyed data = true)
      by (by eapply for_each_rule_returns_page_keyed).
    assert (Hr : Forall (fun pr => record_ok (snd (snd pr)) = true)
                        (traversal data)).
    { unfold concatenate_terms in Hret.
      rewrite for_each_rule_traversal in Hret by done.
      eapply for_each_returns_Forall; [|exact Hret].
      intros b pr. apply add_rule_terms_returns_record_ok. }
    rewrite concatenate_terms_occurrences in Hret by done.
    eapply for_each_returns_Forall in Hret;
      [|apply add_occurrence_returns_hashable].
    unfold terms_document. rewrite Hp. simpl.
    apply andb_true_iff. split; by apply forallb_true_Forall.
  - intros Hdoc. rewrite concatenate_terms_fold by done. by eexists.
Qed.

Lemma extract_terms_data_returns_iff data :
  returns (extract_terms_data data) <-> terms_document data = true.
Proof.
  split.
  - intros [output Hout]. apply concatenate_terms_returns_iff.
    unfold extract_terms_data in Hout.
    destruct (concatenate_terms data) as [terms|e]; [by eexists | done].
  - intros Hdoc.
    destruct (extract_terms_data_get data Hdoc)
      as (_ & _ & output & _ & _ & _ & _ & Hout & _).
    by exists output.
Qed.

Lemma collect_rule_numbers_returns_scannable key_to_extract rule_numbers
      (item : string * json) :
  returns (collect_rule_numbers key_to_extract rule_numbers item) ->
  scannable_record (snd item) = true.
Proof.
  destruct item as [key value]. simpl.
  unfold scannable_record, collect_rule_numbers.
  destruct (loads_if_str value) as [[| | | | |fields]|];
    try done; try by intros [? ?].
  simpl.
  by destruct (loads_if_str (default (JObj []) (dict_get "terms" fields)))
    as [[| | | | |terms]|]; try by intros [? ?].
Qed.

(** The scan of [extract_information] returns exactly on the documents
    whose records can be read. *)
Lemma extract_information_scan_returns_iff data key_to_extract :
  returns (extract_information_data data key_to_extract "rule_numbers") <->
  scannable data = true.
Proof.
  unfold extract_information_data, scannable. simpl.
  destruct data as [| | | | |records];
    try (split; [by intros [? ?] | done]).
  simpl. split.
  - intros [v Hv]. apply forallb_true_Forall.
    eapply (for_each_returns_Forall
              (collect_rule_numbers key_to_extract) _ records []).
    + intros b item. apply collect_rule_numbers_returns_scannable.
    + destruct (for_each (collect_rule_numbers key_to_extract) records [])
        as [rule_numbers|e]; [by eexists | done].
  - intros Hscan.
    rewrite (for_each_pure _
               (fun acc item => acc ++ record_matches key_to_extract (snd item))
               (fun item => scannable_record (snd item) = true)).
    + by eexists.
    + intros b item Hitem. by apply collect_rule_numbers_matches.
    + rewrite forallb_forall in Hscan. apply Forall_forall.
      intros item Hin%list_elem_of_In. by apply Hscan.
Qed.
End Exactness.

(** [add_rule_number_to_measurements] returns exactly on the mappings
    whose entries are mappings. *)
Lemma add_rule_number_to_measurements_returns_iff (data_dict : pydict)
      rule_number :
  returns (add_rule_number_to_measurements (JObj data_dict) rule_number) <->
  Forall (fun kv => is_mapping (snd kv) = true) data_dict.
Proof.
  split.
  - unfold add_rule_number_to_measurements. simpl.
    induction data_dict as [|[key value] items IH]; [done|].
    intros [v Hv]. simpl in Hv.
    destruct value as [| | | | |fields]; try done. simpl in Hv.
    constructor; [done|]. apply IH.
    destruct (tag_measurements items rule_number) as [items'|e];
      [by eexists | done].
  - intros Hmaps.
    destruct (add_rule_number_to_measurements_frame_core data_dict
                rule_number Hmaps) as (tagged_dict & Hret & _).
    by eexists.
Qed.

(* ================================================================== *)
(** * Further properties *)
(* ================================================================== *)

(** ** PersistentMergeStore: what a call leaves *)

Lemma dict_set_fresh {V} k (v : V) (d : list (string * V)) :
  dict_get k d = None -> dict_set k v d = d ++ [(k, v)].
Proof.
  induction d as [|[k' v'] d IH]; simpl; [done|].
  destruct (String.eqb k k'); [done|]. intros Hk. by rewrite IH.
Qed.

Lemma merged_get (new_data store : pydict) key :
  List.NoDup (map fst new_data) ->
  dict_get key (fold_left merge_key new_data store) =
  upserted store new_data key.
Proof.
  revert store.
  induction new_data as [|[k v] new_data IH]; intros store Hnd; simpl.
  - done.
  - inversion Hnd as [|? ? Hk Hnd']; subst. rewrite IH by done.
    unfold upserted. simpl.
    destruct (String.eqb key k) eqn:Hkey.
    + apply String.eqb_eq in Hkey. subst key.
      apply dict_get_None in Hk. rewrite Hk.
      unfold merge_key, skipped. simpl.
      destruct (dict_get k store) as [old|] eqn:Hold.
      * destruct (py_eq old v); [done|]. apply dict_get_set_eq.
      * apply dict_get_set_eq.
    + apply String.eqb_neq in Hkey.
      by rewrite (merge_key_get key store (k, v)).
Qed.

Lemma merge_key_NoDup (d : pydict) item :
  List.NoDup (map fst d) -> List.NoDup (map fst (merge_key d item)).
Proof.
  intros Hnd. unfold merge_key. destruct (skipped d item); [done|].
  by apply dict_set_NoDup.
Qed.

Lemma merged_NoDup (new_data d : pydict) :
  List.NoDup (map fst d) ->
  List.NoDup (map fst (fold_left merge_key new_data d)).
Proof.
  revert d. induction new_data as [|item new_data IH]; intros d Hnd; simpl;
    [done|]. by apply IH, merge_key_NoDup.
Qed.

(** New keys are appended in the order of [new_data]. *)
Lemma merged_fresh (new_data d : pydict) :
  List.NoDup (map fst (d ++ new_data)) ->
  fold_left merge_key new_data d = d ++ new_data.
Proof.
  revert d. induction new_data as [|[k v] new_data IH]; intros d Hnd; simpl.
  - by rewrite app_nil_r.
  - assert (Hk : dict_get k d = None).
    { apply dict_get_None. intros Hin.
      rewrite map_app in Hnd. simpl in Hnd.
      apply List.NoDup_remove_2 in Hnd. apply Hnd.
      apply in_or_app. by left. }
    unfold merge_key at 2, skipped. simpl. rewrite Hk.
    rewrite dict_set_fresh by done.
    rewrite IH; rewrite <- app_assoc; done.
Qed.

Lemma insert_sorted_Permutation kv (l : pydict) :
  insert_sorted kv l ≡ₚ kv :: l.
Proof.
  induction l as [|kv' l IH]; simpl; [done|].
  destruct (String.leb (fst kv) (fst kv')); [done|].
  rewrite IH. apply Permutation_swap.
Qed.

Lemma sorted_items_Permutation (d : pydict) : sorted_items d ≡ₚ d.
Proof.
  induction d as [|kv d IH]; simpl; [done|].
  by rewrite insert_sorted_Permutation, IH.
Qed.

Lemma update_json_corrupt json_file (new_data : pydict) (fs : filesystem) :
  fs !! json_file = Some CorruptFile ->
  update_json_if_different json_file new_data fs =
  (Ok (JObj (fold_left merge_key new_data [])),
   <[json_file :=
       JsonFile (JObj (sorted_items (fold_left merge_key new_data [])))]> fs).
Proof.
  intros Hfile. unfold update_json_if_different, json_dump.
  rewrite Hfile. simpl. rewrite Hfile. by rewrite update_loop_dict.
Qed.

(** X1. After [update_json_if_different] on a store that holds a JSON
    object, in the returned document and in the file alike: a key that
    [new_data] does not name maps to what it mapped to; a key stored with
    a value equal to the new one keeps the stored value; any other key of
    [new_data] maps to the new value. *)
Theorem update_json_if_different_lookup json_file (new_data store : pydict)
        (fs : filesystem) :
  fs !! json_file = Some (JsonFile (JObj store)) ->
  List.NoDup (map fst new_data) ->
  exists merged doc,
    update_json_if_different json_file new_data fs =
      (Ok (JObj merged), <[json_file := JsonFile (JObj doc)]> fs) /\
    forall key,
      dict_get key merged = upserted store new_data key /\
      dict_get key doc = upserted store new_data key.
Proof.
  intros Hfile Hnd.
  exists (fold_left merge_key new_data store),
         (sorted_items (fold_left merge_key new_data store)).
  split; [by apply update_json_object|].
  intros key. rewrite dict_get_sorted_items. split; by apply merged_get.
Qed.

Lemma update_json_if_different_lookup_witness :
  exists merged doc,
    update_json_if_different "extracted_rules.json"
      [("17", JStr "b"); ("16", JNum 1)]
      {["extracted_rules.json" :=
          JsonFile (JObj [("18", JStr "c"); ("16", JBool true)])]} =
      (Ok (JObj merged),
       <["extracted_rules.json" := JsonFile (JObj doc)]>
         {["extracted_rules.json" :=
             JsonFile (JObj [("18", JStr "c"); ("16", JBool true)])]}) /\
    forall key,
      dict_get key merged =
        upserted [("18", JStr "c"); ("16", JBool true)]
                 [("17", JStr "b"); ("16", JNum 1)] key /\
      dict_get key doc =
        upserted [("18", JStr "c"); ("16", JBool true)]
                 [("17", JStr "b"); ("16", JNum 1)] key.
Proof.
  apply (update_json_if_different_lookup "extracted_rules.json"
           [("17", JStr "b"); ("16", JNum 1)]
           [("18", JStr "c"); ("16", JBool true)]).
  - apply lookup_singleton_eq.
  - repeat constructor; simpl; intuition discriminate.
Defined.

(** X2. On a store whose file does not parse, the call keeps nothing of
    the file: it returns [new_data] as it was given and writes [new_data]
    alone, ordered by key. *)
Theorem update_json_if_different_corrupt_store json_file (new_data : pydict)
        (fs : filesystem) :
  fs !! json_file = Some CorruptFile ->
  List.NoDup (map fst new_data) ->
  update_json_if_different json_file new_data fs =
  (Ok (JObj new_data),
   <[json_file := JsonFile (JObj (sorted_items new_data))]> fs).
Proof.
  intros Hfile Hnd. rewrite update_json_corrupt by done.
  by rewrite (merged_fresh new_data []).
Qed.

Lemma update_json_if_different_corrupt_store_witness :
  update_json_if_different "extracted_rules.json"
    [("17", JStr "b"); ("16", JStr "a")]
    {["extracted_rules.json" := CorruptFile]} =
  (Ok (JObj [("17", JStr "b"); ("16", JStr "a")]),
   <["extracted_rules.json" :=
       JsonFile (JObj [("16", JStr "a"); ("17", JStr "b")])]>
     {["extracted_rules.json" := CorruptFile]}).
Proof.
  apply (update_json_if_different_corrupt_store "extracted_rules.json"
           [("17", JStr "b"); ("16", JStr "a")]).
  - apply lookup_singleton_eq.
  - repeat constructor; simpl; intuition discriminate.
Defined.

(** X3. The document written by [update_json_if_different] holds exactly
    the entries of the document it returns, ordered by key; when the
    stored keys were distinct, so are the written ones. *)
Theorem update_json_if_different_writes_sorted json_file
        (new_data store : pydict) (fs : filesystem) :
  fs !! json_file = Some (JsonFile (JObj store)) ->
  List.NoDup (map fst store) ->
  exists merged doc,
    update_json_if_different json_file new_data fs =
      (Ok (JObj merged), <[json_file := JsonFile (JObj doc)]> fs) /\
    doc ≡ₚ merged /\
    Sorted key_le doc /\
    List.NoDup (map fst doc).
Proof.
  intros Hfile Hnd.
  exists (fold_left merge_key new_data store),
         (sorted_items (fold_left merge_key new_data store)).
  split_and!.
  - by apply update_json_object.
  - apply sorted_items_Permutation.
  - apply sorted_items_Sorted.
  - apply NoDup_ListNoDup.
    rewrite (sorted_items_Permutation (fold_left merge_key new_data store)).
    by apply NoDup_ListNoDup, merged_NoDup.
Qed.

Lemma update_json_if_different_writes_sorted_witness :
  exists merged doc,
    update_json_if_different "extracted_rules.json"
      [("17", JStr "b"); ("16", JStr "a")]
      {["extracted_rules.json" := JsonFile (JObj [("18", JStr "c")])]} =
      (Ok (JObj merged),
       <["extracted_rules.json" := JsonFile (JObj doc)]>
         {["extracted_rules.json" := JsonFile (JObj [("18", JStr "c")])]}) /\
    doc ≡ₚ merged /\
    Sorted key_le doc /\
    List.NoDup (map fst doc).
Proof.
  apply (update_json_if_different_writes_sorted "extracted_rules.json"
           [("17", JStr "b"); ("16", JStr "a")] [("18", JStr "c")]).
  - apply lookup_singleton_eq.
  - repeat constructor. simpl. tauto.
Defined.

Lemma update_key_not_mapping (doc : json) (item : string * json) :
  is_mapping doc = false -> update_key doc item = Raise TypeError.
Proof.
  destruct item as [key value]. unfold update_key, py_contains.
  destruct doc as [| | |s|l|d]; try done; intros _.
  - destruct (str_contains key s); reflexivity.
  - destruct (existsb (py_eq (JStr key)) l); reflexivity.
Qed.

(** X4. A store whose document is JSON but no object is never updated: a
    call with a non-empty [new_data] raises [TypeError] and leaves every
    file as it is; a call with an empty [new_data] raises
    [AttributeError] after it has emptied the file. *)
Theorem update_json_if_different_not_a_mapping json_file doc
        (fs : filesystem) :
  fs !! json_file = Some (JsonFile doc) ->
  is_mapping doc = false ->
  (forall new_data,
      new_data <> [] ->
      update_json_if_different json_file new_data fs = (Raise TypeError, fs)) /\
  update_json_if_different json_file [] fs =
    (Raise AttributeError, <[json_file := CorruptFile]> fs).
Proof.
  intros Hfile Hdoc. split.
  - intros new_data Hne. unfold update_json_if_different.
    rewrite Hfile. simpl. rewrite Hfile.
    destruct new_data as [|item new_data]; [done|]. simpl.
    by rewrite update_key_not_mapping.
  - unfold update_json_if_different. rewrite Hfile. simpl. rewrite Hfile.
    simpl. by destruct doc.
Qed.

Lemma update_json_if_different_not_a_mapping_witness :
  (forall new_data,
      new_data <> [] ->
      update_json_if_different "extracted_rules.json" new_data
        {["extracted_rules.json" := JsonFile (JArr [])]} =
      (Raise TypeError, {["extracted_rules.json" := JsonFile (JArr [])]})) /\
  update_json_if_different "extracted_rules.json" []
    {["extracted_rules.json" := JsonFile (JArr [])]} =
    (Raise AttributeError,
     <["extracted_rules.json" := CorruptFile]>
       {["extracted_rules.json" := JsonFile (JArr [])]}).
Proof.
  apply (update_json_if_different_not_a_mapping "extracted_rules.json"
           (JArr [])).
  - apply lookup_singleton_eq.
  - reflexivity.
Defined.

(** X5. The failure on a missing file persists: the first call leaves
    the file holding a list, so every later call with a non-empty
    mapping raises [TypeError] again and changes nothing; only a call
    with the empty mapping, which empties the file while it raises,
    makes the next call succeed. *)
Theorem update_json_if_different_stuck_after_missing json_file
        (new_data later : pydict) (fs : filesystem) :
  fs !! json_file = None ->
  new_data <> [] ->
  later <> [] ->
  List.NoDup (map fst later) ->
  let fs1 := <[json_file := JsonFile (JArr [])]> fs in
  let fs2 := <[json_file := CorruptFile]> fs in
  update_json_if_different json_file new_data fs = (Raise TypeError, fs1) /\
  update_json_if_different json_file later fs1 = (Raise TypeError, fs1) /\
  update_json_if_different json_file [] fs1 = (Raise AttributeError, fs2) /\
  update_json_if_different json_file later fs2 =
    (Ok (JObj later),
     <[json_file := JsonFile (JObj (sorted_items later))]> fs).
Proof.
  intros Hfile Hne Hlater Hnd fs1 fs2.
  assert (Hfs1 : fs1 !! json_file = Some (JsonFile (JArr [])))
    by apply lookup_insert_eq.
  assert (Hfs2 : fs2 !! json_file = Some CorruptFile)
    by apply lookup_insert_eq.
  split_and!.
  - unfold update_json_if_different, json_dump. rewrite Hfile. simpl.
    fold fs1. rewrite Hfs1.
    destruct new_data as [|item new_data]; [done|]. simpl.
    by rewrite update_key_not_mapping.
  - unfold update_json_if_different. rewrite Hfs1. simpl. rewrite Hfs1.
    destruct later as [|item later]; [done|]. simpl.
    by rewrite update_key_not_mapping.
  - unfold update_json_if_different. rewrite Hfs1. simpl. rewrite Hfs1.
    simpl. unfold fs1, fs2. by rewrite insert_insert_eq.
  - rewrite update_json_corrupt by done.
    rewrite (merged_fresh later []) by done.
    unfold fs2. by rewrite insert_insert_eq.
Qed.

Lemma update_json_if_different_stuck_after_missing_witness :
  let fs1 : filesystem := {["extracted_rules.json" := JsonFile (JArr [])]} in
  let fs2 : filesystem := {["extracted_rules.json" := CorruptFile]} in
  update_json_if_different "extracted_rules.json" [("16", JStr "a")] ∅ =
    (Raise TypeError, fs1) /\
  update_json_if_different "extracted_rules.json" [("17", JStr "b")] fs1 =
    (Raise TypeError, fs1) /\
  update_json_if_different "extracted_rules.json" [] fs1 =
    (Raise AttributeError, fs2) /\
  update_json_if_different "extracted_rules.json" [("17", JStr "b")] fs2 =
    (Ok (JObj [("17", JStr "b")]),
     {["extracted_rules.json" := JsonFile (JObj [("17", JStr "b")])]}).
Proof.
  apply (update_json_if_different_stuck_after_missing "extracted_rules.json"
           [("16", JStr "a")] [("17", JStr "b")] ∅).
  - apply lookup_empty.
  - discriminate.
  - discriminate.
  - repeat constructor. simpl. tauto.
Defined.


(* ------------------------------------------------------------------ *)
(** ** RangeSelector: how selections compose *)

Lemma filter_split_Permutation {A} (p q r : A -> bool) (l : list A) :
  (forall x, p x = q x || r x) ->
  (forall x, q x && r x = false) ->
  List.filter p l ≡ₚ List.filter q l ++ List.filter r l.
Proof.
  intros Hp Hqr. induction l as [|x l IH]; simpl; [done|].
  rewrite Hp. specialize (Hqr x).
  destruct (q x), (r x); simpl in *; try done.
  - by rewrite IH.
  - rewrite IH. apply Permutation_middle.
Qed.

Section Selections.
Context `{Builtins}.

Lemma select_dictionary_range_filter (input_dict : pydict)
      (start_key end_key : Z) :
  Forall (fun kv => is_Some (py_int (fst kv))) input_dict ->
  select_dictionary_range input_dict start_key end_key =
  Ok (List.filter (key_in_range start_key end_key) input_dict).
Proof.
  induction 1 as [|[key value] rest [n Hn] _ IH]; simpl in *; [done|].
  rewrite Hn, IH. simpl. unfold key_in_range. simpl. rewrite Hn.
  by destruct ((start_key <=? n)%Z && (n <=? end_key)%Z).
Qed.

(** X6. Selecting from a selection is selecting once with the tighter
    bounds, and raises exactly when the single selection does; selecting
    again with the same bounds changes nothing. *)
Theorem select_dictionary_range_twice (input_dict : pydict)
        (start1 end1 start2 end2 : Z) :
  (selected ← select_dictionary_range input_dict start1 end1;
   select_dictionary_range selected start2 end2) =
  select_dictionary_range input_dict (Z.max start1 start2)
                          (Z.min end1 end2) /\
  (selected ← select_dictionary_range input_dict start1 end1;
   select_dictionary_range selected start1 end1) =
  select_dictionary_range input_dict start1 end1.
Proof.
  assert (Hgen : forall s1 e1 s2 e2,
             (selected ← select_dictionary_range input_dict s1 e1;
              select_dictionary_range selected s2 e2) =
             select_dictionary_range input_dict (Z.max s1 s2) (Z.min e1 e2)).
  { intros s1 e1 s2 e2.
    induction input_dict as [|[key value] rest IH]; simpl; [done|].
    destruct (py_int key) as [n|] eqn:Hn; [|done].
    destruct (select_dictionary_range rest s1 e1) as [sel1|e] eqn:Hsel1;
      simpl in *.
    - destruct (select_dictionary_range rest (Z.max s1 s2) (Z.min e1 e2))
        as [sel|e] eqn:Hsel; simpl.
      + destruct ((s1 <=? n)%Z && (n <=? e1)%Z) eqn:H1; simpl.
        * rewrite Hn, IH. simpl.
          replace ((Z.max s1 s2 <=? n)%Z && (n <=? Z.min e1 e2)%Z)
            with ((s2 <=? n)%Z && (n <=? e2)%Z); [done|].
          apply andb_true_iff in H1 as [Ha Hb].
          apply Z.leb_le in Ha, Hb.
          apply eq_true_iff_eq.
          rewrite !andb_true_iff, !Z.leb_le. lia.
        * rewrite IH.
          replace ((Z.max s1 s2 <=? n)%Z && (n <=? Z.min e1 e2)%Z)
            with false; [done|].
          symmetry. apply andb_false_iff.
          apply andb_false_iff in H1 as [Ha | Hb].
          -- left. apply Z.leb_gt in Ha. apply Z.leb_gt. lia.
          -- right. apply Z.leb_gt in Hb. apply Z.leb_gt. lia.
      + destruct ((s1 <=? n)%Z && (n <=? e1)%Z); simpl.
        * rewrite Hn, IH. done.
        * done.
    - by rewrite <- IH. }
  split; [apply Hgen|].
  rewrite Hgen. by rewrite Z.max_id, Z.min_id.
Qed.

(** X7. Two adjoining page ranges cut a batch in two: when every key
    parses, the entries selected for [start .. end] are those selected
    for [start .. cut] together with those selected for
    [cut + 1 .. end], none lost and none twice. *)
Theorem select_dictionary_range_batches (input_dict : pydict)
        (start_key cut end_key : Z) :
  Forall (fun kv => is_Some (py_int (fst kv))) input_dict ->
  (start_key <= cut + 1)%Z ->
  (cut <= end_key)%Z ->
  exists low high whole,
    select_dictionary_range input_dict start_key cut = Ok low /\
    select_dictionary_range input_dict (cut + 1) end_key = Ok high /\
    select_dictionary_range input_dict start_key end_key = Ok whole /\
    whole ≡ₚ low ++ high /\
    (forall kv, In kv low -> In kv high -> False).
Proof.
  intros Hparse Hlow Hhigh.
  eexists _, _, _. split_and!; try by apply select_dictionary_range_filter.
  - apply filter_split_Permutation; intros kv; unfold key_in_range;
      destruct (py_int (fst kv)) as [n|]; try done;
      apply eq_true_iff_eq;
      rewrite ?orb_true_iff, ?andb_true_iff, ?Z.leb_le; lia.
  - intros kv [_ Hl]%filter_In [_ Hh]%filter_In.
    apply key_in_range_spec in Hl as (n & Hn & Hl).
    apply key_in_range_spec in Hh as (m & Hm & Hh).
    rewrite Hn in Hm. injection Hm as <-. lia.
Qed.
End Selections.

Lemma select_dictionary_range_batches_witness :
  exists low high whole,
    @select_dictionary_range Concrete.builtins
      [("16", JStr "a"); ("18", JStr "c"); ("17", JStr "b")] 16 16 = Ok low /\
    @select_dictionary_range Concrete.builtins
      [("16", JStr "a"); ("18", JStr "c"); ("17", JStr "b")] (16 + 1) 18 =
      Ok high /\
    @select_dictionary_range Concrete.builtins
      [("16", JStr "a"); ("18", JStr "c"); ("17", JStr "b")] 16 18 =
      Ok whole /\
    whole ≡ₚ low ++ high /\
    (forall kv, In kv low -> In kv high -> False).
Proof.
  apply (@select_dictionary_range_batches Concrete.builtins
           [("16", JStr "a"); ("18", JStr "c"); ("17", JStr "b")] 16 16 18).
  - repeat constructor; eexists; vm_compute; reflexivity.
  - lia.
  - lia.
Defined.


(* ------------------------------------------------------------------ *)
(** ** TermAggregator: pages, record layout, page encoding *)

Lemma term_entry_pages (os : list occurrence) (oe : option term_entry) :
  acc_page_number
    (default new_term_entry
       (fold_left (fun oe o => Some (update_term_entry
                                       (default new_term_entry oe) o)) os oe)) =
  fold_left (fun s x => set_insert x s) (map occ_page_number os)
            (acc_page_number (default new_term_entry oe)).
Proof.
  revert oe. induction os as [|o os IH]; intros oe; simpl; [done|].
  by rewrite IH.
Qed.

(** After its first occurrence the entry of a term names the term and
    has the empty string for measurements. *)
Lemma term_entry_terms (term : string) (os : list occurrence)
      (oe : option term_entry) e :
  Forall (fun o => occ_term o = term) os ->
  match oe with
  | Some e0 => acc_terms e0 = JStr term /\ acc_measurements e0 = JStr ""
  | None => True
  end ->
  fold_left (fun oe o => Some (update_term_entry
                                 (default new_term_entry oe) o)) os oe =
    Some e ->
  acc_terms e = JStr term /\ acc_measurements e = JStr "".
Proof.
  intros Hos. revert oe.
  induction Hos as [|o os Ho _ IH]; intros oe Hoe; simpl.
  - intros ->. done.
  - apply IH. simpl. rewrite Ho. by destruct oe as [e0|]; [destruct Hoe|].
Qed.

Lemma occurrences_of_term `{Builtins} term data :
  Forall (fun o => occ_term o = term) (occurrences_of term data).
Proof.
  apply Forall_forall. intros o Ho%list_elem_of_In.
  apply filter_In in Ho as [_ Ho]. by apply String.eqb_eq.
Qed.

Section TermPages.
Context `{Builtins}.

(** X8. On a page-keyed document [extract_terms] reads to the end and
    whose page numbers are strings, the record of a term lists, without
    duplicates, exactly the page numbers of the rule records that list
    the term (the page key for a record without [page_number]). *)
Theorem extract_terms_page_numbers data :
  terms_document data = true ->
  string_pages data = true ->
  exists concatenated_terms,
    concatenate_terms data = Ok concatenated_terms /\
    forall term,
      occurrences_of term data <> [] ->
      exists e,
        dict_get term concatenated_terms = Some e /\
        List.NoDup (acc_page_number e) /\
        forall p, In p (acc_page_number e) <-> In p (term_pages term data).
Proof.
  intros Hdoc Hstr. eexists. split; [by apply concatenate_terms_fold|].
  intros term Hocc.
  pose proof (dict_get_record_with update_term_entry new_term_entry term
                (occurrences data) []) as Hproj.
  simpl in Hproj. fold (occurrences_of term data) in Hproj.
  destruct (entry_fold_Some update_term_entry new_term_entry
              (occurrences_of term data) None) as [e He]; [by left|].
  rewrite <- Hproj in He. exists e. split; [done|].
  assert (Hpages : acc_page_number e =
                   fold_left (fun s x => set_insert x s)
                             (term_pages term data) []).
  { pose proof (term_entry_pages (occurrences_of term data) None) as Hp.
    rewrite <- Hproj, He in Hp. exact Hp. }
  assert (Hall : Forall (fun x => match x with JStr _ => true | _ => false end
                                  = true) (term_pages term data)).
  { unfold term_pages, occurrences_of. apply Forall_forall.
    intros x Hx%list_elem_of_In. apply in_map_iff in Hx as (o & <- & Ho).
    apply filter_In in Ho as [Ho _].
    unfold string_pages in Hstr. rewrite forallb_forall in Hstr.
    by apply Hstr. }
  destruct (set_insert_str_fold (term_pages term data) [] Hall)
    as [Hnd Hmem]; [constructor|].
  rewrite <- Hpages in Hnd, Hmem. split; [done|].
  intros p. rewrite Hmem. simpl. tauto.
Qed.

(** X9. In the document [extract_terms] writes, the record under a term
    names the term in its [terms] field and has the empty string for
    [measurements]; the keys of the document are distinct and are
    exactly the rule keys of the traversal and the terms. *)
Theorem extract_terms_output_keys data :
  terms_document data = true ->
  exists concatenated_terms output,
    concatenate_terms data = Ok concatenated_terms /\
    extract_terms_data data = Ok output /\
    List.NoDup (map fst output) /\
    (forall term e,
        dict_get term concatenated_terms = Some e ->
        dict_get term output = Some (term_record e) /\
        acc_terms e = JStr term /\
        acc_measurements e = JStr "") /\
    (forall key,
        is_Some (dict_get key output) <->
        In key (rule_keys data) \/ occurrences_of key data <> []).
Proof.
  intros Hdoc.
  destruct (extract_terms_data_get data Hdoc)
    as (terms & flat & output & Hterms & Hfold & _ & Hflat & Hout & Hupd
        & Hget).
  exists terms, output.
  assert (Hproj : forall key,
             dict_get key terms =
             fold_left (fun oe o => Some (update_term_entry
                                            (default new_term_entry oe) o))
                       (occurrences_of key data) None).
  { intros key. rewrite Hfold, dict_get_record_with. done. }
  split_and!; try done.
  - rewrite Hupd. apply dict_update_NoDup. rewrite Hflat.
    apply dict_update_NoDup. constructor.
  - intros term e He. split; [by rewrite Hget, He|].
    rewrite Hproj in He.
    eapply (term_entry_terms term _ None); [|done|exact He].
    apply occurrences_of_term.
  - intros key. rewrite Hget, Hproj.
    assert (Hflat_some : is_Some (dict_get key flat) <->
                         In key (rule_keys data)).
    { rewrite Hflat. unfold rule_keys.
      rewrite dict_get_update. unfold last_entry.
      destruct (dict_get key
                  (rev (map (fun kr => (fst kr, restructured (snd kr)))
                            (rule_records data)))) as [v|] eqn:Hv.
      - split; [|by eexists]. intros _.
        apply dict_get_Some_In, in_rev, in_map_iff in Hv
          as ([k r] & [= <- _] & Hin).
        apply in_map_iff. by exists (k, r).
      - simpl. split; [by intros [? ?]|]. intros Hin.
        apply dict_get_None in Hv. exfalso. apply Hv.
        rewrite <- map_rev, map_map. simpl.
        apply in_map_iff in Hin as ([k r] & <- & Hin).
        apply in_map_iff. exists (k, r). split; [done|].
        by apply in_rev in Hin. }
    destruct (occurrences_of key data) as [|o os] eqn:Hos; simpl.
    + rewrite Hflat_some. split; [tauto|]. intros [?|?]; done.
    + destruct (entry_fold_Some update_term_entry new_term_entry os
                  (Some (update_term_entry new_term_entry o))) as [e He];
        [right; by eexists|].
      rewrite He. split; [|by eexists]. intros _. by right.
Qed.
End TermPages.

Lemma extract_terms_page_numbers_witness :
  exists concatenated_terms,
    @concatenate_terms Concrete.builtins Examples.page_keyed_rules =
      Ok concatenated_terms /\
    forall term,
      @occurrences_of Concrete.builtins term Examples.page_keyed_rules
        <> [] ->
      exists e,
        dict_get term concatenated_terms = Some e /\
        List.NoDup (acc_page_number e) /\
        forall p, In p (acc_page_number e) <->
                  In p (@term_pages Concrete.builtins term
                                    Examples.page_keyed_rules).
Proof.
  apply (@extract_terms_page_numbers Concrete.builtins
           Examples.page_keyed_rules); vm_compute; reflexivity.
Defined.

Lemma extract_terms_output_keys_witness :
  exists concatenated_terms output,
    @concatenate_terms Concrete.builtins Examples.page_keyed_rules =
      Ok concatenated_terms /\
    @extract_terms_data Concrete.builtins Examples.page_keyed_rules =
      Ok output /\
    List.NoDup (map fst output) /\
    (forall term e,
        dict_get term concatenated_terms = Some e ->
        dict_get term output = Some (term_record e) /\
        acc_terms e = JStr term /\
        acc_measurements e = JStr "") /\
    (forall key,
        is_Some (dict_get key output) <->
        In key (@rule_keys Concrete.builtins Examples.page_keyed_rules) \/
        @occurrences_of Concrete.builtins key Examples.page_keyed_rules
          <> []).
Proof.
  apply (@extract_terms_output_keys Concrete.builtins
           Examples.page_keyed_rules).
  vm_compute. reflexivity.
Defined.


(* ------------------------------------------------------------------ *)
(** ** TermAggregator and RuleFlattener together *)

Lemma last_entry_map_values {V W} (f : V -> W) (k : string)
      (l : list (string * V)) :
  last_entry k (map (fun kv => (fst kv, f (snd kv))) l) = f <$> last_entry k l.
Proof.
  unfold last_entry. rewrite <- map_rev. apply dict_get_map_values.
Qed.

Lemma for_each_rule_page_ext `{Builtins} {A}
      (body : string -> A -> string * json -> result A)
      (before after : pydict) page x y init :
  loads_if_str x = loads_if_str y ->
  for_each_rule body (JObj (before ++ (page, x) :: after)) init =
  for_each_rule body (JObj (before ++ (page, y) :: after)) init.
Proof.
  intros Heq. unfold for_each_rule. simpl. rewrite !for_each_app. simpl.
  by rewrite Heq.
Qed.

Lemma for_each_rule_page_skip `{Builtins} {A}
      (body : string -> A -> string * json -> result A)
      (before after : pydict) page x init :
  loads_if_str x = None ->
  for_each_rule body (JObj (before ++ (page, x) :: after)) init =
  for_each_rule body (JObj (before ++ after)) init.
Proof.
  intros Heq. unfold for_each_rule. simpl. rewrite !for_each_app. simpl.
  rewrite Heq.
  by destruct (for_each _ before init).
Qed.

Section FlattenAndTerms.
Context `{Builtins}.

(** X10. For a key that is no term, the record [extract_terms] writes is
    the record [flatten_json] writes for that key cut down to four
    fields: [rule_number], [definition] and [terms] as they are (or
    their defaults), and [measurements] always empty; the page number
    and the measurements of the rule are not carried over. *)
Theorem extract_terms_rule_records data :
  terms_document data = true ->
  exists flattened_data output,
    flatten_data data = Ok flattened_data /\
    extract_terms_data data = Ok output /\
    forall key,
      occurrences_of key data = [] ->
      dict_get key output =
      (fun record =>
         JObj [("rule_number", field record "rule_number" (JStr ""));
               ("definition", field record "definition" (JStr ""));
               ("terms", field record "terms" (JObj []));
               ("measurements", JObj [])]) <$> dict_get key flattened_data.
Proof.
  intros Hdoc.
  destruct (extract_terms_data_get data Hdoc)
    as (terms & flat & output & _ & Hfold & _ & Hflat & Hout & _ & Hget).
  apply terms_document_parts in Hdoc as (Hp & _ & _).
  exists (dict_update [] (rule_records data)), output.
  split_and!; [by apply flatten_data_update | done |].
  intros key Hocc. rewrite Hget, Hfold, dict_get_record_with.
  fold (occurrences_of key data). rewrite Hocc. simpl.
  rewrite Hflat, !dict_get_update. simpl.
  rewrite (last_entry_map_values restructured).
  by destruct (last_entry key (rule_records data)).
Qed.

(** X11. A page given as JSON text is processed as the mapping the text
    holds, and a page whose text does not parse is processed as if the
    document did not have it: [flatten_json] and [extract_terms] compute
    the same in either case, raising included. *)
Theorem page_text_as_page (before after : pydict) page s :
  (forall rules,
      json_loads s = Some (JObj rules) ->
      flatten_data (JObj (before ++ (page, JStr s) :: after)) =
        flatten_data (JObj (before ++ (page, JObj rules) :: after)) /\
      extract_terms_data (JObj (before ++ (page, JStr s) :: after)) =
        extract_terms_data (JObj (before ++ (page, JObj rules) :: after))) /\
  (json_loads s = None ->
   flatten_data (JObj (before ++ (page, JStr s) :: after)) =
     flatten_data (JObj (before ++ after)) /\
   extract_terms_data (JObj (before ++ (page, JStr s) :: after)) =
     extract_terms_data (JObj (before ++ after))).
Proof.
  split.
  - intros rules Hs.
    assert (Heq : loads_if_str (JStr s) = loads_if_str (JObj rules))
      by exact Hs.
    unfold flatten_data, extract_terms_data, concatenate_terms,
      restructure_data.
    by rewrite !(for_each_rule_page_ext _ before after page _ _ _ Heq).
  - intros Hs.
    assert (Heq : loads_if_str (JStr s) = None) by exact Hs.
    unfold flatten_data, extract_terms_data, concatenate_terms,
      restructure_data.
    by rewrite !(for_each_rule_page_skip _ before after page _ _ Heq).
Qed.
End FlattenAndTerms.

Lemma extract_terms_rule_records_witness :
  exists flattened_data output,
    @flatten_data Concrete.builtins Examples.page_keyed_rules =
      Ok flattened_data /\
    @extract_terms_data Concrete.builtins Examples.page_keyed_rules =
      Ok output /\
    forall key,
      @occurrences_of Concrete.builtins key Examples.page_keyed_rules = [] ->
      dict_get key output =
      (fun record =>
         JObj [("rule_number", field record "rule_number" (JStr ""));
               ("definition", field record "definition" (JStr ""));
               ("terms", field record "terms" (JObj []));
               ("measurements", JObj [])]) <$> dict_get key flattened_data.
Proof.
  apply (@extract_terms_rule_records Concrete.builtins
           Examples.page_keyed_rules).
  vm_compute. reflexivity.
Defined.

Lemma page_text_as_page_witness :
  @flatten_data Concrete.builtins
    (JObj ([("16", JObj [("V.1", JStr "a")])] ++
           ("17", JStr Examples.object_text) :: [("18", JStr "{}")])) =
  @flatten_data Concrete.builtins
    (JObj ([("16", JObj [("V.1", JStr "a")])] ++
           ("17", JObj [("a", JNum 1)]) :: [("18", JStr "{}")])) /\
  @flatten_data Concrete.builtins
    (JObj ([("16", JObj [("V.1", JStr "a")])] ++
           ("17", JStr "not json") :: [("18", JStr "{}")])) =
  @flatten_data Concrete.builtins
    (JObj ([("16", JObj [("V.1", JStr "a")])] ++ [("18", JStr "{}")])).
Proof.
  split.
  - apply (proj1 (@page_text_as_page Concrete.builtins
                    [("16", JObj [("V.1", JStr "a")])] [("18", JStr "{}")]
                    "17" Examples.object_text)).
    vm_compute. reflexivity.
  - apply (proj2 (@page_text_as_page Concrete.builtins
                    [("16", JObj [("V.1", JStr "a")])] [("18", JStr "{}")]
                    "17" "not json")).
    vm_compute. reflexivity.
Defined.

(* ------------------------------------------------------------------ *)
(** ** AnnotationMerger: tagging again *)

Lemma dict_set_set_eq {V} k (v1 v2 : V) (d : list (string * V)) :
  dict_set k v2 (dict_set k v1 d) = dict_set k v2 d.
Proof.
  induction d as [|[k' v'] d IH]; simpl.
  - by rewrite String.eqb_refl.
  - destruct (String.eqb k k') eqn:E; simpl; rewrite E; [done|].
    by rewrite IH.
Qed.

Lemma tag_measurements_tagged (items items' : pydict) r1 r2 :
  Forall2 (tagged r1) items items' ->
  tag_measurements items' r2 = tag_measurements items r2.
Proof.
  induction 1 as [|[k v] [k' v'] items items' (Hk & fields & Hb & Ha) _ IH];
    simpl; [done|].
  simpl in *. subst. simpl. by rewrite dict_set_set_eq, IH.
Qed.

(** X12. Tagging a measurements mapping again replaces the tag: the
    result is what tagging the untagged mapping with the later rule
    number gives, and tagging twice with the same rule number is tagging
    once. *)
Theorem add_rule_number_to_measurements_again (data_dict : pydict)
        (rule1 rule2 : json) :
  Forall (fun kv => is_mapping (snd kv) = true) data_dict ->
  exists tagged_dict,
    add_rule_number_to_measurements (JObj data_dict) rule1 =
      Ok (JObj tagged_dict) /\
    add_rule_number_to_measurements (JObj tagged_dict) rule2 =
      add_rule_number_to_measurements (JObj data_dict) rule2 /\
    add_rule_number_to_measurements (JObj tagged_dict) rule1 =
      Ok (JObj tagged_dict).
Proof.
  intros Hmaps.
  destruct (add_rule_number_to_measurements_frame_core data_dict rule1 Hmaps)
    as (tagged_dict & Htag & Hall).
  exists tagged_dict.
  assert (Hagain : forall r,
             add_rule_number_to_measurements (JObj tagged_dict) r =
             add_rule_number_to_measurements (JObj data_dict) r).
  { intros r. unfold add_rule_number_to_measurements. simpl.
    by rewrite (tag_measurements_tagged data_dict tagged_dict rule1 r). }
  split_and!; [done | apply Hagain | by rewrite Hagain].
Qed.

Lemma add_rule_number_to_measurements_again_witness :
  exists tagged_dict,
    add_rule_number_to_measurements (JObj Examples.measurements)
      (JStr "V.1.2") = Ok (JObj tagged_dict) /\
    add_rule_number_to_measurements (JObj tagged_dict) (JStr "V.1.3") =
      add_rule_number_to_measurements (JObj Examples.measurements)
        (JStr "V.1.3") /\
    add_rule_number_to_measurements (JObj tagged_dict) (JStr "V.1.2") =
      Ok (JObj tagged_dict).
Proof.
  apply (add_rule_number_to_measurements_again Examples.measurements
           (JStr "V.1.2") (JStr "V.1.3")).
  repeat constructor.
Defined.


(* ------------------------------------------------------------------ *)
(** ** [extract_term_as_key]: what the summary holds *)

Lemma dict_has_set {V} k k' (v : V) (d : list (string * V)) :
  dict_has k d = true -> dict_has k (dict_set k' v d) = true.
Proof.
  unfold dict_has. rewrite dict_get_set.
  by destruct (String.eqb k k').
Qed.

Lemma dict_update_same_keys {V} (d other : list (string * V)) :
  Forall (fun kv => dict_has (fst kv) d = true) other ->
  map fst (dict_update d other) = map fst d.
Proof.
  unfold dict_update. intros Hall. revert d Hall.
  induction other as [|[k v] other IH]; intros d Hall; simpl; [done|].
  apply Forall_cons in Hall as [Hk Hall]. simpl in Hk.
  rewrite IH.
  - rewrite dict_set_keys. by rewrite Hk.
  - eapply Forall_impl; [exact Hall|]. intros kv Hkv.
    by apply dict_has_set.
Qed.

Lemma dict_has_In {V} k (d : list (string * V)) :
  dict_has k d = true <-> In k (map fst d).
Proof.
  unfold dict_has. destruct (dict_get k d) as [v|] eqn:Hget.
  - split; [|done]. intros _. apply dict_get_Some_In in Hget.
    apply in_map_iff. by exists (k, v).
  - apply dict_get_None in Hget. split; [done | tauto].
Qed.

Lemma summary_entry_rules (os : list occurrence)
      (oe : option summary_entry) :
  sum_rules
    (default (SummaryEntry [] [] JNull)
       (fold_left (fun oe o => Some (update_summary_entry
                                       (default (SummaryEntry [] [] JNull) oe)
                                       o)) os oe)) =
  fold_left (fun s x => set_insert x s) (map occ_rule_hash os)
            (sum_rules (default (SummaryEntry [] [] JNull) oe)).
Proof.
  revert oe. induction os as [|o os IH]; intros oe; simpl; [done|].
  by rewrite IH.
Qed.

Lemma set_insert_same (x : string) (xs : list json) :
  Forall (fun y => y = JStr x) xs ->
  fold_left (fun s y => set_insert y s) xs [JStr x] = [JStr x].
Proof.
  induction 1 as [|y xs -> _ IH]; simpl; [done|].
  unfold set_insert at 2, set_mem. simpl. by rewrite String.eqb_refl.
Qed.

Section Summary.
Context `{Builtins}.

Lemma lacks_rule_hash_occurrences data :
  lacks_rule_hash data = true ->
  Forall (fun o => occ_rule_hash o = JStr "") (occurrences data).
Proof.
  unfold lacks_rule_hash, occurrences. rewrite forallb_forall.
  intros Hall. apply Forall_forall. intros o Ho%list_elem_of_In.
  apply in_flat_map in Ho as ([page [key record]] & Hpr & Ho).
  specialize (Hall _ Hpr). simpl in Hall.
  unfold rule_occurrences in Ho. apply in_map_iff in Ho as (tr & <- & _).
  simpl. destruct record as [| | | | |fields]; try done. simpl.
  unfold dict_has in Hall. by destruct (dict_get "rule#" fields).
Qed.

(** X13. The document [extract_term_as_key] writes has the page keys of
    its input in the same order, and under every page the same mapping,
    the summary of all terms of the document: the rules the page held
    are not in it. *)
Theorem extract_term_as_key_replaces_pages data :
  summary_document data = true ->
  exists concatenated_terms output,
    concatenate_terms_as_key data = Ok concatenated_terms /\
    extract_term_as_key_data data = Ok output /\
    map fst output = map fst (pages_of data) /\
    forall page,
      In page (map fst (pages_of data)) ->
      dict_get page output =
      Some (JObj (map (fun te => (fst te, summary_record (fst te) (snd te)))
                      concatenated_terms)).
Proof.
  intros Hdoc.
  pose proof (concatenate_terms_as_key_fold data Hdoc) as Hterms.
  apply summary_document_parts in Hdoc as (Hp & _ & _).
  destruct data as [| | | | |pages]; try done.
  eexists _, _. split; [exact Hterms|].
  unfold extract_term_as_key_data. rewrite Hterms. simpl.
  split_and!; [done | |].
  - apply dict_update_same_keys. apply Forall_forall.
    intros [k v] Hin%list_elem_of_In. simpl.
    apply in_map_iff in Hin as ([page keys] & [= <- _] & Hin).
    apply dict_has_In. apply in_map_iff. by exists (page, keys).
  - intros page Hin. rewrite dict_get_update.
    rewrite (last_entry_map_values (fun _ => _) page pages).
    unfold last_entry.
    destruct (dict_get page (rev pages)) as [keys|] eqn:Hget; [done|].
    apply dict_get_None in Hget. exfalso. apply Hget.
    rewrite map_rev. by apply in_rev in Hin.
Qed.

(** X14. On a document whose rule records have no ["rule#"] field,
    which is how the rest of the pipeline writes them (it names the
    field [rule_number]), [extract_term_as_key] gives every term the
    rule list that holds the empty string and nothing else. *)
Theorem extract_term_as_key_rules_empty_string data :
  summary_document data = true ->
  lacks_rule_hash data = true ->
  exists concatenated_terms,
    concatenate_terms_as_key data = Ok concatenated_terms /\
    forall term e,
      dict_get term concatenated_terms = Some e ->
      sum_rules e = [JStr ""].
Proof.
  intros Hdoc Hlack. eexists.
  split; [by apply concatenate_terms_as_key_fold|].
  intros term e He. rewrite dict_get_record_with in He. simpl in He.
  pose proof (summary_entry_rules
                (List.filter (fun o => String.eqb (occ_term o) term)
                             (occurrences data)) None) as Hr.
  rewrite He in Hr. simpl in Hr. rewrite Hr.
  assert (Hall : Forall (fun y => y = JStr "")
                   (map occ_rule_hash
                      (List.filter (fun o => String.eqb (occ_term o) term)
                                   (occurrences data)))).
  { apply Forall_forall. intros y Hy%list_elem_of_In.
    apply in_map_iff in Hy as (o & <- & Ho). apply filter_In in Ho as [Ho _].
    pose proof (lacks_rule_hash_occurrences data Hlack) as Hocc.
    rewrite Forall_forall in Hocc. by apply Hocc, list_elem_of_In. }
  destruct (List.filter (fun o => String.eqb (occ_term o) term)
                        (occurrences data)) as [|o os]; [done|].
  simpl in *. apply Forall_cons in Hall as [-> Hall].
  by apply set_insert_same.
Qed.
End Summary.

Lemma extract_term_as_key_replaces_pages_witness :
  exists concatenated_terms output,
    @concatenate_terms_as_key Concrete.builtins Examples.page_keyed_rules =
      Ok concatenated_terms /\
    @extract_term_as_key_data Concrete.builtins Examples.page_keyed_rules =
      Ok output /\
    map fst output = map fst (pages_of Examples.page_keyed_rules) /\
    forall page,
      In page (map fst (pages_of Examples.page_keyed_rules)) ->
      dict_get page output =
      Some (JObj (map (fun te => (fst te, summary_record (fst te) (snd te)))
                      concatenated_terms)).
Proof.
  apply (@extract_term_as_key_replaces_pages Concrete.builtins
           Examples.page_keyed_rules).
  vm_compute. reflexivity.
Defined.

Lemma extract_term_as_key_rules_empty_string_witness :
  exists concatenated_terms,
    @concatenate_terms_as_key Concrete.builtins Examples.page_keyed_rules =
      Ok concatenated_terms /\
    forall term e,
      dict_get term concatenated_terms = Some e ->
      sum_rules e = [JStr ""].
Proof.
  apply (@extract_term_as_key_rules_empty_string Concrete.builtins
           Examples.page_keyed_rules); vm_compute; reflexivity.
Defined.

(* ------------------------------------------------------------------ *)
(** ** Lookups: the letter case of the query *)

Section QueryCase.
Context `{Builtins}.

Lemma collect_rule_numbers_lower key1 key2 rule_numbers item :
  str_lower key1 = str_lower key2 ->
  collect_rule_numbers key1 rule_numbers item =
  collect_rule_numbers key2 rule_numbers item.
Proof.
  intros Heq. destruct item as [key value]. unfold collect_rule_numbers.
  by rewrite Heq.
Qed.

(** X15. In mode "rule_numbers" only the lower-case form of the query
    counts: two queries with the same lower-case form return the same
    list of rule numbers, raise alike, and find nothing alike. *)
Theorem extract_information_query_case data key1 key2 :
  str_lower key1 = str_lower key2 ->
  (forall rule_numbers,
      extract_information_data data key1 "rule_numbers" =
        Ok (JArr rule_numbers) <->
      extract_information_data data key2 "rule_numbers" =
        Ok (JArr rule_numbers)) /\
  (forall e,
      extract_information_data data key1 "rule_numbers" = Raise e <->
      extract_information_data data key2 "rule_numbers" = Raise e) /\
  (extract_information_data data key1 "rule_numbers" =
     Ok (JStr ("Technical term '" +:+ key1 +:+
               "' not found in the JSON file.")) <->
   extract_information_data data key2 "rule_numbers" =
     Ok (JStr ("Technical term '" +:+ key2 +:+
               "' not found in the JSON file."))).
Proof.
  intros Heq. unfold extract_information_data. simpl.
  destruct data as [| | | | |records]; simpl; try done.
  rewrite (for_each_ext (collect_rule_numbers key1)
             (collect_rule_numbers key2) records []).
  - destruct (for_each (collect_rule_numbers key2) records [])
      as [[|r rs]|e]; simpl; split_and!; try done; intros; split; done.
  - apply Forall_forall. intros item _ b.
    by apply collect_rule_numbers_lower.
Qed.
End QueryCase.

Lemma extract_information_query_case_witness :
  (forall rule_numbers,
      @extract_information_data Concrete.builtins Examples.rule_keyed_rules
        "rollover stability" "rule_numbers" = Ok (JArr rule_numbers) <->
      @extract_information_data Concrete.builtins Examples.rule_keyed_rules
        "ROLLOVER Stability" "rule_numbers" = Ok (JArr rule_numbers)) /\
  @extract_information_data Concrete.builtins Examples.rule_keyed_rules
    "ROLLOVER Stability" "rule_numbers" = Ok (JArr [JStr "V.1.3"]).
Proof.
  destruct (@extract_information_query_case Concrete.builtins
              Examples.rule_keyed_rules "rollover stability"
              "ROLLOVER Stability") as (Hsame & _ & _).
  - vm_compute. reflexivity.
  - split; [exact Hsame|]. apply Hsame. vm_compute. reflexivity.
Defined.

(* ------------------------------------------------------------------ *)
(** ** add_rule_numbers_to_terms *)

Lemma hdict_set_values k v (d : hdict) :
  Forall (fun kv => snd kv = v) d ->
  Forall (fun kv => snd kv = v) (hdict_set k v d).
Proof.
  induction 1 as [|[k' v'] d' Hv Hd IH]; simpl.
  - repeat constructor.
  - destruct (py_eq k' k); constructor; auto.
Qed.

Lemma terms_dict_of_values l r acc t :
  Forall (fun kv => snd kv = r) acc ->
  terms_dict_of l r acc = Ok t ->
  Forall (fun kv => snd kv = r) t.
Proof.
  revert acc. induction l as [|x l IH]; simpl; intros acc Hacc Ht.
  - congruence.
  - destruct (hashable x); [|discriminate].
    eapply IH; [|exact Ht]. by apply hdict_set_values.
Qed.

Lemma hdict_json_values (d : hdict) (p : pydict) v :
  Forall (fun kv => snd kv = v) d ->
  hdict_json d = Some p ->
  Forall (fun kv => snd kv = v) p.
Proof.
  revert p. induction d as [|[k w] d IH]; simpl; intros p Hd Hp.
  - injection Hp as <-. constructor.
  - destruct k; try discriminate.
    destruct (hdict_json d) as [rest|] eqn:Hrest; [|discriminate].
    injection Hp as <-. inversion Hd; subst. constructor; auto.
Qed.

Lemma hdict_set_str s v (d : hdict) (p : pydict) :
  hdict_json d = Some p ->
  hdict_json (hdict_set (JStr s) v d) = Some (dict_set s v p).
Proof.
  revert p. induction d as [|[k w] d IH]; simpl; intros p Hp.
  - by injection Hp as <-.
  - destruct k; try discriminate.
    destruct (hdict_json d) as [rest|] eqn:Hrest; [|discriminate].
    injection Hp as <-. simpl. rewrite (String.eqb_sym s s0).
    destruct (String.eqb s0 s); simpl.
    + by rewrite Hrest.
    + by rewrite (IH rest eq_refl).
Qed.

Lemma terms_dict_of_strings (terms : list string) r (acc : hdict)
      (p : pydict) :
  hdict_json acc = Some p ->
  exists t,
    terms_dict_of (map JStr terms) r acc = Ok t /\
    hdict_json t = Some (fold_left (fun p s => dict_set s r p) terms p).
Proof.
  revert acc p. induction terms as [|s terms IH]; simpl; intros acc p Hp.
  - eauto.
  - apply IH. by apply hdict_set_str.
Qed.

Lemma dict_get_set_all (terms : list string) (r : json) (p : pydict) s :
  dict_get s (fold_left (fun p s => dict_set s r p) terms p) =
  if bool_decide (s ∈ terms) then Some r else dict_get s p.
Proof.
  revert p. induction terms as [|s' terms IH]; simpl; intros p.
  - done.
  - rewrite IH, dict_get_set.
    destruct (String.eqb s s') eqn:E.
    + apply String.eqb_eq in E as ->.
      rewrite (bool_decide_eq_true_2 (s' ∈ s' :: terms)) by left.
      by destruct (bool_decide (s' ∈ terms)).
    + apply String.eqb_neq in E.
      destruct (bool_decide (s ∈ terms)) eqn:B.
      * apply bool_decide_eq_true_1 in B.
        by rewrite bool_decide_eq_true_2 by (by right).
      * apply bool_decide_eq_false_1 in B.
        rewrite bool_decide_eq_false_2; [done|].
        intros [->|?]%elem_of_cons; tauto.
Qed.

Lemma set_all_NoDup (terms : list string) (r : json) (p : pydict) :
  List.NoDup (map fst p) ->
  List.NoDup (map fst (fold_left (fun p s => dict_set s r p) terms p)).
Proof.
  revert p. induction terms as [|s terms IH]; simpl; intros p Hp; [done|].
  apply IH. by apply dict_set_NoDup.
Qed.

Lemma terms_dict_of_returns l r acc :
  returns (terms_dict_of l r acc) <-> forallb hashable l = true.
Proof.
  revert acc. induction l as [|x l IH]; simpl; intros acc.
  - split; [done|]. intros _. by eexists.
  - destruct (hashable x); simpl.
    + apply IH.
    + split; [intros [? ?]; discriminate | discriminate].
Qed.

(** X16 (add_rule_numbers_to_terms, kv_term.py).  When the value under
    ["technical_terms"] -- a list, a single value, the word NONE, or
    nothing at all -- stands for the strings [terms], the function
    returns a dict with string keys that are pairwise distinct, and that
    maps exactly the strings of [terms] to the rule number: a term given
    twice has one entry, a missing key or the word NONE gives the empty
    dict. *)
Theorem add_rule_numbers_to_terms_strings (d : pydict) (terms : list string)
        (rule_number : json) :
  terms_list (default (JArr []) (dict_get "technical_terms" d)) =
    map JStr terms ->
  exists transformed p,
    add_rule_numbers_to_terms (JObj d) rule_number = Ok transformed /\
    hdict_json transformed = Some p /\
    List.NoDup (map fst p) /\
    forall s, dict_get s p =
              if bool_decide (s ∈ terms) then Some rule_number else None.
Proof.
  intros Hterms. unfold add_rule_numbers_to_terms. simpl. rewrite Hterms.
  destruct (terms_dict_of_strings terms rule_number [] [] eq_refl)
    as (t & Ht & Hp).
  exists t, (fold_left (fun p s => dict_set s rule_number p) terms []).
  repeat split; try done.
  - apply set_all_NoDup. constructor.
  - intros s. by rewrite dict_get_set_all.
Qed.

Lemma add_rule_numbers_to_terms_strings_witness :
  exists transformed p,
    add_rule_numbers_to_terms
      (JObj [("technical_terms",
              JArr [JStr "track"; JStr "wheelbase"; JStr "track"])])
      (JStr "V.1.3") = Ok transformed /\
    hdict_json transformed = Some p /\
    List.NoDup (map fst p) /\
    forall s, dict_get s p =
              if bool_decide (s ∈ ["track"; "wheelbase"; "track"])
              then Some (JStr "V.1.3") else None.
Proof.
  apply (add_rule_numbers_to_terms_strings
           [("technical_terms",
             JArr [JStr "track"; JStr "wheelbase"; JStr "track"])]
           ["track"; "wheelbase"; "track"] (JStr "V.1.3")).
  reflexivity.
Defined.

(** X17 (add_rule_numbers_to_terms, kv_term.py).  The function returns
    exactly when its first argument is a mapping and every term it
    finds there can be a dict key: an argument that is no mapping has
    no [get] (AttributeError), and a term that is a list or a mapping,
    alone or inside the list, is refused by [dict] (TypeError). *)
Theorem add_rule_numbers_to_terms_returns_iff (terms_dict rule_number : json) :
  returns (add_rule_numbers_to_terms terms_dict rule_number) <->
  exists d,
    terms_dict = JObj d /\
    forallb hashable
            (terms_list (default (JArr []) (dict_get "technical_terms" d)))
      = true.
Proof.
  unfold add_rule_numbers_to_terms. destruct terms_dict; simpl;
    try (split; [intros [? ?]; discriminate | intros (? & ? & _); discriminate]).
  rewrite terms_dict_of_returns. split.
  - intros Hh. eauto.
  - intros (d' & Hd & Hh). by injection Hd as <-.
Qed.

(* ------------------------------------------------------------------ *)
(** ** extract_details *)

Section AnnotationFacts.
Context `{Builtins} `{Service}.
Variables prompt_term_extraction prompt_measurement_extraction : option string.

Lemma tag_measurements_rule_hash (items items' : pydict) (r : json) :
  tag_measurements items r = Ok items' ->
  Forall (fun kv => exists m, snd kv = JObj m /\
                              dict_get "rule#" m = Some r) items'.
Proof.
  revert items'. induction items as [|[k v] items IH]; simpl; intros items' Ht.
  - injection Ht as <-. constructor.
  - destruct v; simpl in Ht; try discriminate.
    destruct (tag_measurements items r) as [rest|] eqn:Hrest;
      simpl in Ht; [|discriminate].
    injection Ht as <-. constructor; [|by apply IH].
    simpl. eexists. split; [done|]. apply dict_get_set_eq.
Qed.

Lemma annotate_rule_annotated rule details details' :
  annotate_rule prompt_term_extraction prompt_measurement_extraction
                rule details = Done (Some details') ->
  annotated rule details details'.
Proof.
  unfold annotate_rule. destruct details as [| | | | |fields]; simpl;
    try discriminate.
  destruct (invoke_llm _ prompt_term_extraction) as [terms|]; simpl;
    [|discriminate].
  destruct (invoke_llm _ prompt_measurement_extraction) as [meas|]; simpl;
    [|discriminate].
  destruct (decode_annotations terms meas) as [[[terms' meas']|]|]; simpl;
    try discriminate.
  destruct (add_rule_numbers_to_terms terms' (JStr rule)) as [t|] eqn:Ht;
    simpl; [|discriminate].
  destruct (add_rule_number_to_measurements meas' (JStr rule)) as [m|] eqn:Hm;
    simpl; [|discriminate].
  destruct (hdict_json t) as [p|] eqn:Hp; simpl; [|discriminate].
  intros [= <-].
  unfold add_rule_number_to_measurements in Hm.
  destruct meas' as [| | | | |md]; simpl in Hm; try discriminate.
  destruct (tag_measurements md (JStr rule)) as [items'|] eqn:Htag;
    simpl in Hm; [|discriminate].
  injection Hm as <-.
  exists fields, p, items'. repeat split.
  - eapply hdict_json_values; [|exact Hp].
    unfold add_rule_numbers_to_terms in Ht.
    destruct (py_get terms' "technical_terms" (JArr [])); simpl in Ht;
      [|discriminate].
    eapply terms_dict_of_values; [|exact Ht]. constructor.
  - by eapply tag_measurements_rule_hash.
Qed.

Lemma store_rule_spec page rule details (x x' : pydict) :
  store_rule page rule details x = Done x' ->
  map fst x' = map fst x /\
  (forall q, q <> page -> dict_get q x' = dict_get q x) /\
  exists rules',
    dict_get page x' = Some (JObj rules') /\
    dict_get rule rules' = Some details /\
    forall rx r2, dict_get page x = Some (JObj rx) -> r2 <> rule ->
                  dict_get r2 rules' = dict_get r2 rx.
Proof.
  unfold store_rule. simpl.
  destruct (dict_get page x) as [current|] eqn:Hcur; simpl; [|discriminate].
  set (cur := match current with
              | JStr s => default current (json_loads s)
              | _ => current
              end).
  destruct cur as [| | | | |rules] eqn:Ecur; simpl; try discriminate.
  intros [= <-]. split; [|split].
  - rewrite dict_set_keys. unfold dict_has. by rewrite Hcur.
  - intros q Hq. by apply dict_get_set_ne.
  - exists (dict_set rule details rules). rewrite dict_get_set_eq.
    split; [done|]. split; [apply dict_get_set_eq|].
    intros rx r2 [= ->] Hr2. subst cur. simpl in Ecur.
    injection Ecur as <-. by apply dict_get_set_ne.
Qed.

Lemma annotate_in_page_frame page items (x x' : pydict) :
  for_each_outcome
    (annotate_in_page prompt_term_extraction prompt_measurement_extraction
                      page) items x = Done x' ->
  map fst x' = map fst x /\
  forall q, q <> page -> dict_get q x' = dict_get q x.
Proof.
  revert x. induction items as [|[rule details] items IH]; simpl; intros x Hx.
  - by injection Hx as <-.
  - destruct (annotate_rule _ _ rule details) as [[details'|]|]; simpl in Hx;
      try discriminate.
    + destruct (store_rule page rule details' x) as [x1|] eqn:Hs; simpl in Hx;
        [|discriminate].
      apply store_rule_spec in Hs as (Hk & Hf & _).
      apply IH in Hx as [Hk' Hf']. split; [congruence|].
      intros q Hq. rewrite Hf', Hf; done.
    + by apply IH.
Qed.

Lemma annotate_in_page_keeps page rule d items (x x' rx : pydict) :
  for_each_outcome
    (annotate_in_page prompt_term_extraction prompt_measurement_extraction
                      page) items x = Done x' ->
  dict_get page x = Some (JObj rx) ->
  dict_get rule rx = Some d ->
  ~ In rule (map fst items) ->
  exists rx', dict_get page x' = Some (JObj rx') /\
              dict_get rule rx' = Some d.
Proof.
  revert x rx. induction items as [|[rule2 details] items IH]; simpl;
    intros x rx Hx Hpage Hrule Hnot.
  - injection Hx as <-. eauto.
  - destruct (annotate_rule _ _ rule2 details) as [[details'|]|]; simpl in Hx;
      try discriminate.
    + destruct (store_rule page rule2 details' x) as [x1|] eqn:Hs;
        simpl in Hx; [|discriminate].
      apply store_rule_spec in Hs as (_ & _ & rules' & Hp' & _ & Hother).
      eapply (IH x1 rules'); eauto.
      rewrite (Hother rx rule Hpage); [done|]. intros ->. tauto.
    + eapply IH; eauto.
Qed.

Lemma annotate_in_page_annotates page rule details items (x x' : pydict) :
  for_each_outcome
    (annotate_in_page prompt_term_extraction prompt_measurement_extraction
                      page) items x = Done x' ->
  List.NoDup (map fst items) ->
  In (rule, details) items ->
  annotate_rule prompt_term_extraction prompt_measurement_extraction
                rule details = Done None \/
  exists details' rules',
    annotate_rule prompt_term_extraction prompt_measurement_extraction
                  rule details = Done (Some details') /\
    dict_get page x' = Some (JObj rules') /\
    dict_get rule rules' = Some details'.
Proof.
  revert x. induction items as [|[rule2 details2] items IH]; simpl;
    intros x Hx Hnd Hin; [done|].
  apply List.NoDup_cons_iff in Hnd as [Hnot Hnd].
  destruct Hin as [[= -> ->]|Hin].
  - destruct (annotate_rule _ _ rule details) as [[details'|]|]; simpl in Hx;
      try discriminate; [|by left].
    right. destruct (store_rule page rule details' x) as [x1|] eqn:Hs;
      simpl in Hx; [|discriminate].
    apply store_rule_spec in Hs as (_ & _ & rules' & Hp' & Hr' & _).
    destruct (annotate_in_page_keeps page rule details' items x1 x' rules')
      as (rx' & ? & ?); auto.
    exists details', rx'. auto.
  - destruct (annotate_rule _ _ rule2 details2) as [[details'|]|];
      simpl in Hx; try discriminate.
    + destruct (store_rule page rule2 details' x) as [x1|] eqn:Hs;
        simpl in Hx; [|discriminate].
      by apply (IH x1).
    + by apply (IH x).
Qed.

Variables start_page end_page : Z.

Lemma annotate_page_frame pages (x x' : pydict) :
  for_each_outcome
    (annotate_page prompt_term_extraction prompt_measurement_extraction
                   start_page end_page) pages x = Done x' ->
  map fst x' = map fst x /\
  forall q,
    (forall v, In (q, v) pages ->
               exists n, py_int q = Some n /\
                         (start_page <=? n)%Z && (n <=? end_page)%Z = false) ->
    dict_get q x' = dict_get q x.
Proof.
  revert x. induction pages as [|[page rules] pages IH]; simpl; intros x Hx.
  - by injection Hx as <-.
  - destruct (py_int page) as [n|] eqn:Hn; simpl in Hx; [|discriminate].
    assert (Hstep : forall x1,
      for_each_outcome
        (annotate_page prompt_term_extraction prompt_measurement_extraction
                       start_page end_page) pages x1 = Done x' ->
      map fst x1 = map fst x ->
      (forall q, q <> page -> dict_get q x1 = dict_get q x) ->
      (start_page <=? n)%Z && (n <=? end_page)%Z = true ->
      map fst x' = map fst x /\
      forall q,
        (forall v, (page, rules) = (q, v) \/ In (q, v) pages ->
           exists n, py_int q = Some n /\
                     (start_page <=? n)%Z && (n <=? end_page)%Z = false) ->
        dict_get q x' = dict_get q x).
    { intros x1 Hx1 Hk Hf Hin. apply IH in Hx1 as [Hk' Hf'].
      split; [congruence|]. intros q Hq.
      rewrite Hf' by (intros v Hv; apply (Hq v); by right).
      apply Hf. intros ->.
      destruct (Hq rules) as (n' & Hn' & Hout); [by left|]. congruence. }
    destruct ((start_page <=? n)%Z && (n <=? end_page)%Z) eqn:Hrange.
    + destruct (loads_if_str rules) as [decoded|]; simpl in Hx.
      * destruct (py_items decoded) as [items|]; simpl in Hx; [|discriminate].
        destruct (for_each_outcome _ items x) as [x1|] eqn:Hinner;
          simpl in Hx; [|discriminate].
        apply annotate_in_page_frame in Hinner as [Hk Hf].
        by apply (Hstep x1).
      * apply IH in Hx as [Hk' Hf']. split; [done|].
        intros q Hq. apply Hf'. intros v Hv. apply (Hq v). by right.
    + apply IH in Hx as [Hk' Hf']. split; [done|].
      intros q Hq. apply Hf'. intros v Hv. apply (Hq v). by right.
Qed.

Lemma annotate_page_keys pages (x x' : pydict) :
  for_each_outcome
    (annotate_page prompt_term_extraction prompt_measurement_extraction
                   start_page end_page) pages x = Done x' ->
  Forall (fun kv => is_Some (py_int (fst kv))) pages.
Proof.
  revert x. induction pages as [|[page rules] pages IH]; simpl; intros x Hx.
  - constructor.
  - destruct (py_int page) as [n|] eqn:Hn; simpl in Hx; [|discriminate].
    destruct (if (start_page <=? n)%Z && (n <=? end_page)%Z
              then _ else _) as [x1|]; simpl in Hx; [|discriminate].
    constructor; [simpl; by rewrite Hn | by eapply IH].
Qed.
End AnnotationFacts.

Section AnnotationRuns.
Context `{Builtins} `{Service}.
Variables prompt_term_extraction prompt_measurement_extraction : option string.
Variables start_page end_page : Z.

Lemma annotate_page_annotates pages (x x' : pydict) page v n rules
      rule details :
  for_each_outcome
    (annotate_page prompt_term_extraction prompt_measurement_extraction
                   start_page end_page) pages x = Done x' ->
  List.NoDup (map fst pages) ->
  In (page, v) pages ->
  py_int page = Some n ->
  (start_page <=? n)%Z && (n <=? end_page)%Z = true ->
  loads_if_str v = Some (JObj rules) ->
  List.NoDup (map fst rules) ->
  In (rule, details) rules ->
  annotate_rule prompt_term_extraction prompt_measurement_extraction
                rule details = Done None \/
  exists details' rules',
    annotate_rule prompt_term_extraction prompt_measurement_extraction
                  rule details = Done (Some details') /\
    dict_get page x' = Some (JObj rules') /\
    dict_get rule rules' = Some details'.
Proof.
  intros Hx Hnd Hin Hn Hrange Hv Hndr Hrule. revert x Hx.
  induction pages as [|[page2 rules2] pages IH]; intros x Hx; [done|].
  simpl in Hnd. apply List.NoDup_cons_iff in Hnd as [Hnot Hnd].
  cbn [for_each_outcome] in Hx.
  destruct (annotate_page _ _ _ _ x (page2, rules2)) as [x1|] eqn:Hhead;
    [|discriminate].
  change (for_each_outcome
            (annotate_page prompt_term_extraction
                           prompt_measurement_extraction
                           start_page end_page) pages x1 = Done x') in Hx.
  destruct Hin as [[= -> ->]|Hin]; [|by apply (IH Hnd Hin x1)].
  simpl in Hhead. rewrite Hn, Hrange, Hv in Hhead. simpl in Hhead.
  destruct (annotate_in_page_annotates
              prompt_term_extraction prompt_measurement_extraction
              page rule details rules x x1 Hhead Hndr Hrule)
    as [Hnone|(details' & rules' & Ha & Hp & Hr)]; [by left|].
  right. exists details', rules'. split; [done|]. split; [|done].
  apply annotate_page_frame in Hx as [_ Hf]. rewrite Hf; [done|].
  intros v' Hv'. exfalso. apply Hnot.
  change page with (fst (page, v')). by apply in_map.
Qed.

Hypothesis service_down : forall model input, llm_create model input = None.

Lemma annotate_rule_down rule details :
  has_text details = true ->
  annotate_rule prompt_term_extraction prompt_measurement_extraction
                rule details = Fail UnboundLocalError.
Proof.
  unfold annotate_rule, has_text.
  destruct details as [| | | | |fields]; try discriminate. simpl.
  destruct (dict_get "definition" fields) as [[| | |text| |]|];
    try discriminate; intros _; simpl; unfold invoke_llm;
    rewrite !service_down; reflexivity.
Qed.

Lemma annotate_in_page_down page items (x : pydict) :
  forallb (fun kv => has_text (snd kv)) items = true ->
  for_each_outcome
    (annotate_in_page prompt_term_extraction prompt_measurement_extraction
                      page) items x =
  match items with
  | [] => Done x
  | _ :: _ => Fail UnboundLocalError
  end.
Proof.
  destruct items as [|[rule details] items]; [done|].
  simpl. intros [Ht _]%andb_prop. by rewrite annotate_rule_down.
Qed.

Lemma annotate_page_down pages (x : pydict) :
  annotatable start_page end_page pages = true ->
  for_each_outcome
    (annotate_page prompt_term_extraction prompt_measurement_extraction
                   start_page end_page) pages x =
  match rules_in_range start_page end_page pages with
  | [] => Done x
  | _ :: _ => Fail UnboundLocalError
  end.
Proof.
  induction pages as [|[page rules] pages IH]; [done|].
  simpl. intros [Hpage Hrest]%andb_prop.
  destruct (py_int page) as [n|]; [|discriminate].
  destruct ((start_page <=? n)%Z && (n <=? end_page)%Z); simpl;
    [|by apply IH].
  destruct (loads_if_str rules) as [[| | | | |items]|]; try discriminate;
    simpl; [|by apply IH].
  rewrite annotate_in_page_down by done.
  destruct items; simpl; [by apply IH|done].
Qed.
End AnnotationRuns.

(** X18 (extract_details and invoke_llm, kv_term.py).  When every call
    of the service raises, a run over a document of the expected shape
    does one of two things: if the range holds no rule it writes the
    document as it was read; if it holds one, the first rule ends the
    run with UnboundLocalError -- [invoke_llm] prints the error of the
    service and then returns a name it never assigned -- and no file is
    written. *)
Theorem extract_details_service_down `{Builtins} `{Service}
        (input_file output_file : string)
        (prompt_term_extraction prompt_measurement_extraction : option string)
        (start_page end_page : Z) (data : pydict) (fs : filesystem) :
  (forall model input, llm_create model input = None) ->
  fs !! input_file = Some (JsonFile (JObj data)) ->
  annotatable start_page end_page data = true ->
  extract_details input_file output_file prompt_term_extraction
                  prompt_measurement_extraction start_page end_page fs =
  match rules_in_range start_page end_page data with
  | [] => (Done (JObj data), <[output_file := JsonFile (JObj data)]> fs)
  | _ :: _ => (Fail UnboundLocalError, fs)
  end.
Proof.
  intros Hdown Hfile Hshape.
  unfold extract_details, json_load, extract_details_data. rewrite Hfile.
  simpl. rewrite annotate_page_down by done.
  by destruct (rules_in_range start_page end_page data).
Qed.

Lemma extract_details_service_down_witness :
  @extract_details Concrete.builtins Replies.down
    "rules.json" "annotated.json" (Some "terms:") (Some "measurements:") 1 2
    {["rules.json" := JsonFile (JObj Annotator.rules)]} =
  (Fail UnboundLocalError,
   {["rules.json" := JsonFile (JObj Annotator.rules)]}) /\
  @extract_details Concrete.builtins Replies.down
    "rules.json" "annotated.json" (Some "terms:") (Some "measurements:") 3 5
    {["rules.json" := JsonFile (JObj Annotator.rules)]} =
  (Done (JObj Annotator.rules),
   <["annotated.json" := JsonFile (JObj Annotator.rules)]>
     {["rules.json" := JsonFile (JObj Annotator.rules)]}).
Proof.
  split.
  - apply (@extract_details_service_down Concrete.builtins Replies.down
             "rules.json" "annotated.json" (Some "terms:")
             (Some "measurements:") 1 2 Annotator.rules).
    + intros model input. reflexivity.
    + apply lookup_singleton_eq.
    + vm_compute. reflexivity.
  - apply (@extract_details_service_down Concrete.builtins Replies.down
             "rules.json" "annotated.json" (Some "terms:")
             (Some "measurements:") 3 5 Annotator.rules).
    + intros model input. reflexivity.
    + apply lookup_singleton_eq.
    + vm_compute. reflexivity.
Defined.

(** X19 (extract_details, kv_term.py).  A run that returns has read a
    mapping, returns the document it writes to the output file, keeps
    the page keys and their order, and leaves every page whose number is
    outside [start_page .. end_page] exactly as it was read. *)
Theorem extract_details_outside_range `{Builtins} `{Service}
        (input_file output_file : string)
        (prompt_term_extraction prompt_measurement_extraction : option string)
        (start_page end_page : Z) (fs fs' : filesystem) (doc : json) :
  extract_details input_file output_file prompt_term_extraction
                  prompt_measurement_extraction start_page end_page fs =
    (Done doc, fs') ->
  exists data data',
    fs !! input_file = Some (JsonFile (JObj data)) /\
    doc = JObj data' /\
    fs' = <[output_file := JsonFile (JObj data')]> fs /\
    map fst data' = map fst data /\
    forall page n,
      py_int page = Some n ->
      (start_page <=? n)%Z && (n <=? end_page)%Z = false ->
      dict_get page data' = dict_get page data.
Proof.
  unfold extract_details, json_load, extract_details_data.
  destruct (fs !! input_file) as [[[| | | | |data]|]|] eqn:Hfile; simpl;
    try discriminate.
  destruct (for_each_outcome _ data data) as [data'|] eqn:Hloop;
    [|discriminate].
  intros [= <- <-]. exists data, data'.
  apply annotate_page_frame in Hloop as [Hk Hf].
  repeat split; try done.
  intros page n Hn Hout. apply Hf. intros v _. eauto.
Qed.

Lemma extract_details_outside_range_witness :
  exists doc fs',
    @extract_details Concrete.builtins Annotator.service
      "rules.json" "annotated.json" (Some "terms:") (Some "measurements:")
      1 2 {["rules.json" := JsonFile (JObj Annotator.rules)]} =
      (Done doc, fs') /\
    exists data data',
      ({["rules.json" := JsonFile (JObj Annotator.rules)]} : filesystem)
        !! "rules.json" = Some (JsonFile (JObj data)) /\
      doc = JObj data' /\
      fs' = <["annotated.json" := JsonFile (JObj data')]>
              {["rules.json" := JsonFile (JObj Annotator.rules)]} /\
      map fst data' = map fst data /\
      forall page n,
        Concrete.int page = Some n ->
        (1 <=? n)%Z && (n <=? 2)%Z = false ->
        dict_get page data' = dict_get page data.
Proof.
  assert (Hrun : exists data',
    @extract_details Concrete.builtins Annotator.service
      "rules.json" "annotated.json" (Some "terms:") (Some "measurements:")
      1 2 {["rules.json" := JsonFile (JObj Annotator.rules)]} =
      (Done (JObj data'),
       <["annotated.json" := JsonFile (JObj data')]>
         {["rules.json" := JsonFile (JObj Annotator.rules)]})).
  { unfold extract_details, json_load. rewrite lookup_singleton_eq.
    eexists. vm_compute. reflexivity. }
  destruct Hrun as [data' Hrun].
  eexists. eexists. split; [exact Hrun|].
  exact (@extract_details_outside_range Concrete.builtins Annotator.service
           _ _ _ _ _ _ _ _ _ Hrun).
Defined.


(** X20 (extract_details, kv_term.py).  In a run that returns, every
    rule of a page of the range -- the page a mapping, or a string that
    decodes to one -- is either passed over, because an answer of the
    service is a string that does not decode, or stands in the document
    returned as the record it was with ["terms"] and ["measurements"]
    set: every other field is kept, every term is mapped to the rule
    key and every measurement carries the rule key under ["rule#"]. *)
Theorem extract_details_annotates `{Builtins} `{Service}
        (input_file output_file : string)
        (prompt_term_extraction prompt_measurement_extraction : option string)
        (start_page end_page : Z) (fs fs' : filesystem) (doc : json)
        (data rules : pydict) (page rule : string) (n : Z)
        (value details : json) :
  extract_details input_file output_file prompt_term_extraction
                  prompt_measurement_extraction start_page end_page fs =
    (Done doc, fs') ->
  fs !! input_file = Some (JsonFile (JObj data)) ->
  List.NoDup (map fst data) ->
  dict_get page data = Some value ->
  py_int page = Some n ->
  (start_page <=? n)%Z && (n <=? end_page)%Z = true ->
  loads_if_str value = Some (JObj rules) ->
  List.NoDup (map fst rules) ->
  dict_get rule rules = Some details ->
  annotate_rule prompt_term_extraction prompt_measurement_extraction
                rule details = Done None \/
  exists data' rules' details',
    doc = JObj data' /\
    dict_get page data' = Some (JObj rules') /\
    dict_get rule rules' = Some details' /\
    annotated rule details details'.
Proof.
  intros Hrun Hfile Hnd Hpage Hn Hrange Hvalue Hndr Hrule.
  unfold extract_details, json_load, extract_details_data in Hrun.
  rewrite Hfile in Hrun. simpl in Hrun.
  destruct (for_each_outcome _ data data) as [data'|] eqn:Hloop;
    [|discriminate].
  injection Hrun as <- <-.
  destruct (annotate_page_annotates
              prompt_term_extraction prompt_measurement_extraction
              start_page end_page data data data' page value n rules
              rule details Hloop Hnd (dict_get_Some_In _ _ _ Hpage)
              Hn Hrange Hvalue Hndr (dict_get_Some_In _ _ _ Hrule))
    as [Hnone|(details' & rules' & Ha & Hp & Hr)]; [by left|].
  right. exists data', rules', details'. repeat split; try done.
  by eapply annotate_rule_annotated.
Qed.

Lemma extract_details_annotates_witness :
  exists doc fs',
    @extract_details Concrete.builtins Annotator.service
      "rules.json" "annotated.json" (Some "terms:") (Some "measurements:")
      1 2 {["rules.json" := JsonFile (JObj Annotator.rules)]} =
      (Done doc, fs') /\
    (@annotate_rule Concrete.builtins Annotator.service
       (Some "terms:") (Some "measurements:") "V.1.2" Annotator.wheelbase =
       Done None \/
     exists data' rules' details',
       doc = JObj data' /\
       dict_get "1" data' = Some (JObj rules') /\
       dict_get "V.1.2" rules' = Some details' /\
       annotated "V.1.2" Annotator.wheelbase details').
Proof.
  assert (Hrun : exists data',
    @extract_details Concrete.builtins Annotator.service
      "rules.json" "annotated.json" (Some "terms:") (Some "measurements:")
      1 2 {["rules.json" := JsonFile (JObj Annotator.rules)]} =
      (Done (JObj data'),
       <["annotated.json" := JsonFile (JObj data')]>
         {["rules.json" := JsonFile (JObj Annotator.rules)]})).
  { unfold extract_details, json_load. rewrite lookup_singleton_eq.
    eexists. vm_compute. reflexivity. }
  destruct Hrun as [data' Hrun].
  eexists. eexists. split; [exact Hrun|].
  apply (@extract_details_annotates Concrete.builtins Annotator.service
           _ _ _ _ _ _ _ _ _ Annotator.rules
           [("V.1.2", Annotator.wheelbase)] "1" "V.1.2" 1
           (JObj [("V.1.2", Annotator.wheelbase)]) Annotator.wheelbase Hrun).
  - apply lookup_singleton_eq.
  - repeat constructor; simpl; intuition discriminate.
  - reflexivity.
  - reflexivity.
  - reflexivity.
  - reflexivity.
  - repeat constructor; simpl; intuition discriminate.
  - reflexivity.
Defined.

(** X21 (extract_details, kv_term.py).  [int(page)] is evaluated for
    every page before its number is compared with the range: one page
    key that is no integer numeral, wherever it stands in the document
    and whatever the range, makes the run raise, and the files are left
    as they were. *)
Theorem extract_details_page_key_not_integer `{Builtins} `{Service}
        (input_file output_file : string)
        (prompt_term_extraction prompt_measurement_extraction : option string)
        (start_page end_page : Z) (fs : filesystem)
        (data : pydict) (page : string) (value : json) :
  fs !! input_file = Some (JsonFile (JObj data)) ->
  In (page, value) data ->
  py_int page = None ->
  exists f,
    extract_details input_file output_file prompt_term_extraction
                    prompt_measurement_extraction start_page end_page fs =
    (Fail f, fs).
Proof.
  intros Hfile Hin Hpage.
  unfold extract_details, json_load, extract_details_data. rewrite Hfile.
  simpl.
  destruct (for_each_outcome _ data data) as [data'|f] eqn:Hloop; [|eauto].
  apply annotate_page_keys in Hloop.
  rewrite List.Forall_forall in Hloop. specialize (Hloop _ Hin).
  simpl in Hloop. rewrite Hpage in Hloop. by destruct Hloop.
Qed.

Lemma extract_details_page_key_not_integer_witness :
  exists f,
    @extract_details Concrete.builtins Annotator.service
      "rules.json" "annotated.json" (Some "terms:") (Some "measurements:")
      1 2
      {["rules.json" :=
          JsonFile (JObj (Annotator.rules ++ [("cover", JStr "FSAE")]))]} =
    (Fail f,
     {["rules.json" :=
         JsonFile (JObj (Annotator.rules ++ [("cover", JStr "FSAE")]))]}).
Proof.
  apply (@extract_details_page_key_not_integer
           Concrete.builtins Annotator.service
           "rules.json" "annotated.json" (Some "terms:")
           (Some "measurements:") 1 2 _
           (Annotator.rules ++ [("cover", JStr "FSAE")])
           "cover" (JStr "FSAE")).
  - apply lookup_singleton_eq.
  - simpl. auto.
  - reflexivity.
Defined.


(* ------------------------------------------------------------------ *)
(** ** extract_rules_gpt *)

Section RuleExtraction.
Context `{Builtins} `{Service}.

Lemma select_dictionary_range_Ok (input_dict context : pydict)
      (start_key end_key : Z) :
  select_dictionary_range input_dict start_key end_key = Ok context ->
  context = List.filter (key_in_range start_key end_key) input_dict.
Proof.
  revert context.
  induction input_dict as [|[key value] rest IH]; simpl; intros context Hs.
  - by injection Hs as <-.
  - unfold key_in_range at 1. simpl.
    destruct (py_int key) as [n|]; [|discriminate].
    destruct (select_dictionary_range rest start_key end_key) as [selected|];
      simpl in Hs; [|discriminate].
    injection Hs as <-. rewrite (IH selected eq_refl).
    by destruct ((start_key <=? n)%Z && (n <=? end_key)%Z).
Qed.

Lemma filter_keys_NoDup {V} (f : string * V -> bool) (d : list (string * V)) :
  List.NoDup (map fst d) -> List.NoDup (map fst (List.filter f d)).
Proof.
  induction d as [|kv d IH]; simpl; intros Hnd; [constructor|].
  apply List.NoDup_cons_iff in Hnd as [Hnot Hnd].
  destruct (f kv); simpl; [|by apply IH].
  constructor; [|by apply IH].
  intros Hin. apply Hnot. apply in_map_iff in Hin as (x & Hx & Hin).
  apply in_map_iff. exists x. split; [done|].
  by apply List.filter_In in Hin as [? _].
Qed.

Lemma ask_pages_NoDup prompt (context acc : pydict) :
  List.NoDup (map fst acc) ->
  List.NoDup (map fst (fold_left (ask_page prompt) context acc)).
Proof.
  revert acc. induction context as [|[page content] context IH]; simpl;
    intros acc Hacc; [done|].
  apply IH. destruct (llm_create _ _); [by apply dict_set_NoDup | done].
Qed.

Lemma ask_pages_get prompt (context acc : pydict) page :
  List.NoDup (map fst context) ->
  dict_get page (fold_left (ask_page prompt) context acc) =
  match page_content ← dict_get page context;
        llm_create "gpt-5-nano"
                   (prompt +:+ newline +:+ newline +:+
                    page_text page page_content) with
  | Some output_text => Some (JStr output_text)
  | None => dict_get page acc
  end.
Proof.
  revert acc. induction context as [|[p content] context IH]; simpl;
    intros acc Hnd; [done|].
  apply List.NoDup_cons_iff in Hnd as [Hnot Hnd].
  rewrite IH by done.
  destruct (String.eqb page p) eqn:E.
  - apply String.eqb_eq in E as ->.
    assert (dict_get p context = None) as -> by by apply dict_get_None.
    simpl. destruct (llm_create _ _); [apply dict_get_set_eq | done].
  - apply String.eqb_neq in E.
    destruct (dict_get page context ≫= _); [done|].
    destruct (llm_create _ _); [by apply dict_get_set_ne | done].
Qed.

Lemma py_eq_str (old : json) (a : string) :
  py_eq old (JStr a) = true -> old = JStr a.
Proof.
  destruct old; simpl; try discriminate.
  by intros ->%String.eqb_eq.
Qed.

Lemma update_json_missing json_file (new_data : pydict) (fs : filesystem) :
  fs !! json_file = None ->
  update_json_if_different json_file new_data fs =
  match new_data with
  | [] => (Raise AttributeError, <[json_file := CorruptFile]> fs)
  | _ :: _ => (Raise TypeError, <[json_file := JsonFile (JArr [])]> fs)
  end.
Proof.
  intros Hfile. unfold update_json_if_different, json_dump.
  rewrite Hfile. simpl. rewrite lookup_insert_eq.
  destruct new_data as [|item new_data]; simpl.
  - by rewrite insert_insert_eq.
  - by rewrite update_key_not_mapping.
Qed.
End RuleExtraction.

(** X22 (extract_rules_gpt, kv_rule.py).  On an output path where no
    file exists the function never succeeds, whatever the service
    answers: a page key that is no integer numeral raises ValueError
    before anything is written; otherwise the answers are collected and
    then lost, for [update_json_if_different] creates the file holding
    a list and raises TypeError at the first answer, or, when no page
    was answered, AttributeError after it has emptied the file. *)
Theorem extract_rules_gpt_fresh_output `{Builtins} `{Service}
        (page_content_dict : pydict) (output_json : string)
        (prompt : option string) (start_page end_page : Z)
        (fs : filesystem) :
  fs !! output_json = None ->
  exists err fs',
    extract_rules_gpt page_content_dict output_json prompt
                      start_page end_page fs = (Raise err, fs') /\
    (err = ValueError /\ fs' = fs \/
     err = TypeError /\ fs' = <[output_json := JsonFile (JArr [])]> fs \/
     err = AttributeError /\ fs' = <[output_json := CorruptFile]> fs).
Proof.
  intros Hfile. unfold extract_rules_gpt.
  destruct (select_dictionary_range page_content_dict start_page end_page)
    as [context|err] eqn:Hsel.
  - rewrite update_json_missing by done.
    destruct (fold_left _ context []); eauto 10.
  - exists err, fs. split; [done|]. left. split; [|done].
    clear -Hsel. revert Hsel.
    induction page_content_dict as [|[key value] rest IH]; simpl;
      [discriminate|].
    destruct (py_int key); [|by intros [= <-]].
    destruct (select_dictionary_range rest start_page end_page); simpl;
      [discriminate|]. intros [= <-]. by apply IH.
Qed.

Lemma extract_rules_gpt_fresh_output_witness :
  exists err fs',
    @extract_rules_gpt Concrete.builtins
      (Replies.service [("Page 16", "V.1 Wheelbase")])
      [("16", JStr "V.1 The wheelbase"); ("17", JStr "V.2 The track")]
      "extracted_rules.json" None 16 18 ∅ = (Raise err, fs') /\
    (err = ValueError /\ fs' = ∅ \/
     err = TypeError /\
       fs' = <["extracted_rules.json" := JsonFile (JArr [])]> ∅ \/
     err = AttributeError /\
       fs' = <["extracted_rules.json" := CorruptFile]> ∅).
Proof.
  apply (@extract_rules_gpt_fresh_output Concrete.builtins
           (Replies.service [("Page 16", "V.1 Wheelbase")])
           [("16", JStr "V.1 The wheelbase"); ("17", JStr "V.2 The track")]
           "extracted_rules.json" None 16 18 ∅).
  apply lookup_empty.
Defined.

(** X23 (extract_rules_gpt, kv_rule.py).  On an output file that holds
    a mapping, a run whose page keys are all integer numerals succeeds
    and leaves in the file, under each page of the range that the
    service answered, the text of the answer; every other key -- a page
    whose call raised, a page outside the range, a key that is no page
    of the input -- holds what the file held before, or is absent as
    before. *)
Theorem extract_rules_gpt_stores_answers `{Builtins} `{Service}
        (page_content_dict context store : pydict) (output_json : string)
        (prompt : option string) (start_page end_page : Z)
        (fs : filesystem) :
  fs !! output_json = Some (JsonFile (JObj store)) ->
  List.NoDup (map fst page_content_dict) ->
  select_dictionary_range page_content_dict start_page end_page =
    Ok context ->
  exists doc,
    extract_rules_gpt page_content_dict output_json prompt
                      start_page end_page fs =
      (Ok (), <[output_json := JsonFile (JObj doc)]> fs) /\
    forall page,
      dict_get page doc =
      match page_answer prompt context page with
      | Some output_text => Some (JStr output_text)
      | None => dict_get page store
      end.
Proof.
  intros Hfile Hnd Hsel. unfold extract_rules_gpt. rewrite Hsel.
  rewrite (update_json_object _ _ store) by done.
  eexists. split; [done|]. intros page.
  assert (Hctx : List.NoDup (map fst context)).
  { rewrite (select_dictionary_range_Ok _ _ _ _ Hsel).
    by apply filter_keys_NoDup. }
  rewrite dict_get_sorted_items, merged_get
    by (apply ask_pages_NoDup; constructor).
  unfold upserted, page_answer. rewrite ask_pages_get by done.
  destruct (dict_get page context ≫= _) as [a|]; simpl; [|done].
  destruct (dict_get page store) as [old|]; [|done].
  destruct (py_eq old (JStr a)) eqn:E; [|done].
  by rewrite (py_eq_str _ _ E).
Qed.

Lemma extract_rules_gpt_stores_answers_witness :
  exists doc,
    @extract_rules_gpt Concrete.builtins
      (Replies.service [("Page 16", "V.1 Wheelbase")])
      [("16", JStr "V.1 The wheelbase"); ("17", JStr "V.2 The track");
       ("40", JStr "T.1 Brakes")]
      "extracted_rules.json" None 16 18
      {["extracted_rules.json" := JsonFile (JObj [("17", JStr "V.2")])]} =
      (Ok (),
       <["extracted_rules.json" := JsonFile (JObj doc)]>
         {["extracted_rules.json" := JsonFile (JObj [("17", JStr "V.2")])]})
    /\
    forall page,
      dict_get page doc =
      match @page_answer (Replies.service [("Page 16", "V.1 Wheelbase")])
              None
              [("16", JStr "V.1 The wheelbase"); ("17", JStr "V.2 The track")]
              page with
      | Some output_text => Some (JStr output_text)
      | None => dict_get page [("17", JStr "V.2")]
      end.
Proof.
  apply (@extract_rules_gpt_stores_answers Concrete.builtins
           (Replies.service [("Page 16", "V.1 Wheelbase")])
           [("16", JStr "V.1 The wheelbase"); ("17", JStr "V.2 The track");
            ("40", JStr "T.1 Brakes")]
           [("16", JStr "V.1 The wheelbase"); ("17", JStr "V.2 The track")]
           [("17", JStr "V.2")] "extracted_rules.json" None 16 18).
  - apply lookup_singleton_eq.
  - repeat constructor; simpl; intuition discriminate.
  - reflexivity.
Defined.


(* ------------------------------------------------------------------ *)
(** ** retrieve_context *)

Section Retrieval.
Context `{Builtins} `{Service}.

Lemma extract_information_invalid_mode input_file key mode data
      (fs : filesystem) :
  json_load fs input_file = Ok data ->
  mode <> "definition" ->
  mode <> "rule_numbers" ->
  extract_information input_file key mode fs =
  Ok (JStr ("Invalid information_to_extract value: " +:+ mode +:+
            ". Use 'definition' or 'rule_numbers'.")).
Proof.
  intros Hload Hd Hr. unfold extract_information. rewrite Hload. simpl.
  unfold extract_information_data.
  apply String.eqb_neq in Hd, Hr. by rewrite Hd, Hr.
Qed.
End Retrieval.

(** X24 (retrieve_context and invoke_llm, kv-rag/utils/kv_qa.py).  When
    the call of the service raises, [invoke_llm] returns the empty dict
    it started with, both fields of the answer are [None], and the
    lookup is made for the mode None: with the terms file readable the
    function returns the key [None] and the message for an invalid
    mode, not an error. *)
Theorem retrieve_context_service_down `{Builtins} `{Service}
        (prompt model question : string) (data : json) (fs : filesystem) :
  llm_create model (prompt +:+ newline +:+ newline +:+ str_strip question) =
    None ->
  json_load fs QA.output_file_with_terms = Ok data ->
  QA.retrieve_context prompt model (JStr question) fs =
  Ok (JObj [("key_to_extract", JNull);
            ("information_extracted",
             JStr "Invalid information_to_extract value: None. Use 'definition' or 'rule_numbers'.")]).
Proof.
  intros Hdown Hload. unfold QA.retrieve_context, QA.invoke_llm. simpl.
  rewrite Hdown. simpl.
  by rewrite (extract_information_invalid_mode _ _ "None" data).
Qed.

Lemma retrieve_context_service_down_witness :
  @QA.retrieve_context Concrete.builtins Replies.down
    Retrieval.prompt "gpt-5-nano" (JStr "Which rules cover brakes?")
    Retrieval.store =
  Ok (JObj [("key_to_extract", JNull);
            ("information_extracted",
             JStr "Invalid information_to_extract value: None. Use 'definition' or 'rule_numbers'.")]).
Proof.
  apply (@retrieve_context_service_down Concrete.builtins Replies.down
           Retrieval.prompt "gpt-5-nano" "Which rules cover brakes?"
           (JObj []) Retrieval.store).
  - reflexivity.
  - unfold json_load, Retrieval.store. by rewrite lookup_singleton_eq.
Defined.

(** X25 (retrieve_context, kv-rag/utils/kv_qa.py).  An answer of the
    service that is not the text of a JSON object -- prose, or the text
    of a list, a number or a string -- ends the function with
    AttributeError: the handler of the decoding error only prints, and
    [answer.get] is then called on a value that is no dict.  The terms
    file is not read. *)
Theorem retrieve_context_answer_not_an_object `{Builtins} `{Service}
        (prompt model question results : string) (fs : filesystem) :
  llm_create model (prompt +:+ newline +:+ newline +:+ str_strip question) =
    Some results ->
  (forall answer, json_loads results <> Some (JObj answer)) ->
  QA.retrieve_context prompt model (JStr question) fs = Raise AttributeError.
Proof.
  intros Hanswer Hnot. unfold QA.retrieve_context, QA.invoke_llm. simpl.
  rewrite Hanswer. simpl.
  destruct (json_loads results) as [[| | | | |answer]|]; simpl; try done.
  by destruct (Hnot answer).
Qed.

Lemma retrieve_context_answer_not_an_object_witness :
  @QA.retrieve_context Concrete.builtins Retrieval.prose
    Retrieval.prompt "gpt-5-nano" (JStr "Which rules cover brakes?") ∅ =
  Raise AttributeError.
Proof.
  apply (@retrieve_context_answer_not_an_object
           Concrete.builtins Retrieval.prose
           Retrieval.prompt "gpt-5-nano" "Which rules cover brakes?"
           "The rules are T.7 and T.8." ∅).
  - reflexivity.
  - intros answer. vm_compute. discriminate.
Defined.

(** X26 (retrieve_context, kv-rag/utils/kv_qa.py).  The mode the answer
    names is passed on as it is: an answer whose
    ["information_to_extract"] is a string other than [definition] and
    [rule_numbers] -- the [rule_number] of the examples in the
    function's own prompt is one -- gets the message for an invalid
    mode as its context, whatever the key and whatever the terms file
    holds. *)
Theorem retrieve_context_unknown_mode `{Builtins} `{Service}
        (prompt model question results mode : string) (answer : pydict)
        (data : json) (fs : filesystem) :
  llm_create model (prompt +:+ newline +:+ newline +:+ str_strip question) =
    Some results ->
  json_loads results = Some (JObj answer) ->
  dict_get "information_to_extract" answer = Some (JStr mode) ->
  mode <> "definition" ->
  mode <> "rule_numbers" ->
  json_load fs QA.output_file_with_terms = Ok data ->
  QA.retrieve_context prompt model (JStr question) fs =
  Ok (JObj [("key_to_extract",
             default JNull (dict_get "key_to_extract" answer));
            ("information_extracted",
             JStr ("Invalid information_to_extract value: " +:+ mode +:+
                   ". Use 'definition' or 'rule_numbers'."))]).
Proof.
  intros Hanswer Hjson Hmode Hd Hr Hload.
  unfold QA.retrieve_context, QA.invoke_llm. simpl.
  rewrite Hanswer. simpl. rewrite Hjson. simpl. rewrite Hmode. simpl.
  by rewrite (extract_information_invalid_mode _ _ mode data).
Qed.

Lemma retrieve_context_unknown_mode_witness :
  @QA.retrieve_context Concrete.builtins Retrieval.service
    Retrieval.prompt "gpt-5-nano" (JStr "Which rules cover Aerodynamic?")
    Retrieval.store =
  Ok (JObj [("key_to_extract",
             default JNull
               (dict_get "key_to_extract"
                  [("key_to_extract", JStr "Aerodynamic");
                   ("information_to_extract", JStr "rule_number")]));
            ("information_extracted",
             JStr ("Invalid information_to_extract value: " +:+
                   "rule_number" +:+
                   ". Use 'definition' or 'rule_numbers'."))]).
Proof.
  apply (@retrieve_context_unknown_mode Concrete.builtins Retrieval.service
           Retrieval.prompt "gpt-5-nano" "Which rules cover Aerodynamic?"
           Retrieval.answer "rule_number"
           [("key_to_extract", JStr "Aerodynamic");
            ("information_to_extract", JStr "rule_number")]
           (JObj []) Retrieval.store).
  - reflexivity.
  - vm_compute. reflexivity.
  - reflexivity.
  - discriminate.
  - discriminate.
  - unfold json_load, Retrieval.store. by rewrite lookup_singleton_eq.
Defined.


(* ------------------------------------------------------------------ *)
(** ** split_text_by_page *)

Lemma str_partition_eq (sep s : string) :
  str_partition sep s =
  if String.prefix sep s then Some (EmptyString, str_drop (String.length sep) s)
  else match s with
       | EmptyString => None
       | String c s' =>
           match str_partition sep s' with
           | Some (before, after) => Some (String c before, after)
           | None => None
           end
       end.
Proof. by destruct s. Qed.

Lemma str_contains_eq (sub s : string) :
  str_contains sub s =
  String.prefix sub s ||
  match s with
  | EmptyString => false
  | String _ s' => str_contains sub s'
  end.
Proof. by destruct s. Qed.

Lemma str_app_cons c (u v : string) : String c u +:+ v = String c (u +:+ v).
Proof. reflexivity. Qed.

Lemma str_app_nil_l (v : string) : "" +:+ v = v.
Proof. reflexivity. Qed.

Lemma str_length_app (u v : string) :
  String.length (u +:+ v) = String.length u + String.length v.
Proof.
  induction u as [|c u IH]; [done|].
  rewrite str_app_cons. simpl. by rewrite IH.
Qed.

Lemma str_app_assoc (u v w : string) : (u +:+ v) +:+ w = u +:+ (v +:+ w).
Proof.
  induction u as [|c u IH]; [done|]. rewrite !str_app_cons. by rewrite IH.
Qed.

Lemma str_app_nil_r (u : string) : u +:+ "" = u.
Proof.
  induction u as [|c u IH]; [done|]. rewrite str_app_cons. by rewrite IH.
Qed.

Lemma prefix_app_same (p v : string) : String.prefix p (p +:+ v) = true.
Proof.
  induction p as [|c p IH]; [by destruct v|].
  rewrite str_app_cons. simpl.
  destruct (Ascii.ascii_dec c c); [apply IH | done].
Qed.

Lemma str_drop_app (p v : string) : str_drop (String.length p) (p +:+ v) = v.
Proof.
  induction p as [|c p IH]; [done|]. rewrite str_app_cons. simpl. apply IH.
Qed.

Lemma prefix_app_long (p u v : string) :
  String.length p <= String.length u ->
  String.prefix p (u +:+ v) = String.prefix p u.
Proof.
  revert u. induction p as [|c p IH]; intros u Hlen.
  - destruct u; [by destruct v | done].
  - destruct u as [|c' u]; simpl in Hlen; [lia|].
    rewrite str_app_cons. simpl.
    destruct (Ascii.ascii_dec c c'); [|done]. apply IH. lia.
Qed.

Lemma prefix_app_l (p u v : string) :
  String.prefix p u = true -> String.prefix p (u +:+ v) = true.
Proof.
  revert u. induction p as [|c p IH]; intros u Hp.
  - destruct u; [by destruct v | done].
  - destruct u as [|c' u]; simpl in Hp; [done|].
    rewrite str_app_cons. simpl.
    destruct (Ascii.ascii_dec c c'); [by apply IH | done].
Qed.

Lemma str_contains_app_l (sep u v : string) :
  str_contains sep (u +:+ v) = false -> str_contains sep u = false.
Proof.
  induction u as [|c u IH].
  - rewrite str_app_nil_l, str_contains_eq.
    intros [Hp _]%orb_false_elim.
    destruct sep; [by destruct v | done].
  - rewrite str_app_cons.
    rewrite (str_contains_eq sep (String c (u +:+ v))),
            (str_contains_eq sep (String c u)).
    intros [Hp Hrest]%orb_false_elim. rewrite (IH Hrest), orb_false_r.
    destruct (String.prefix sep (String c u)) eqn:E; [|done].
    apply (prefix_app_l _ _ v) in E. rewrite str_app_cons in E. congruence.
Qed.

Lemma str_partition_None (sep s : string) :
  str_partition sep s = None <-> str_contains sep s = false.
Proof.
  induction s as [|c s IH]; rewrite str_partition_eq, str_contains_eq.
  - destruct (String.prefix sep ""); simpl; split; done.
  - destruct (String.prefix sep (String c s)); simpl; [split; done|].
    rewrite <- IH. destruct (str_partition sep s) as [[a b]|]; split; done.
Qed.

(** The first occurrence of [sep] in [a ++ sep ++ b] is the one written,
    when [sep] does not begin inside [a]: it does not occur in [a]
    followed by all of [sep] but its last character. *)
Lemma str_partition_app (sep' : string) (c : Ascii.ascii) (a b : string) :
  str_contains (sep' +:+ String c "") (a +:+ sep') = false ->
  str_partition (sep' +:+ String c "") (a +:+ (sep' +:+ String c "") +:+ b) =
  Some (a, b).
Proof.
  set (sep := sep' +:+ String c "").
  induction a as [|x a IH]; intros Hfree.
  - rewrite str_app_nil_l, str_partition_eq, prefix_app_same.
    by rewrite str_drop_app.
  - rewrite str_app_cons, str_contains_eq in Hfree.
    apply orb_false_elim in Hfree as [Hp Hrest].
    rewrite str_app_cons, str_partition_eq, (IH Hrest).
    assert (Hpre : String.prefix sep (String x (a +:+ sep +:+ b)) = false).
    { assert (Heq : String x (a +:+ sep +:+ b) =
                    String x (a +:+ sep') +:+ (String c "" +:+ b)).
      { rewrite str_app_cons. f_equal. unfold sep.
        by rewrite !str_app_assoc. }
      rewrite Heq, prefix_app_long; [exact Hp|].
      unfold sep. rewrite str_length_app. simpl.
      rewrite str_length_app. lia. }
    by rewrite Hpre.
Qed.

Lemma prefix_length (p s : string) :
  String.prefix p s = true ->
  String.length (str_drop (String.length p) s) + String.length p =
  String.length s.
Proof.
  revert s. induction p as [|c p IH]; intros s Hp; simpl.
  - lia.
  - destruct s as [|c' s]; simpl in *; [done|].
    destruct (Ascii.ascii_dec c c'); [|done]. rewrite <- (IH s Hp). lia.
Qed.

Section Splitting.
Context `{Service}.

Lemma split_upto_blocks (sep' : string) (c : Ascii.ascii)
      (blocks : list string) (pre : string) (cuts : nat) :
  let sep := sep' +:+ String c "" in
  Forall (fun blk => str_contains sep (blk +:+ sep') = false) (pre :: blocks) ->
  String.length (pre +:+ fold_right (fun blk rest => sep +:+ blk +:+ rest)
                                    "" blocks) <= cuts ->
  split_upto cuts sep
             (pre +:+ fold_right (fun blk rest => sep +:+ blk +:+ rest)
                                 "" blocks) =
  pre :: blocks.
Proof.
  intros sep. revert pre cuts.
  induction blocks as [|blk blocks IH]; intros pre cuts Hfree Hlen.
  - simpl. rewrite str_app_nil_r.
    apply Forall_cons_1 in Hfree as [Hpre _].
    apply str_contains_app_l, str_partition_None in Hpre.
    destruct cuts; simpl; by rewrite Hpre.
  - apply Forall_cons_1 in Hfree as [Hpre Hfree].
    cbn [fold_right] in *.
    set (rest := fold_right (fun blk rest => sep +:+ blk +:+ rest) "" blocks)
      in *.
    assert (Hpart : str_partition sep (pre +:+ sep +:+ blk +:+ rest) =
                    Some (pre, blk +:+ rest))
      by by apply str_partition_app.
    rewrite !str_length_app in Hlen.
    assert (0 < String.length sep)
      by (unfold sep; rewrite str_length_app; simpl; lia).
    destruct cuts as [|cuts]; [lia|].
    cbn [split_upto]. rewrite Hpart. f_equal.
    apply IH; [done|]. rewrite str_length_app. lia.
Qed.

Lemma str_split_marked_text (preface : string)
      (pages : list (string * string)) :
  str_contains "--- Page " (preface +:+ "--- Page") = false ->
  forallb plain_block pages = true ->
  str_split "--- Page " (marked_text preface pages) =
  preface :: map (fun page => fst page +:+ "---" +:+ snd page) pages.
Proof.
  intros Hpre Hpages. unfold str_split, marked_text.
  assert (Hfold : fold_right (fun page rest => page_block page +:+ rest) ""
                             pages =
                  fold_right (fun blk rest => "--- Page " +:+ blk +:+ rest) ""
                    (map (fun page => fst page +:+ "---" +:+ snd page) pages)).
  { clear. induction pages as [|page pages IH]; [done|].
    cbn [fold_right map]. rewrite <- IH. unfold page_block.
    by rewrite !str_app_assoc. }
  rewrite Hfold.
  apply (split_upto_blocks "--- Page" (Ascii.ascii_of_nat 32)); [|done].
  constructor; [done|].
  clear -Hpages. induction pages as [|page pages IH]; [constructor|].
  simpl in Hpages. apply andb_prop in Hpages as [Hpage Hpages].
  cbn [map]. constructor; [|by apply IH].
  unfold plain_block in Hpage. apply andb_prop in Hpage as [_ Hmark].
  apply negb_true_iff in Hmark. by rewrite !str_app_assoc.
Qed.

Lemma split_page_cases (acc : pydict) (piece : string) :
  split_page acc piece =
  if String.eqb (str_strip piece) "" then Ok acc
  else match str_partition "---" piece with
       | Some (page_number, content) =>
           Ok (dict_set (str_strip page_number) (JStr (str_strip content)) acc)
       | None => Raise ValueError
       end.
Proof. unfold split_page. by destruct (String.eqb (str_strip piece) ""). Qed.

Lemma split_pages_blocks (pages : list (string * string)) (acc : pydict) :
  forallb plain_block pages = true ->
  forallb inked_block pages = true ->
  for_each split_page
           (map (fun page => fst page +:+ "---" +:+ snd page) pages) acc =
  Ok (fold_left (fun d page => dict_set (str_strip (fst page))
                                        (JStr (str_strip (snd page))) d)
                pages acc).
Proof.
  revert acc. induction pages as [|[n body] pages IH]; intros acc Hp Hi;
    [done|].
  simpl in Hp, Hi. apply andb_prop in Hp as [Hplain Hp].
  apply andb_prop in Hi as [Hinked Hi].
  cbn [map for_each fst snd fold_left]. rewrite split_page_cases.
  unfold inked_block in Hinked. cbn [fst snd] in Hinked.
  apply negb_true_iff in Hinked. rewrite Hinked.
  unfold plain_block in Hplain. apply andb_prop in Hplain as [Hnum _].
  apply negb_true_iff in Hnum. cbn [fst snd] in Hnum.
  assert (Hpart : str_partition "---" (n +:+ "---" +:+ body) =
                  Some (n, body))
    by exact (str_partition_app "--" (Ascii.ascii_of_nat 45) n body Hnum).
  rewrite Hpart. by apply IH.
Qed.

Lemma split_page_raises (pieces : list string) (acc : pydict) e :
  for_each split_page pieces acc = Raise e -> e = ValueError.
Proof.
  revert acc. induction pieces as [|piece pieces IH]; intros acc;
    cbn [for_each]; [discriminate|].
  rewrite split_page_cases.
  destruct (String.eqb (str_strip piece) ""); [apply IH|].
  destruct (str_partition "---" piece) as [[a b]|];
    [apply IH | by intros [= <-]].
Qed.

Lemma split_page_returns (pieces : list string) (acc : pydict) :
  returns (for_each split_page pieces acc) <->
  Forall (fun piece => str_strip piece = "" \/
                       str_contains "---" piece = true) pieces.
Proof.
  revert acc. induction pieces as [|piece pieces IH]; intros acc;
    cbn [for_each].
  - split; [constructor | by eexists].
  - rewrite split_page_cases.
    destruct (String.eqb (str_strip piece) "") eqn:E.
    + apply String.eqb_eq in E.
      change (returns (for_each split_page pieces acc) <->
              Forall (fun piece => str_strip piece = "" \/
                                   str_contains "---" piece = true)
                     (piece :: pieces)).
      rewrite IH. split.
      * intros Hc. constructor; auto.
      * by intros [_ ?]%Forall_cons_1.
    + apply String.eqb_neq in E.
      destruct (str_partition "---" piece) as [[a b]|] eqn:Hp.
      * assert (str_contains "---" piece = true).
        { destruct (str_contains "---" piece) eqn:C; [done|].
          apply str_partition_None in C. congruence. }
        change (returns (for_each split_page pieces
                           (dict_set (str_strip a) (JStr (str_strip b)) acc))
                <->
                Forall (fun piece => str_strip piece = "" \/
                                     str_contains "---" piece = true)
                       (piece :: pieces)).
        rewrite IH. split.
        -- intros Hc. constructor; auto.
        -- by intros [_ ?]%Forall_cons_1.
      * apply str_partition_None in Hp. split.
        -- intros [? ?]. discriminate.
        -- intros [[?|?] _]%Forall_cons_1; congruence.
Qed.
End Splitting.

(** X27 (split_text_by_page, init_kv.py).  The function returns exactly
    when every piece between two page markers is blank or has a
    ["---"]: the branch written for a piece without one unpacks a list
    of one part into two names, so such a piece -- text before the
    first marker, a marker that lost its closing dashes -- raises
    ValueError, and no JSON file is written. *)
Theorem split_text_by_page_returns_iff `{Service}
        (text_file output_json text : string) (texts : textfiles)
        (fs : filesystem) :
  texts !! text_file = Some text ->
  (returns (fst (split_text_by_page text_file output_json texts fs)) <->
   Forall (fun piece => str_strip piece = "" \/
                        str_contains "---" piece = true)
          (str_split "--- Page " text)) /\
  (~ returns (fst (split_text_by_page text_file output_json texts fs)) ->
   split_text_by_page text_file output_json texts fs =
     (Raise ValueError, fs)).
Proof.
  intros Htext. unfold split_text_by_page. rewrite Htext.
  rewrite <- (split_page_returns _ []).
  destruct (for_each split_page _ []) as [d|e] eqn:Hloop; simpl.
  - split; [split; intros _; by eexists|].
    intros Hnot. destruct Hnot. by eexists.
  - split; [split; intros [? ?]; discriminate|].
    intros _. by rewrite (split_page_raises _ _ _ Hloop).
Qed.

Lemma split_text_by_page_returns_iff_witness :
  (returns (fst (@split_text_by_page Replies.down
                   "cln_rules.txt" "cln_rules.json"
                   {["cln_rules.txt" := "FSAE Rules 2024--- Page 1 ---V.1"]}
                   ∅)) <->
   Forall (fun piece => Concrete.strip piece = "" \/
                        str_contains "---" piece = true)
          (str_split "--- Page " "FSAE Rules 2024--- Page 1 ---V.1")) /\
  (~ returns (fst (@split_text_by_page Replies.down
                     "cln_rules.txt" "cln_rules.json"
                     {["cln_rules.txt" := "FSAE Rules 2024--- Page 1 ---V.1"]}
                     ∅)) ->
   @split_text_by_page Replies.down "cln_rules.txt" "cln_rules.json"
     {["cln_rules.txt" := "FSAE Rules 2024--- Page 1 ---V.1"]} ∅ =
     (Raise ValueError, ∅)).
Proof.
  apply (@split_text_by_page_returns_iff Replies.down
           "cln_rules.txt" "cln_rules.json"
           "FSAE Rules 2024--- Page 1 ---V.1").
  apply lookup_singleton_eq.
Defined.

(** X28 (split_text_by_page, init_kv.py).  On a text made of page
    blocks, each the marker, a number, the closing dashes and the lines
    of the page, after a blank preface, the function writes and returns
    one entry per block, in the order of the text: the number and the
    lines, each stripped.  The blocks must not bring dashes of their own
    that read as a marker or as the closing of one, must not be blank,
    and must have different numbers. *)
Theorem split_text_by_page_blocks `{Service}
        (text_file output_json preface : string)
        (pages : list (string * string)) (texts : textfiles)
        (fs : filesystem) :
  texts !! text_file = Some (marked_text preface pages) ->
  str_strip preface = "" ->
  str_contains "--- Page " (preface +:+ "--- Page") = false ->
  forallb plain_block pages = true ->
  forallb inked_block pages = true ->
  List.NoDup (map (fun page => str_strip (fst page)) pages) ->
  let page_content_dict :=
    map (fun page => (str_strip (fst page), JStr (str_strip (snd page))))
        pages in
  split_text_by_page text_file output_json texts fs =
  (Ok (JObj page_content_dict),
   <[output_json := JsonFile (JObj page_content_dict)]> fs).
Proof.
  intros Htext Hblank Hpre Hplain Hinked Hnd d.
  unfold split_text_by_page. rewrite Htext.
  rewrite str_split_marked_text by done.
  cbn [for_each]. rewrite split_page_cases, Hblank. simpl.
  rewrite split_pages_blocks by done.
  assert (Hfold : forall acc : pydict,
    List.NoDup (map fst acc ++ map (fun page => str_strip (fst page)) pages) ->
    fold_left (fun d page => dict_set (str_strip (fst page))
                                      (JStr (str_strip (snd page))) d)
              pages acc =
    acc ++ map (fun page => (str_strip (fst page),
                             JStr (str_strip (snd page)))) pages).
  { clear. induction pages as [|page pages IH]; intros acc Hnd; simpl.
    - by rewrite app_nil_r.
    - rewrite dict_set_fresh.
      + rewrite IH.
        * by rewrite <- app_assoc.
        * rewrite map_app. simpl. by rewrite <- app_assoc.
      + apply dict_get_None. intros Hin.
        apply List.NoDup_remove_2 in Hnd. apply Hnd.
        apply in_or_app. by left. }
  by rewrite (Hfold [] Hnd).
Qed.

Lemma split_text_by_page_blocks_witness :
  @split_text_by_page Replies.down "cln_rules.txt" "cln_rules.json"
    {["cln_rules.txt" :=
        marked_text ""
          [("1 ", newline +:+ "V.1 Wheelbase" +:+ newline);
           ("2 ", newline +:+ "V.2 Track - front" +:+ newline)]]} ∅ =
  (Ok (JObj [("1", JStr "V.1 Wheelbase"); ("2", JStr "V.2 Track - front")]),
   <["cln_rules.json" :=
       JsonFile (JObj [("1", JStr "V.1 Wheelbase");
                       ("2", JStr "V.2 Track - front")])]> ∅).
Proof.
  apply (@split_text_by_page_blocks Replies.down
           "cln_rules.txt" "cln_rules.json" ""
           [("1 ", newline +:+ "V.1 Wheelbase" +:+ newline);
            ("2 ", newline +:+ "V.2 Track - front" +:+ newline)]).
  - apply lookup_singleton_eq.
  - reflexivity.
  - reflexivity.
  - reflexivity.
  - reflexivity.
  - repeat constructor; simpl; intuition discriminate.
Defined.


(* ------------------------------------------------------------------ *)
(** ** Lookups in the document extract_terms writes *)

Section TermRecordLookups.
Context `{Builtins}.

Lemma collect_rule_numbers_raises key_to_extract rule_numbers
      (item : string * json) e :
  collect_rule_numbers key_to_extract rule_numbers item = Raise e ->
  e = AttributeError.
Proof.
  destruct item as [key value]. unfold collect_rule_numbers.
  destruct (loads_if_str value) as [[| | | | |fields]|]; simpl;
    try discriminate; try by intros [= <-].
  destruct (loads_if_str (default (JObj []) (dict_get "terms" fields)))
    as [[| | | | |terms]|]; simpl; try discriminate; by intros [= <-].
Qed.

Lemma scan_raises key_to_extract (records : pydict) rule_numbers e :
  for_each (collect_rule_numbers key_to_extract) records rule_numbers =
    Raise e ->
  e = AttributeError.
Proof.
  revert rule_numbers.
  induction records as [|item records IH]; intros rule_numbers; simpl;
    [discriminate|].
  destruct (collect_rule_numbers key_to_extract rule_numbers item)
    as [acc|e'] eqn:Hitem; simpl.
  - apply IH.
  - intros [= <-]. by eapply collect_rule_numbers_raises.
Qed.

(** The record of a term whose spelling is the text of a JSON value that
    is no mapping cannot be read by the scan. *)
Lemma term_record_not_scannable (e : term_entry) term parsed :
  acc_terms e = JStr term ->
  json_loads term = Some parsed ->
  is_mapping parsed = false ->
  scannable_record (term_record e) = false.
Proof.
  intros Hterms Hparsed Hmapping. unfold scannable_record, term_record.
  simpl. rewrite Hterms. simpl. rewrite Hparsed. by destruct parsed.
Qed.
End TermRecordLookups.

(** C7.  [extract_information] raises on a document the pipeline itself
    writes.  [extract_terms] gives every term a record whose ["terms"]
    field is the term as a string; the scan of mode "rule_numbers"
    decodes a ["terms"] that is a string and skips the record only when
    the text does not parse.  When a term is spelled like a JSON value
    that is no mapping -- the steel 4130, or null, or true -- the text
    parses, [terms.items()] is called on the value, and the lookup ends
    with AttributeError for every query: no list and no not-found
    message is returned. *)
Theorem extract_information_term_record_raises `{Builtins}
        (input_file output_file : string) (data : json)
        (term : string) (parsed : json) (fs : filesystem) :
  fs !! input_file = Some (JsonFile data) ->
  terms_document data = true ->
  occurrences_of term data <> [] ->
  json_loads term = Some parsed ->
  is_mapping parsed = false ->
  exists output e,
    extract_terms input_file output_file fs =
      Ok (<[output_file := JsonFile (JObj output)]> fs) /\
    dict_get term output = Some (term_record e) /\
    acc_terms e = JStr term /\
    forall key_to_extract,
      extract_information output_file key_to_extract "rule_numbers"
        (<[output_file := JsonFile (JObj output)]> fs) =
      Raise AttributeError.
Proof.
  intros Hfile Hdoc Hocc Hparsed Hmapping.
  destruct (extract_terms_data_get data Hdoc)
    as (terms & flat & output & _ & Hfold & _ & _ & Hout & _ & Hget).
  assert (Hentry : exists e, dict_get term terms = Some e /\
                             acc_terms e = JStr term).
  { assert (Hproj : dict_get term terms =
               fold_left (fun oe o => Some (update_term_entry
                                              (default new_term_entry oe) o))
                         (occurrences_of term data) None)
      by (by rewrite Hfold, dict_get_record_with).
    destruct (entry_fold_Some update_term_entry new_term_entry
                (occurrences_of term data) None) as [e He]; [by left|].
    exists e. rewrite Hproj. split; [done|].
    eapply (term_entry_terms term _ None); [|done|exact He].
    apply occurrences_of_term. }
  destruct Hentry as (e & He & Hterms).
  assert (Hrecord : dict_get term output = Some (term_record e))
    by (by rewrite Hget, He).
  exists output, e. split_and!; try done.
  - exact (extract_terms_writes input_file output_file data output fs
             Hfile Hout).
  - intros key_to_extract.
    unfold extract_information, json_load. rewrite lookup_insert_eq. simpl.
    destruct (extract_information_data (JObj output) key_to_extract
                                       "rule_numbers") as [v|err] eqn:Hscan.
    + assert (Hs : scannable (JObj output) = true).
      { apply (extract_information_scan_returns_iff _ key_to_extract).
        rewrite Hscan. by eexists. }
      simpl in Hs. rewrite forallb_forall in Hs.
      specialize (Hs (term, term_record e) (dict_get_Some_In _ _ _ Hrecord)).
      simpl in Hs.
      by rewrite (term_record_not_scannable e term parsed) in Hs.
    + f_equal. unfold extract_information_data in Hscan. simpl in Hscan.
      destruct (for_each (collect_rule_numbers key_to_extract) output [])
        as [rule_numbers|err'] eqn:Hloop; simpl in Hscan; [discriminate|].
      injection Hscan as <-. by eapply scan_raises.
Qed.

Lemma extract_information_term_record_raises_witness :
  exists output e,
    @extract_terms Concrete.builtins "processed_rules.json"
      "processed_rules_with_terms.json"
      {["processed_rules.json" := JsonFile Alloy.rules]} =
      Ok (<["processed_rules_with_terms.json" := JsonFile (JObj output)]>
            {["processed_rules.json" := JsonFile Alloy.rules]}) /\
    dict_get "4130" output = Some (term_record e) /\
    acc_terms e = JStr "4130" /\
    forall key_to_extract,
      @extract_information Concrete.builtins
        "processed_rules_with_terms.json" key_to_extract "rule_numbers"
        (<["processed_rules_with_terms.json" := JsonFile (JObj output)]>
           {["processed_rules.json" := JsonFile Alloy.rules]}) =
      Raise AttributeError.
Proof.
  apply (@extract_information_term_record_raises Concrete.builtins
           "processed_rules.json" "processed_rules_with_terms.json"
           Alloy.rules "4130" (JNum 4130)).
  - apply lookup_singleton_eq.
  - vm_compute. reflexivity.
  - vm_compute. discriminate.
  - vm_compute. reflexivity.
  - reflexivity.
Defined.
